(** * Statement normalisation and categorisation pipeline

  A shallow embedding of the spreadsheet and PDF statement processors
  ([excel_processor.py], [pdf_processor.py]): the keyword categorisers,
  the header detector, the date normaliser, the per-row transaction
  builder and the batched AI re-categoriser, together with the
  properties the specification states about them. *)

From Stdlib Require Import ZArith QArith Qabs Ascii String List Lia Lqa Bool.
From Stdlib Require Import Numbers.DecimalString.
From stdpp Require Import base option list strings gmap.

Local Open Scope string_scope.
Local Open Scope list_scope.

(** ** Python string primitives

  Strings are sequences of characters; the primitives below follow the
  behaviour of the Python [str] methods the processors call on texts of
  ASCII characters ([is_ascii]).  Outside ASCII Python does more: [\d],
  [int] and [isdigit] accept every Unicode decimal digit, [strip] and
  [split] remove every Unicode space, and [upper] and [lower] map letters
  of other alphabets, some to more than one character.  A statement that
  depends on what a primitive does to such a character is stated for
  ASCII texts. *)
Module Py.

(** The text holds ASCII characters only ([s.isascii()]). *)
Fixpoint is_ascii (s : string) : bool :=
  match s with
  | EmptyString => true
  | String c r => (nat_of_ascii c <? 128)%nat && is_ascii r
  end.

Definition is_upper (c : ascii) : bool :=
  let n := nat_of_ascii c in (65 <=? n)%nat && (n <=? 90)%nat.

Definition is_lower (c : ascii) : bool :=
  let n := nat_of_ascii c in (97 <=? n)%nat && (n <=? 122)%nat.

(** [c.isdigit()], and what [\d] matches, for an ASCII character: the
    digits 0 to 9. *)
Definition is_digit (c : ascii) : bool :=
  let n := nat_of_ascii c in (48 <=? n)%nat && (n <=? 57)%nat.

(** [c.isspace()] for an ASCII character, which is also what [strip] and
    [split] remove of ASCII: TAB, LF, VT, FF, CR, FS, GS, RS, US and the
    space. *)
Definition is_space (c : ascii) : bool :=
  let n := nat_of_ascii c in
  ((9 <=? n)%nat && (n <=? 13)%nat) || ((28 <=? n)%nat && (n <=? 32)%nat).

(** [c.lower()] and [c.upper()] for an ASCII character: the 26 letters
    change case, every other ASCII character is kept. *)
Definition lower_char (c : ascii) : ascii :=
  if is_upper c then ascii_of_nat (nat_of_ascii c + 32) else c.

Definition upper_char (c : ascii) : ascii :=
  if is_lower c then ascii_of_nat (nat_of_ascii c - 32) else c.

Fixpoint map_chars (f : ascii -> ascii) (s : string) : string :=
  match s with
  | EmptyString => EmptyString
  | String c r => String (f c) (map_chars f r)
  end.

(** [s.lower()] and [s.upper()]. *)
Definition lower (s : string) : string := map_chars lower_char s.
Definition upper (s : string) : string := map_chars upper_char s.

(** [s.lstrip()], [s.rstrip()] and [s.strip()]. *)
Fixpoint lstrip (s : string) : string :=
  match s with
  | EmptyString => EmptyString
  | String c r => if is_space c then lstrip r else s
  end.

Fixpoint rstrip (s : string) : string :=
  match s with
  | EmptyString => EmptyString
  | String c r =>
      match rstrip r with
      | EmptyString => if is_space c then EmptyString else String c EmptyString
      | r' => String c r'
      end
  end.

Definition strip (s : string) : string := rstrip (lstrip s).

(** [s.startswith(p)]. *)
Fixpoint startswith (p s : string) : bool :=
  match p, s with
  | EmptyString, _ => true
  | String a p', String b s' => if Ascii.eqb a b then startswith p' s' else false
  | String _ _, EmptyString => false
  end.

(** [kw in s]: [kw] occurs in [s] as a contiguous substring. *)
Fixpoint contains (kw s : string) : bool :=
  startswith kw s ||
  match s with
  | EmptyString => false
  | String _ r => contains kw r
  end.

(** [any(w in s for w in words)]. *)
Definition any_in (words : list string) (s : string) : bool :=
  existsb (fun w => contains w s) words.

(** [s[n:]]. *)
Fixpoint drop (n : nat) (s : string) : string :=
  match n, s with
  | O, _ => s
  | S n', String _ r => drop n' r
  | S _, EmptyString => EmptyString
  end.

(** [s[:n]]. *)
Fixpoint take (n : nat) (s : string) : string :=
  match n, s with
  | S n', String c r => String c (take n' r)
  | _, _ => EmptyString
  end.

(** [s[-n:]] for [n > 0]. *)
Definition take_last (n : nat) (s : string) : string :=
  drop (String.length s - n) s.

(** [s.replace(old, new)] for a non-empty [old]: left to right,
    non-overlapping.  The fuel is the length of [s]. *)
Fixpoint replace_fuel (fuel : nat) (old new s : string) : string :=
  match fuel with
  | O => s
  | S fuel' =>
      match s with
      | EmptyString => EmptyString
      | String c r =>
          if startswith old s
          then new +:+ replace_fuel fuel' old new (drop (String.length old) s)
          else String c (replace_fuel fuel' old new r)
      end
  end.

Definition replace (old new s : string) : string :=
  replace_fuel (String.length s) old new s.

(** [s.split(' ')[0]]: the text before the first space. *)
Fixpoint split_first (s : string) : string :=
  match s with
  | EmptyString => EmptyString
  | String c r => if Ascii.eqb c " " then EmptyString else String c (split_first r)
  end.

(** [len(s.split())]: the number of maximal runs of non-space characters. *)
Fixpoint count_words_from (in_word : bool) (s : string) : nat :=
  match s with
  | EmptyString => 0
  | String c r =>
      if is_space c then count_words_from false r
      else if in_word then count_words_from true r
      else S (count_words_from true r)
  end.

Definition count_words (s : string) : nat := count_words_from false s.

(** [s.zfill(2)] on a string of digits. *)
Definition zfill2 (s : string) : string :=
  match String.length s with
  | 0 => "00"
  | 1 => "0" +:+ s
  | _ => s
  end.

(** [all(c.isdigit() for c in s)]. *)
Fixpoint all_digits (s : string) : bool :=
  match s with
  | EmptyString => true
  | String c r => is_digit c && all_digits r
  end.

(** [any(c.isdigit() for c in s)]. *)
Fixpoint any_digit (s : string) : bool :=
  match s with
  | EmptyString => false
  | String c r => is_digit c || any_digit r
  end.

(** [sep.join(parts)]. *)
Fixpoint join (sep : string) (parts : list string) : string :=
  match parts with
  | [] => EmptyString
  | [p] => p
  | p :: rest => p +:+ sep +:+ join sep rest
  end.

(** [str(n)] for a non-negative integer. *)
Definition str_nat (n : nat) : string := NilZero.string_of_uint (Nat.to_uint n).

(** [str(z)] for an integer. *)
Definition str_Z (z : Z) : string :=
  if (z <? 0)%Z then "-" +:+ str_nat (Z.to_nat (- z)) else str_nat (Z.to_nat z).

(** The one-character string for a code point, as in [chr(10)]. *)
Definition chr (n : nat) : string := String (ascii_of_nat n) EmptyString.

(** [s.split(sep)] for a one-character separator. *)
Fixpoint split_on (sep : ascii) (s : string) : list string :=
  match s with
  | EmptyString => [EmptyString]
  | String c r =>
      if Ascii.eqb c sep then EmptyString :: split_on sep r
      else match split_on sep r with
           | p :: ps => String c p :: ps
           | [] => [String c EmptyString]
           end
  end.

(** [int(s)] for a string of decimal digits. *)
Definition digit_value (c : ascii) : nat := nat_of_ascii c - 48.

Fixpoint int_of_digits_from (acc : nat) (s : string) : nat :=
  match s with
  | EmptyString => acc
  | String c r => int_of_digits_from (10 * acc + digit_value c) r
  end.

Definition int_of_digits (s : string) : nat := int_of_digits_from 0 s.

(** [s.title()]: the first letter of every run of letters in upper case,
    the other letters in lower case. *)
Fixpoint title_from (in_word : bool) (s : string) : string :=
  match s with
  | EmptyString => EmptyString
  | String c r =>
      if is_upper c || is_lower c then
        String (if in_word then lower_char c else upper_char c) (title_from true r)
      else String c (title_from false r)
  end.

Definition title (s : string) : string := title_from false s.

(** The text of an integer padded with zeros to [width] digits, as the
    [%Y], [%m], [%d] fields of [strftime] and [str(datetime)] print it. *)
Fixpoint zeros (n : nat) : string :=
  match n with
  | O => EmptyString
  | S n' => String "0" (zeros n')
  end.

Definition pad (width n : nat) : string :=
  let s := NilZero.string_of_uint (Nat.to_uint n) in
  zeros (width - String.length s) +:+ s.

(** [all(p(c) for c in s)]. *)
Fixpoint all_chars (p : ascii → bool) (s : string) : bool :=
  match s with
  | EmptyString => true
  | String c r => p c && all_chars p r
  end.

(** [re.match(r'^\d{lo,hi}$', s)]: digits only, [lo] to [hi] of them; [$]
    also matches just before one final newline. *)
Fixpoint chomp (s : string) : string :=
  match s with
  | EmptyString => EmptyString
  | String c r =>
      match r with
      | EmptyString => if Ascii.eqb c (ascii_of_nat 10) then EmptyString else s
      | _ => String c (chomp r)
      end
  end.

Definition match_digits (lo hi : nat) (s : string) : bool :=
  let body := chomp s in
  all_digits body && (lo <=? String.length body)%nat && (String.length body <=? hi)%nat.

End Py.

(** ** Category labels shared by both processors *)

Definition category_priority : list string :=
[ "ATM & Cash Withdrawals"; "Subscriptions & Digital Services"; "Food & Dining";
  "Transportation"; "Healthcare"; "Utilities & Bills"; "Entertainment";
  "Shopping & Retail"; "Personal Care"; "Banking & Finance" ].

(** ** Transactions and decoded classifier responses *)

(** The values [json.loads] can produce. *)
#[warnings="-register-all"]
Inductive json : Type :=
| JNull
| JBool (b : bool)
| JNum (q : Q)
| JStr (s : string)
| JArr (items : list json)
| JObj (members : list (string * json)).

(** Python floats.  A finite float is kept as the rational number it
    denotes; the three special values are kept apart. *)
Inductive pyfloat : Type :=
| Finite (q : Q)
| Inf (negative : bool)
| NaN.

(** The transaction dict.  [Category] is whatever was last stored under
    that key: a string (as [JStr]) from the rule-based categoriser, or the
    element of the decoded classifier response assigned to it. *)
Record transaction : Type := mk_transaction {
  Date : string;
  Amount : pyfloat;
  Description : string;
  Category : json;
  Subcategory : string
}.

#[global] Instance transaction_inhabited : Inhabited transaction :=
  populate (mk_transaction "" (Finite 0) "" JNull "").

(** [tx['Category'] = v] and [tx['Subcategory'] = s]. *)
Definition set_category (v : json) (tx : transaction) : transaction :=
  mk_transaction (Date tx) (Amount tx) (Description tx) v (Subcategory tx).

Definition set_subcategory (s : string) (tx : transaction) : transaction :=
  mk_transaction (Date tx) (Amount tx) (Description tx) (Category tx) s.

(** [len(v)]: [None] stands for the [TypeError] of a value without length. *)
Definition py_len (v : json) : option nat :=
  match v with
  | JArr items => Some (length items)
  | JStr s => Some (String.length s)
  | JObj members => Some (length members)
  | JNull | JBool _ | JNum _ => None
  end.

(** [v[idx]] for an integer [idx] below [len(v)]: a list element, a
    one-character string, or an exception ([KeyError] on a decoded object,
    whose keys are strings). *)
Definition py_getitem (v : json) (idx : nat) : option json :=
  match v with
  | JArr items => items !! idx
  | JStr s => (λ c, JStr (String c EmptyString)) <$> String.get idx s
  | JObj _ | JNull | JBool _ | JNum _ => None
  end.

(** [range(start, stop, step)] for a positive [step]. *)
Fixpoint range_from (fuel start stop step : nat) : list nat :=
  match fuel with
  | O => []
  | S fuel' =>
      if (start <? stop)%nat then start :: range_from fuel' (start + step) stop step
      else []
  end.

Definition py_range (start stop step : nat) : list nat :=
  range_from (stop - start) start stop step.

(** ** Worksheets *)

(** [datetime] values, as openpyxl returns them for date cells. *)
Record datetime : Type := mk_datetime {
  year : nat; month : nat; day : nat;
  hour : nat; minute : nat; second : nat
}.

(** The value of a worksheet cell. *)
Inductive cell : Type :=
| CNone
| CStr (s : string)
| CInt (z : Z)
| CFloat (f : pyfloat)
| CBool (b : bool)
| CDateTime (dt : datetime).

(** A worksheet: its bounds and its grid; rows and columns count from 1,
    and a cell outside the grid is empty. *)
Record worksheet : Type := mk_worksheet {
  max_row : nat;
  max_column : nat;
  grid : list (list cell)
}.

(** [worksheet.cell(row, col).value]. *)
Definition cell_value (ws : worksheet) (row col : nat) : cell :=
  default CNone (grid ws !! (row - 1) ≫= λ r, r !! (col - 1)).

(** What the interpreter supplies to the builder: [float(s)] ([None] for
    the [ValueError] of a text that is no number), [str(f)] for a float,
    and today's date as [datetime.now().strftime('%Y-%m-%d')] prints it. *)
Class Runtime : Type := {
  py_float : string → option pyfloat;
  float_str : pyfloat → string;
  today : string
}.

(** [dt.strftime('%Y-%m-%d')] and [str(dt)], for years from 1000 on, which
    every platform prints with four digits.  Below 1000 the C library
    decides whether [%Y] is padded with zeros; statements about the
    printed text of a date are stated for years from 1000 on. *)
Definition strftime_ymd (dt : datetime) : string :=
  Py.pad 4 (year dt) +:+ "-" +:+ Py.pad 2 (month dt) +:+ "-" +:+ Py.pad 2 (day dt).

Definition str_datetime (dt : datetime) : string :=
  strftime_ymd dt +:+ " " +:+ Py.pad 2 (hour dt) +:+ ":" +:+ Py.pad 2 (minute dt)
  +:+ ":" +:+ Py.pad 2 (second dt).

(** Comparison of a float with the integer 0, and the sign tests. *)
Definition float_is_zero (f : pyfloat) : bool :=
  match f with
  | Finite q => Qeq_bool q 0
  | Inf _ | NaN => false
  end.

Definition float_neg (f : pyfloat) : bool :=
  match f with
  | Finite q => negb (Qle_bool 0 q)
  | Inf negative => negative
  | NaN => false
  end.

Definition float_pos (f : pyfloat) : bool :=
  match f with
  | Finite q => negb (Qle_bool q 0)
  | Inf negative => negb negative
  | NaN => false
  end.

(** [abs(f)] and [-f]. *)
Definition float_abs (f : pyfloat) : pyfloat :=
  match f with
  | Finite q => Finite (Qabs q)
  | Inf _ => Inf false
  | NaN => NaN
  end.

Definition float_opp (f : pyfloat) : pyfloat :=
  match f with
  | Finite q => Finite (- q)
  | Inf negative => Inf (negb negative)
  | NaN => NaN
  end.

(** [bool(v)]. *)
Definition truthy (v : cell) : bool :=
  match v with
  | CNone => false
  | CStr s => negb (String.eqb s "")
  | CInt z => negb (z =? 0)%Z
  | CFloat f => negb (float_is_zero f)
  | CBool b => b
  | CDateTime _ => true
  end.

(** [str(v)]. *)
Definition py_str `{Runtime} (v : cell) : string :=
  match v with
  | CNone => "None"
  | CStr s => s
  | CInt z => Py.str_Z z
  | CFloat f => float_str f
  | CBool b => if b then "True" else "False"
  | CDateTime dt => str_datetime dt
  end.

(** [str(v or alt)] for a string [alt]. *)
Definition str_or `{Runtime} (v : cell) (alt : string) : string :=
  if truthy v then py_str v else alt.

(** [range(start, stop)]. *)
Definition range1 (start stop : nat) : list nat := seq start (stop - start).

(** The bank metadata of a statement. *)
Record bank_info : Type := mk_bank_info {
  bank_name : string;
  account_holder : string;
  account_number : string;
  currency : string
}.

(** A workbook: its sheets by name, in order. *)
Definition workbook : Type := list (string * worksheet).

(** What [process_excel_file] returns for a workbook that loads. *)
Record statement : Type := mk_statement {
  transactions : list transaction;
  statement_bank_info : bank_info;
  total_rows : nat;
  processing_mode : string
}.

(** ** The AI categorisation batcher *)

(** The external services of the batcher: whether an API key is
    configured, the chat completion call and the JSON decoder.
    [chat_completion k prompt] is the message content returned by call
    number [k] of a run, [None] when the call (or reading the content)
    raises; [json_loads text] is [None] when decoding raises.
    [prompt_head] and [prompt_tail] are the fixed instruction text of the
    spreadsheet processor's prompt before and after the transaction list. *)
Class Services : Type := {
  api_key : bool;
  chat_completion : nat → string → option string;
  json_loads : string → option json;
  prompt_head : string;
  prompt_tail : string
}.

(** The state of a run.  The transaction dicts are shared mutable objects:
    [store] holds the current value of each object, object [r] being the
    [r]-th element of the input list (the builders create one fresh dict
    per row), [categorized_transactions] is the output list as a list of
    object references, and [requests] logs the prompts sent so far. *)
Record batcher_state : Type := mk_state {
  store : list transaction;
  categorized_transactions : list nat;
  requests : list string
}.

(** How a block of statements ends: normally, or by raising, in either
    case with the state reached. *)
Inductive outcome : Type :=
| Returned (st : batcher_state)
| Raised (st : batcher_state).

Definition batch_size : nat := 50.

Definition update_tx (r : nat) (f : transaction → transaction) (st : batcher_state)
  : batcher_state :=
  mk_state (alter f r (store st)) (categorized_transactions st) (requests st).

Definition append_tx (r : nat) (st : batcher_state) : batcher_state :=
  mk_state (store st) (categorized_transactions st ++ [r]) (requests st).

(** [for idx, tx in enumerate(batch)]: the positional application of the
    decoded response, the same loop in both processors. *)
Fixpoint apply_ai_categories (ai_categories : json) (idx : nat) (batch : list nat)
  (st : batcher_state) : outcome :=
  match batch with
  | [] => Returned st
  | tx :: rest =>
      match py_len ai_categories with
      | None => Raised st
      | Some n =>
          if (idx <? n)%nat then
            match py_getitem ai_categories idx with
            | None => Raised st
            | Some v =>
                let st1 := update_tx tx (set_category v) st in
                match v with
                | JStr s =>
                    let st2 := update_tx tx (set_subcategory (Py.split_first s)) st1 in
                    apply_ai_categories ai_categories (S idx) rest (append_tx tx st2)
                | _ => Raised st1
                end
            end
          else apply_ai_categories ai_categories (S idx) rest (append_tx tx st)
      end
  end.

(** The [except] branch of a batch: every object of the batch is appended. *)
Definition fallback (batch : list nat) (st : batcher_state) : batcher_state :=
  mk_state (store st) (categorized_transactions st ++ batch) (requests st).

(** [[f"{idx}. {tx['Description']}" for idx, tx in enumerate(batch, start=i)]]. *)
Definition descriptions (st : batcher_state) (i : nat) (batch : list nat) : list string :=
  imap (λ k tx, Py.str_nat (i + k) +:+ ". " +:+ Description (store st !!! tx)) batch.

Definition log_request (prompt : string) (st : batcher_state) : batcher_state :=
  mk_state (store st) (categorized_transactions st) (requests st ++ [prompt]).

(** *** The batcher in the words of the specification

    Batches are consecutive slices of fifty transactions; a response that
    is an array of category strings is applied position by position. *)

(** What overwriting a transaction with the category string [c] gives. *)
Definition recategorize (c : string) (tx : transaction) : transaction :=
  mk_transaction (Date tx) (Amount tx) (Description tx) (JStr c) (Py.split_first c).

(** [response[i]] overwrites [batch[i]] exactly when [i] is below the
    length of the response; the other transactions are kept. *)
Definition apply_positional (response : list string) (batch : list transaction)
  : list transaction :=
  imap (λ i tx, match response !! i with
                | Some c => recategorize c tx
                | None => tx
                end) batch.

(** The batch that starts at index [i]. *)
Definition batch_at (i : nat) (transactions : list transaction) : list transaction :=
  take batch_size (drop i transactions).

(** The numbered descriptions of a batch that starts at index [i]. *)
Definition enumerated (i : nat) (batch : list transaction) : list string :=
  imap (λ k tx, Py.str_nat (i + k) +:+ ". " +:+ Description tx) batch.

(** All batches of a list, one after the other, each with its response;
    [response k] is the array answered for batch number [k]. *)
Fixpoint positional_run (response : nat → list string) (fuel k : nat)
  (rest : list transaction) : list transaction :=
  match fuel, rest with
  | S fuel', _ :: _ =>
      apply_positional (response k) (take batch_size rest)
      ++ positional_run response fuel' (S k) (drop batch_size rest)
  | _, _ => []
  end.

(** ** The spreadsheet processor: rule-based categoriser *)
Module Excel.

(** [self.categories], in the order the constructor writes it. *)
Definition categories : gmap string (list string) :=
  list_to_map
  [ ("Food & Dining",
     [ "carrefour"; "lulu"; "spinneys"; "choithrams"; "union coop"; "waitrose";
       "restaurant"; "cafe"; "kfc"; "mcdonald"; "pizza"; "subway"; "dominos";
       "starbucks"; "costa"; "dunkin"; "burger"; "food"; "dining"; "eat";
       "grocery"; "supermarket"; "hypermarket"; "bakery"; "deli"; "bistro";
       "catering"; "takeaway"; "delivery"; "zomato"; "talabat"; "deliveroo";
       "doordash"; "grubhub"; "uber eats"; "postmates"; "chipotle"; "panera";
       "whole foods"; "trader joe"; "safeway"; "kroger"; "target"; "walmart";
       "donuts"; "coffee"; "espresso"; "bacio di latte"; "butchery"; "zinque";
       "ralphs"; "albertsons"; "vons"; "pavilions"; "publix"; "wegmans";
       "harris teeter" ]);
    ("Transportation",
     [ "adnoc"; "eppco"; "enoc"; "petrol"; "fuel"; "gas"; "gasoline";
       "taxi"; "uber"; "careem"; "metro"; "bus"; "rta"; "parking";
       "salik"; "toll"; "car wash"; "transport"; "emirates"; "etihad";
       "flydubai"; "air arabia"; "airline"; "flight"; "airport";
       "chevron"; "shell"; "bp"; "76"; "exxon"; "mobil"; "lyft";
       "parking services"; "toll roads"; "valet" ]);
    ("Shopping & Retail",
     [ "mall"; "centrepoint"; "max"; "home centre"; "ikea"; "ace";
       "sharaf dg"; "jumbo"; "electronics"; "clothing"; "fashion";
       "shop"; "store"; "retail"; "amazon"; "noon"; "souq"; "namshi";
       "h&m"; "zara"; "nike"; "adidas"; "apple"; "samsung"; "virgin";
       "uniqlo"; "target"; "walmart"; "costco"; "best buy"; "macy";
       "nordstrom"; "kohls"; "tj maxx"; "ross"; "marshalls" ]);
    ("Healthcare",
     [ "hospital"; "clinic"; "pharmacy"; "medical"; "doctor"; "health";
       "dental"; "medicare"; "aster"; "nmc"; "mediclinic"; "life pharmacy";
       "boots"; "aster pharmacy"; "day today pharmacy" ]);
    ("Utilities & Bills",
     [ "dewa"; "addc"; "sewa"; "fewa"; "etisalat"; "du"; "internet";
       "mobile"; "telecom"; "electricity"; "water"; "gas"; "utility"; "bill";
       "wifi"; "broadband"; "phone bill"; "electric bill" ]);
    ("Entertainment",
     [ "cinema"; "movie"; "vox"; "reel"; "netflix"; "osn"; "gaming";
       "entertainment"; "park"; "beach"; "attraction"; "ticket"; "event";
       "spotify"; "youtube"; "disney"; "amazon prime"; "hulu"; "shahid";
       "disneyland"; "balloon museum"; "sawdust festival"; "museum"; "amusement" ]);
    ("Subscriptions & Digital Services",
     [ "netflix"; "spotify"; "youtube premium"; "amazon prime"; "disney+";
       "adobe"; "microsoft"; "google"; "icloud"; "dropbox"; "zoom";
       "subscription"; "monthly"; "annual"; "recurring"; "saas";
       "software"; "app store"; "play store"; "itunes"; "office 365" ]);
    ("ATM & Cash Withdrawals",
     [ "atm"; "cash withdrawal"; "withdrawal"; "atm withdrawal";
       "cash advance"; "atm fee"; "withdrawal fee" ]);
    ("Banking & Finance",
     [ "transfer"; "fee"; "charge"; "finance"; "loan"; "interest";
       "bank fee"; "service charge"; "maintenance fee"; "overdraft";
       "wire transfer"; "remittance"; "exchange" ]);
    ("Personal Care",
     [ "salon"; "spa"; "barbershop"; "beauty"; "cosmetics"; "skincare";
       "haircut"; "manicure"; "pedicure"; "massage"; "gym"; "fitness";
       "24hourfitness"; "planet fitness"; "la fitness"; "crunch"; "equinox";
       "flex fitness"; "orangetheory" ]) ].

(** The "additional validation" of the priority pass: three categories
    need one of their guard terms in the description as well. *)
Definition guard (category desc_lower : string) : bool :=
  if String.eqb category "ATM & Cash Withdrawals" then
    Py.any_in ["atm"; "withdrawal"; "cash"] desc_lower
  else if String.eqb category "Subscriptions & Digital Services" then
    Py.any_in ["subscription"; "monthly"; "netflix"; "spotify"; "prime";
               "office"; "adobe"; "google"; "microsoft"; "icloud"] desc_lower
  else if String.eqb category "Banking & Finance" then
    Py.any_in ["transfer"; "fee"; "charge"; "interest"; "maintenance"] desc_lower
  else true.

(** The inner [for keyword in keywords] loop with its conditional
    [return category]. *)
Fixpoint scan_keywords (category desc_lower : string) (keywords : list string)
  : option string :=
  match keywords with
  | [] => None
  | keyword :: rest =>
      if Py.contains keyword desc_lower then
        if guard category desc_lower then Some category
        else scan_keywords category desc_lower rest
      else scan_keywords category desc_lower rest
  end.

(** The outer [for category in category_priority] loop. *)
Fixpoint scan_priority (desc_lower : string) (cats : list string) : option string :=
  match cats with
  | [] => None
  | category :: rest =>
      match scan_keywords category desc_lower (default [] (categories !! category)) with
      | Some c => Some c
      | None => scan_priority desc_lower rest
      end
  end.

Definition merchant_patterns : list (string * string) :=
  [ ("CAREEM", "Transportation"); ("TALABAT", "Food & Dining");
    ("ZOMATO", "Food & Dining"); ("NETFLIX", "Subscriptions & Digital Services");
    ("SPOTIFY", "Subscriptions & Digital Services"); ("AMAZON", "Shopping & Retail");
    ("NOON", "Shopping & Retail"); ("ADNOC", "Transportation");
    ("ENOC", "Transportation"); ("EPPCO", "Transportation") ].

Fixpoint scan_merchants (desc_lower : string) (ps : list (string * string))
  : option string :=
  match ps with
  | [] => None
  | (merchant, cat) :: rest =>
      if Py.contains (Py.lower merchant) desc_lower then Some cat
      else scan_merchants desc_lower rest
  end.

Definition categorize_transaction (description : string) : string :=
  let desc_lower := Py.strip (Py.lower description) in
  match scan_priority desc_lower category_priority with
  | Some c => c
  | None =>
      if Py.any_in ["taxi"; "uber"; "careem"; "rta"] desc_lower then "Transportation"
      else if Py.any_in ["restaurant"; "cafe"; "food"; "dining"; "eat"] desc_lower
      then "Food & Dining"
      else if Py.any_in ["mall"; "shop"; "store"; "retail"] desc_lower
      then "Shopping & Retail"
      else match scan_merchants desc_lower merchant_patterns with
           | Some cat => cat
           | None => "Other Expenses"
           end
  end.

(** *** The format detector *)

Section with_runtime.
Context `{Runtime}.

Definition header_keywords : list string :=
  [ "date"; "amount"; "description"; "particular"; "narration"; "debit";
    "credit"; "balance"; "type"; "reference" ].

(** The [if]/[elif] chain that picks the key written for a header cell. *)
Definition cell_role (cell_text : string) : option string :=
  if Py.contains "date" cell_text then Some "date_col"
  else if Py.contains "description" cell_text || Py.contains "particular" cell_text
          || Py.contains "narration" cell_text then Some "description_col"
  else if Py.contains "type" cell_text then Some "type_col"
  else if Py.contains "reference" cell_text || Py.contains "ref" cell_text
  then Some "reference_col"
  else if Py.contains "debit" cell_text then Some "debit_col"
  else if Py.contains "credit" cell_text then Some "credit_col"
  else if Py.contains "amount" cell_text then Some "amount_col"
  else None.

(** [row_data[key] = col] for the key of the chain, if any. *)
Definition assign_role (cell_text : string) (col : nat) (row_data : gmap string nat)
  : gmap string nat :=
  match cell_role cell_text with
  | Some key => <[key := col]> row_data
  | None => row_data
  end.

(** [str(worksheet.cell(row, col).value or '').lower().strip()]. *)
Definition header_text (ws : worksheet) (row col : nat) : string :=
  Py.strip (Py.lower (str_or (cell_value ws row col) "")).

(** [cell_value and any(keyword in cell_value for keyword in header_keywords)]. *)
Definition is_header_cell (cell_text : string) : bool :=
  negb (String.eqb cell_text "") && Py.any_in header_keywords cell_text.

(** The body of the column loop, on the pair [(row_data, header_count)]. *)
Definition scan_cell (ws : worksheet) (row : nat) (acc : gmap string nat * nat)
  (col : nat) : gmap string nat * nat :=
  let cell_text := header_text ws row col in
  if is_header_cell cell_text
  then (assign_role cell_text col (fst acc), S (snd acc))
  else acc.

(** [range(1, min(worksheet.max_column + 1, 10))]. *)
Definition header_columns (ws : worksheet) : list nat :=
  range1 1 ((max_column ws + 1) `min` 10).

(** [range(1, min(20, worksheet.max_row + 1))]. *)
Definition header_rows (ws : worksheet) : list nat :=
  range1 1 (20 `min` (max_row ws + 1)).

Definition scan_header_row (ws : worksheet) (row : nat) : gmap string nat * nat :=
  foldl (scan_cell ws row) (∅, 0) (header_columns ws).

(** The row loop with its [return row_data]. *)
Fixpoint find_header (ws : worksheet) (rows : list nat) : option (gmap string nat) :=
  match rows with
  | [] => None
  | row :: rest =>
      let '(row_data, header_count) := scan_header_row ws row in
      if (3 <=? header_count)%nat then Some (<["header_row" := row]> row_data)
      else find_header ws rest
  end.

Definition default_mapping : gmap string nat :=
  <["header_row" := 1]> (<["date_col" := 1]> (<["description_col" := 2]>
    (<["debit_col" := 4]> (<["credit_col" := 5]> ∅)))).

Definition find_data_headers (ws : worksheet) : gmap string nat :=
  match find_header ws (header_rows ws) with
  | Some row_data => row_data
  | None => default_mapping
  end.

(** *** The date normaliser *)

(** A pattern [^(\d{a,b})SEP(\d{c,d})SEP(\d{e,f})$]: the separator and the
    bounds on the length of each group of digits. *)
Record date_pattern : Type := mk_pattern {
  separator : ascii;
  width1 : nat * nat;
  width2 : nat * nat;
  width3 : nat * nat
}.

Definition digits_between (bounds : nat * nat) (s : string) : bool :=
  Py.all_digits s && (fst bounds <=? String.length s)%nat
  && (String.length s <=? snd bounds)%nat.

(** [re.match(pattern, date_str)]: the three groups of a match.  The groups
    hold digits only, so the text matches exactly when splitting it at the
    separator gives three parts of the required lengths.  ([date_str] is
    stripped, so [$] can only match at its very end.) *)
Definition re_match (p : date_pattern) (date_str : string)
  : option (string * string * string) :=
  match Py.split_on (separator p) date_str with
  | [g1; g2; g3] =>
      if digits_between (width1 p) g1 && digits_between (width2 p) g2
         && digits_between (width3 p) g3
      then Some (g1, g2, g3) else None
  | _ => None
  end.

Definition pattern_eqb (p q : date_pattern) : bool :=
  Ascii.eqb (separator p) (separator q)
  && bool_decide (width1 p = width1 q) && bool_decide (width2 p = width2 q)
  && bool_decide (width3 p = width3 q).

Definition slash_year4 : date_pattern := mk_pattern "/" (1, 2) (1, 2) (4, 4).
Definition slash_year2 : date_pattern := mk_pattern "/" (1, 2) (1, 2) (2, 2).
Definition dash_iso : date_pattern := mk_pattern "-" (4, 4) (1, 2) (1, 2).

(** The [patterns] list with its formatters, in the order of the source:
    DD/MM/YYYY, MM/DD/YY, MM/DD/YYYY, YYYY-MM-DD.  The second formatter is
    the conditional expression as Python parses it: the month and the
    day are appended in its [else] arm only. *)
Definition patterns : list (date_pattern * (string * string * string → string)) :=
  [ (slash_year4, λ '(g1, g2, g3), g3 +:+ "-" +:+ Py.zfill2 g2 +:+ "-" +:+ Py.zfill2 g1);
    (slash_year2, λ '(g1, g2, g3),
       if (Py.int_of_digits g3 <? 50)%nat then "20" +:+ g3
       else "19" +:+ g3 +:+ "-" +:+ Py.zfill2 g1 +:+ "-" +:+ Py.zfill2 g2);
    (slash_year4, λ '(g1, g2, g3), g3 +:+ "-" +:+ Py.zfill2 g1 +:+ "-" +:+ Py.zfill2 g2);
    (dash_iso, λ '(g1, g2, g3), g1 +:+ "-" +:+ Py.zfill2 g2 +:+ "-" +:+ Py.zfill2 g3) ].

(** [for pattern, formatter in patterns], with the special handling of the
    two-digit year. *)
Fixpoint try_patterns (date_str : string)
  (ps : list (date_pattern * (string * string * string → string))) : option string :=
  match ps with
  | [] => None
  | (pattern, formatter) :: rest =>
      match re_match pattern date_str with
      | Some (g1, g2, g3) =>
          if pattern_eqb pattern slash_year2 then
            let '(month, day, year) := (g1, g2, g3) in
            let full_year :=
              if (Py.int_of_digits year <? 50)%nat then "20" +:+ year
              else "19" +:+ year in
            Some (full_year +:+ "-" +:+ Py.zfill2 month +:+ "-" +:+ Py.zfill2 day)
          else Some (formatter (g1, g2, g3))
      | None => try_patterns date_str rest
      end
  end.

Definition detect_date_format (date_string : cell) : string :=
  match date_string with
  | CDateTime dt => strftime_ymd dt
  | _ =>
      let date_str := Py.strip (py_str date_string) in
      match try_patterns date_str patterns with
      | Some iso => iso
      | None => today
      end
  end.

(** A text of the shape YYYY-MM-DD: four digits, two digits, two digits. *)
Definition is_iso_date (s : string) : bool :=
  match re_match (mk_pattern "-" (4, 4) (2, 2) (2, 2)) s with
  | Some _ => true
  | None => false
  end.

End with_runtime.

(** *** Bank detection and the header scan for bank information *)

Definition bank_patterns : list (string * list string) :=
  [ ("ADCB", ["abu dhabi commercial bank"; "adcb"]);
    ("FAB", ["first abu dhabi bank"; "fab"]);
    ("ENBD", ["emirates nbd"; "enbd"]);
    ("MASHREQ", ["mashreq bank"; "mashreq"]);
    ("CBD", ["commercial bank of dubai"; "cbd"]);
    ("HSBC", ["hsbc"]);
    ("RAKBANK", ["rak bank"; "rakbank"]);
    ("ADIB", ["abu dhabi islamic bank"; "adib"]);
    ("BOA", ["bank of america"; "bofa"; "boa"; "b of a"]);
    ("CHASE", ["chase"; "jp morgan chase"; "jpmorgan"]);
    ("WELLS", ["wells fargo"; "wells"]);
    ("CITI", ["citibank"; "citi"]) ].

Definition bank_names : gmap string string :=
  list_to_map
  [ ("ADCB", "Abu Dhabi Commercial Bank"); ("FAB", "First Abu Dhabi Bank");
    ("ENBD", "Emirates NBD"); ("MASHREQ", "Mashreq Bank");
    ("CBD", "Commercial Bank of Dubai"); ("HSBC", "HSBC Bank Middle East");
    ("RAKBANK", "RAKBank"); ("ADIB", "Abu Dhabi Islamic Bank");
    ("BOA", "Bank of America"); ("CHASE", "Chase Bank");
    ("WELLS", "Wells Fargo"); ("CITI", "Citibank") ].

Fixpoint scan_banks (text_lower : string) (banks : list (string * list string))
  : option string :=
  match banks with
  | [] => None
  | (bank_code, pats) :: rest =>
      if Py.any_in pats text_lower
      then Some (default (bank_code +:+ " Bank") (bank_names !! bank_code))
      else scan_banks text_lower rest
  end.

Definition detect_bank (text : string) : string :=
  default "Unknown Bank" (scan_banks (Py.lower text) bank_patterns).

Section with_runtime_builder.
Context `{Runtime}.

(** The body of the two loops of [extract_bank_info] for one cell. *)
Definition scan_bank_cell (ws : worksheet) (row : nat) (info : bank_info) (col : nat)
  : bank_info :=
  let cell_text := Py.upper (str_or (cell_value ws row col) "") in
  let detected := detect_bank cell_text in
  let info :=
    if negb (String.eqb detected "UAE Bank" || String.eqb detected "Unknown Bank")
    then mk_bank_info detected (account_holder info) (account_number info) (currency info)
    else info in
  let words := Py.count_words cell_text in
  let info :=
    if (2 <=? words)%nat && (words <=? 4)%nat && negb (Py.any_digit cell_text)
       && Py.any_in ["mr"; "ms"; "mrs"; "dr"] (Py.lower cell_text)
    then mk_bank_info (bank_name info) (Py.title cell_text) (account_number info)
                      (currency info)
    else info in
  if Py.match_digits 10 16 (Py.replace "-" "" (Py.replace " " "" cell_text))
  then
    let masked := Py.take 4 cell_text +:+ "-" +:+ "****" +:+ "-"
                  +:+ Py.take_last 4 cell_text in
    mk_bank_info (bank_name info) (account_holder info) masked (currency info)
  else info.

Definition extract_bank_info (ws : worksheet) : bank_info :=
  foldl (λ info row,
           foldl (scan_bank_cell ws row) info (range1 1 (10 `min` (max_column ws + 1))))
        (mk_bank_info "UAE Bank" "Account Holder" "XXXX-XXXX-XXXX" "AED")
        (range1 1 (21 `min` (max_row ws + 1))).

(** *** The transaction builder *)

(** One row of the Account Info sheet. *)
Definition account_info_row (info_sheet : worksheet) (info : bank_info) (row : nat)
  : bank_info :=
  let field := Py.lower (str_or (cell_value info_sheet row 1) "") in
  let value := str_or (cell_value info_sheet row 2) "" in
  let has_value := negb (String.eqb value "") in
  if Py.contains "account holder" field && has_value then
    mk_bank_info (bank_name info) value (account_number info) (currency info)
  else if Py.contains "account number" field && has_value then
    mk_bank_info (bank_name info) (account_holder info) value (currency info)
  else if Py.contains "bank name" field && has_value then
    let detected_bank := detect_bank value in
    if negb (String.eqb detected_bank "Unknown Bank") then
      mk_bank_info detected_bank (account_holder info) (account_number info)
        (if Py.contains "America" detected_bank || Py.contains "Chase" detected_bank
            || Py.contains "Wells" detected_bank || Py.contains "Citi" detected_bank
         then "USD" else "AED")
    else info
  else info.

(** [workbook[name]]. *)
Definition sheet_named (name : string) (wb : workbook) : option worksheet :=
  (λ found, snd (snd found)) <$> list_find (λ entry, fst entry = name) wb.

Definition read_account_info (wb : workbook) : bank_info :=
  let info := mk_bank_info "Unknown Bank" "Account Holder" "XXXX-XXXX-XXXX" "USD" in
  match sheet_named "Account Info" wb with
  | Some info_sheet =>
      foldl (account_info_row info_sheet) info (range1 1 (max_row info_sheet + 1))
  | None => info
  end.

Definition date_summary_keywords : list string :=
  ["TOTAL"; "SUMMARY"; "BALANCE"; "OPENING"; "CLOSING"].

Definition description_summary_keywords : list string :=
  ["TOTAL"; "SUMMARY"; "MONTHLY"].

(** [cell and str(cell).strip() and str(cell).strip() not in ['', '-', 'None']]. *)
Definition has_amount (v : cell) : bool :=
  truthy v && negb (String.eqb (Py.strip (py_str v)) "")
  && negb (existsb (String.eqb (Py.strip (py_str v))) [""; "-"; "None"]).

(** The amount of a row; [None] is the [ValueError] that skips the row. *)
Definition resolve_amount (ws : worksheet) (row : nat) (debit_cell credit_cell : cell)
  (amount_col : option nat) : option pyfloat :=
  match amount_col with
  | Some (S c) =>
      py_float (Py.replace "," "" (str_or (cell_value ws row (S c)) "0"))
  | _ =>
      if has_amount debit_cell then
        (λ f, float_opp (float_abs f)) <$> py_float (Py.replace "," "" (py_str debit_cell))
      else if has_amount credit_cell then
        float_abs <$> py_float (Py.replace "," "" (py_str credit_cell))
      else Some (Finite 0)
  end.

(** [worksheet.cell(row, col).value if col else None]. *)
Definition cell_if (ws : worksheet) (row col : nat) : cell :=
  match col with
  | O => CNone
  | S _ => cell_value ws row col
  end.

(** [category.split(' ')[0] if category != 'Other Expenses' else 'Miscellaneous']. *)
Definition subcategory_of (category : string) : string :=
  if String.eqb category "Other Expenses" then "Miscellaneous"
  else Py.split_first category.

(** The body of the row loop: the transaction built from the row, or
    [None] when the row is skipped.  [count] is [len(all_transactions)]. *)
Definition process_row (ws : worksheet) (column_map : gmap string nat) (row count : nat)
  : option transaction :=
  let date_col := default 1 (column_map !! "date_col") in
  let desc_col := default 2 (column_map !! "description_col") in
  let debit_col := default 4 (column_map !! "debit_col") in
  let credit_col := default 5 (column_map !! "credit_col") in
  let amount_col := column_map !! "amount_col" in
  let date_cell := cell_if ws row date_col in
  let description_cell := cell_if ws row desc_col in
  let debit_cell := cell_if ws row debit_col in
  let credit_cell := cell_if ws row credit_col in
  if negb (truthy date_cell) then None
  else if Py.any_in date_summary_keywords (Py.upper (py_str date_cell)) then None
  else if truthy description_cell
          && Py.any_in description_summary_keywords (Py.upper (py_str description_cell))
  then None
  else
    let date_str := detect_date_format date_cell in
    match resolve_amount ws row debit_cell credit_cell amount_col with
    | None => None
    | Some amount =>
        if float_is_zero amount then None
        else
          let description :=
            if truthy description_cell then Py.strip (py_str description_cell)
            else "Transaction " +:+ Py.str_nat (count + 1) in
          let category := categorize_transaction description in
          Some (mk_transaction date_str amount description (JStr category)
                               (subcategory_of category))
    end.

(** The rows of one sheet, appended to [all_transactions]. *)
Definition process_sheet (all_transactions : list transaction) (ws : worksheet)
  : list transaction :=
  let column_map := find_data_headers ws in
  let header_row := default 1 (column_map !! "header_row") in
  foldl (λ acc row,
           match process_row ws column_map row (length acc) with
           | Some tx => acc ++ [tx]
           | None => acc
           end)
        all_transactions (range1 (header_row + 1) (max_row ws + 1)).

(** The transactions of all sheets but Account Info, before the batcher. *)
Definition build_transactions (wb : workbook) : list transaction :=
  foldl process_sheet []
        (snd <$> filter (λ entry, fst entry ≠ "Account Info") wb).

End with_runtime_builder.

(** *** The AI categorisation batcher of the spreadsheet processor *)

Section with_services.
Context `{Services}.

(** The prompt: the instruction text around [chr(10).join(descriptions[:30])]. *)
Definition build_prompt (descs : list string) : string :=
  prompt_head +:+ Py.join (Py.chr 10) (take 30 descs) +:+ prompt_tail.

(** "Remove markdown if present". *)
Definition clean_response (ai_response : string) : string :=
  if Py.startswith "```json" ai_response then
    Py.strip (Py.replace "```" "" (Py.replace "```json" "" ai_response))
  else if Py.startswith "```" ai_response then
    Py.strip (Py.replace "```" "" ai_response)
  else ai_response.

(** The call and the decoding of its answer; [None] when either raises. *)
Definition parsed_response (call : nat) (prompt : string) : option json :=
  match chat_completion call prompt with
  | None => None
  | Some content => json_loads (clean_response (Py.strip content))
  end.

(** One iteration of [for i in range(0, len(transactions), batch_size)];
    [transactions] is the input list, as object references. *)
Definition process_batch (transactions : list nat) (st : batcher_state) (i : nat)
  : batcher_state :=
  let batch := take batch_size (drop i transactions) in
  let prompt := build_prompt (descriptions st i batch) in
  let call := length (requests st) in
  let st := log_request prompt st in
  match parsed_response call prompt with
  | None => fallback batch st
  | Some ai_categories =>
      match apply_ai_categories ai_categories 0 batch st with
      | Returned st' => st'
      | Raised st' => fallback batch st'
      end
  end.

(** The run over all batches, from the input objects. *)
Definition run_batches (transactions : list transaction) : batcher_state :=
  let refs := seq 0 (length transactions) in
  foldl (process_batch refs) (mk_state transactions [] [])
        (py_range 0 (length transactions) batch_size).

(** The values of the returned list, read off the store. *)
Definition returned_list (st : batcher_state) : list transaction :=
  (λ r, store st !!! r) <$> categorized_transactions st.

(** [ai_categorize_transactions].  With this model of the dicts nothing
    raises outside the inner [try], so the outer handler is never entered. *)
Definition ai_categorize_transactions (transactions : list transaction)
  : list transaction :=
  match api_key, transactions with
  | false, _ | _, [] => transactions
  | true, _ :: _ => returned_list (run_batches transactions)
  end.

(** The prompt the specification describes for the batch starting at [i]:
    only the first thirty numbered descriptions are listed. *)
Definition batch_prompt (i : nat) (batch : list transaction) : string :=
  prompt_head +:+ Py.join (Py.chr 10) (take 30 (enumerated i batch)) +:+ prompt_tail.

(** The prompts of all batches of a list, the first starting at index [i]. *)
Fixpoint prompts_run (fuel i : nat) (rest : list transaction) : list string :=
  match fuel, rest with
  | S fuel', _ :: _ =>
      batch_prompt i (take batch_size rest)
      :: prompts_run fuel' (i + batch_size) (drop batch_size rest)
  | _, _ => []
  end.

(** Call number [k], for the batch that starts at [i], is answered by the
    array of strings [response k]; or it fails (the call or the decoding
    raises), which [response k = []] records. *)
Definition answered (response : nat → list string) (k i : nat)
  (batch : list transaction) : Prop :=
  parsed_response k (batch_prompt i batch) = Some (JArr (JStr <$> response k))
  ∨ (parsed_response k (batch_prompt i batch) = None ∧ response k = []).

End with_services.

(** *** The whole pipeline for a workbook that loads *)

Definition process_excel_file `{Runtime} `{Services} (wb : workbook) : statement :=
  let info := read_account_info wb in
  let all_transactions := build_transactions wb in
  let all_transactions :=
    match all_transactions with
    | [] => all_transactions
    | _ :: _ => ai_categorize_transactions all_transactions
    end in
  mk_statement all_transactions info (length all_transactions)
               "Dynamic Excel Processing with AI Categorization".


End Excel.

(** ** The PDF processor: rule-based categoriser *)
Module Pdf.

Definition categories : gmap string (list string) :=
  list_to_map
  [ ("Food & Dining",
     [ "carrefour"; "lulu"; "spinneys"; "choithrams"; "union coop"; "waitrose";
       "restaurant"; "cafe"; "kfc"; "mcdonald"; "pizza"; "subway"; "dominos";
       "starbucks"; "costa"; "dunkin"; "burger"; "food"; "dining"; "eat";
       "grocery"; "supermarket"; "hypermarket"; "bakery"; "deli"; "bistro";
       "catering"; "takeaway"; "delivery"; "zomato"; "talabat"; "deliveroo";
       "doordash"; "grubhub"; "uber eats"; "postmates"; "chipotle"; "panera";
       "whole foods"; "trader joe"; "safeway"; "kroger"; "target"; "walmart";
       "donuts"; "coffee"; "espresso"; "bacio di latte"; "butchery"; "zinque";
       "ralphs"; "albertsons"; "vons"; "pavilions"; "publix"; "wegmans" ]);
    ("Transportation",
     [ "adnoc"; "eppco"; "enoc"; "petrol"; "fuel"; "gas"; "gasoline";
       "taxi"; "uber"; "careem"; "metro"; "bus"; "rta"; "parking";
       "salik"; "toll"; "car wash"; "transport"; "emirates"; "etihad";
       "flydubai"; "air arabia"; "airline"; "flight"; "airport";
       "chevron"; "shell"; "bp"; "76"; "exxon"; "mobil"; "lyft" ]);
    ("Shopping & Retail",
     [ "mall"; "centrepoint"; "max"; "home centre"; "ikea"; "ace";
       "sharaf dg"; "jumbo"; "electronics"; "clothing"; "fashion";
       "shop"; "store"; "retail"; "amazon"; "noon"; "souq"; "namshi";
       "h&m"; "zara"; "nike"; "adidas"; "apple"; "samsung"; "virgin";
       "uniqlo"; "costco"; "best buy"; "macy"; "nordstrom" ]);
    ("Healthcare",
     [ "hospital"; "clinic"; "pharmacy"; "medical"; "doctor"; "health";
       "dental"; "medicare"; "aster"; "nmc"; "mediclinic"; "life pharmacy";
       "boots"; "cvs"; "walgreens" ]);
    ("Utilities & Bills",
     [ "dewa"; "addc"; "sewa"; "fewa"; "etisalat"; "du"; "internet";
       "mobile"; "telecom"; "electricity"; "water"; "utility"; "bill";
       "wifi"; "broadband"; "verizon"; "at&t"; "t-mobile" ]);
    ("Entertainment",
     [ "cinema"; "movie"; "vox"; "reel"; "netflix"; "osn"; "gaming";
       "entertainment"; "park"; "beach"; "attraction"; "ticket"; "event";
       "spotify"; "youtube"; "disney"; "hulu"; "disneyland" ]);
    ("Subscriptions & Digital Services",
     [ "netflix"; "spotify"; "youtube premium"; "amazon prime"; "disney+";
       "adobe"; "microsoft"; "google"; "icloud"; "dropbox"; "zoom";
       "subscription"; "saas"; "office 365"; "rocket money" ]);
    ("ATM & Cash Withdrawals",
     [ "atm"; "cash withdrawal"; "withdrawal"; "cash advance" ]);
    ("Banking & Finance",
     [ "transfer"; "fee"; "charge"; "finance"; "loan"; "interest";
       "bank fee"; "service charge"; "wire transfer"; "zelle" ]);
    ("Personal Care",
     [ "salon"; "spa"; "barbershop"; "beauty"; "cosmetics"; "skincare";
       "gym"; "fitness"; "24hourfitness"; "planet fitness" ]) ].

Fixpoint scan_keywords (category desc_lower : string) (keywords : list string)
  : option string :=
  match keywords with
  | [] => None
  | keyword :: rest =>
      if Py.contains keyword desc_lower then Some category
      else scan_keywords category desc_lower rest
  end.

Fixpoint scan_priority (desc_lower : string) (cats : list string) : option string :=
  match cats with
  | [] => None
  | category :: rest =>
      match scan_keywords category desc_lower (default [] (categories !! category)) with
      | Some c => Some c
      | None => scan_priority desc_lower rest
      end
  end.

Definition categorize_transaction (description : string) : string :=
  let desc_lower := Py.strip (Py.lower description) in
  match scan_priority desc_lower category_priority with
  | Some c => c
  | None => "Other Expenses"
  end.

(** *** The AI categorisation batcher of the PDF processor

    The same batching and the same positional loop as in the spreadsheet
    processor, with a shorter prompt and its own removal of code fences. *)

Section with_services.
Context `{Services}.

Definition ai_categories_list : list string :=
  [ "Food & Dining"; "Transportation"; "Shopping & Retail"; "Healthcare";
    "Utilities & Bills"; "Entertainment"; "Subscriptions & Digital Services";
    "ATM & Cash Withdrawals"; "Banking & Finance"; "Personal Care";
    "Travel"; "Income"; "Other Expenses" ].

Definition build_prompt (descs : list string) : string :=
  "Categorize these transactions into: " +:+ Py.join ", " ai_categories_list
  +:+ Py.chr 10 +:+ Py.chr 10 +:+ "Transactions:" +:+ Py.chr 10
  +:+ Py.join (Py.chr 10) (take 30 descs)
  +:+ Py.chr 10 +:+ Py.chr 10 +:+ "Return ONLY a JSON array of category names.".

Definition clean_response (ai_response : string) : string :=
  if Py.contains "```json" ai_response then
    Py.strip (Py.replace "```" "" (Py.replace "```json" "" ai_response))
  else ai_response.

Definition parsed_response (call : nat) (prompt : string) : option json :=
  match chat_completion call prompt with
  | None => None
  | Some content => json_loads (clean_response (Py.strip content))
  end.

Definition process_batch (transactions : list nat) (st : batcher_state) (i : nat)
  : batcher_state :=
  let batch := take batch_size (drop i transactions) in
  let prompt := build_prompt (descriptions st i batch) in
  let call := length (requests st) in
  let st := log_request prompt st in
  match parsed_response call prompt with
  | None => fallback batch st
  | Some ai_categories =>
      match apply_ai_categories ai_categories 0 batch st with
      | Returned st' => st'
      | Raised st' => fallback batch st'
      end
  end.

Definition run_batches (transactions : list transaction) : batcher_state :=
  let refs := seq 0 (length transactions) in
  foldl (process_batch refs) (mk_state transactions [] [])
        (py_range 0 (length transactions) batch_size).

Definition ai_categorize_transactions (transactions : list transaction)
  : list transaction :=
  match api_key, transactions with
  | false, _ | _, [] => transactions
  | true, _ :: _ =>
      let st := run_batches transactions in
      (λ r, store st !!! r) <$> categorized_transactions st
  end.

End with_services.

(** *** Bank detection of the PDF processor *)

Definition bank_patterns : list (string * list string) :=
  [ ("ADCB", ["abu dhabi commercial bank"; "adcb"]);
    ("FAB", ["first abu dhabi bank"; "fab"]);
    ("ENBD", ["emirates nbd"; "enbd"]);
    ("MASHREQ", ["mashreq bank"; "mashreq"]);
    ("CBD", ["commercial bank of dubai"; "cbd"]);
    ("HSBC", ["hsbc"]);
    ("RAKBANK", ["rak bank"; "rakbank"]);
    ("ADIB", ["abu dhabi islamic bank"; "adib"]);
    ("BOA", ["bank of america"; "bofa"; "boa"; "b of a"]);
    ("CHASE", ["chase"; "jp morgan chase"; "jpmorgan"]);
    ("WELLS", ["wells fargo"; "wells"]);
    ("CITI", ["citibank"; "citi"]);
    ("BARCLAYS", ["barclays"]);
    ("LLOYDS", ["lloyds"]);
    ("SBI", ["state bank of india"; "sbi"]);
    ("HDFC", ["hdfc bank"; "hdfc"]);
    ("ICICI", ["icici bank"; "icici"]) ].

Definition bank_names : gmap string string :=
  list_to_map
  [ ("ADCB", "Abu Dhabi Commercial Bank"); ("FAB", "First Abu Dhabi Bank");
    ("ENBD", "Emirates NBD"); ("MASHREQ", "Mashreq Bank");
    ("CBD", "Commercial Bank of Dubai"); ("HSBC", "HSBC Bank Middle East");
    ("RAKBANK", "RAKBank"); ("ADIB", "Abu Dhabi Islamic Bank");
    ("BOA", "Bank of America"); ("CHASE", "Chase Bank");
    ("WELLS", "Wells Fargo"); ("CITI", "Citibank");
    ("BARCLAYS", "Barclays"); ("LLOYDS", "Lloyds Bank");
    ("SBI", "State Bank of India"); ("HDFC", "HDFC Bank");
    ("ICICI", "ICICI Bank") ].

Fixpoint scan_banks (text_lower : string) (banks : list (string * list string))
  : option string :=
  match banks with
  | [] => None
  | (bank_code, pats) :: rest =>
      if Py.any_in pats text_lower
      then Some (default (bank_code +:+ " Bank") (bank_names !! bank_code))
      else scan_banks text_lower rest
  end.

Definition detect_bank (text : string) : string :=
  default "Unknown Bank" (scan_banks (Py.lower text) bank_patterns).

(** *** The date normaliser of the fallback extraction *)

(** The directives of the [strptime] formats in use: [%d], [%m], [%Y]. *)
Inductive directive : Type := Day | Month | Year4.

Definition directive_eqb (a b : directive) : bool :=
  match a, b with
  | Day, Day | Month, Month | Year4, Year4 => true
  | _, _ => false
  end.

Definition nonzero_digit (c : ascii) : bool := Py.is_digit c && negb (Ascii.eqb c "0").

(** The texts a directive accepts, as [strptime] compiles it into a
    regular expression: [%d] is [3[0-1]|[1-2]\d|0[1-9]|[1-9]| [1-9]],
    [%m] is [1[0-2]|0[1-9]|[1-9]], [%Y] is [\d\d\d\d]. *)
Definition accepts (dir : directive) (s : string) : bool :=
  match dir, s with
  | Day, String a (String b EmptyString) =>
      (Ascii.eqb a "3" && (Ascii.eqb b "0" || Ascii.eqb b "1"))
      || ((Ascii.eqb a "1" || Ascii.eqb a "2") && Py.is_digit b)
      || (Ascii.eqb a "0" && nonzero_digit b)
      || (Ascii.eqb a " " && nonzero_digit b)
  | Day, String a EmptyString => nonzero_digit a
  | Month, String a (String b EmptyString) =>
      (Ascii.eqb a "1" && (Ascii.eqb b "0" || Ascii.eqb b "1" || Ascii.eqb b "2"))
      || (Ascii.eqb a "0" && nonzero_digit b)
  | Month, String a EmptyString => nonzero_digit a
  | Year4, _ => Py.all_digits s && (String.length s =? 4)%nat
  | _, _ => false
  end.

(** A format of three directives around one separator, as ['%d/%m/%Y']. *)
Record date_format : Type := mk_format {
  format_separator : ascii;
  field1 : directive;
  field2 : directive;
  field3 : directive
}.

(** The group that a directive of the format matched. *)
Definition group_of (dir : directive) (fmt : date_format) (groups : string * string * string)
  : string :=
  let '(g1, g2, g3) := groups in
  if directive_eqb (field1 fmt) dir then g1
  else if directive_eqb (field2 fmt) dir then g2
  else g3.

(** The dates the [datetime] constructor accepts: years from 1, and the
    days of the proleptic Gregorian calendar. *)
Definition is_leap (y : nat) : bool :=
  (y mod 4 =? 0)%nat && (negb (y mod 100 =? 0)%nat || (y mod 400 =? 0)%nat).

Definition days_in_month (y m : nat) : nat :=
  match m with
  | 2 => if is_leap y then 29 else 28
  | 4 | 6 | 9 | 11 => 30
  | _ => 31
  end.

Definition valid_date (y m d : nat) : bool :=
  (1 <=? y)%nat && (1 <=? m)%nat && (m <=? 12)%nat
  && (1 <=? d)%nat && (d <=? days_in_month y m)%nat.

(** [datetime.strptime(date_string, format)]; [None] is its [ValueError].
    The groups hold no separator, and the whole text has to be consumed: it
    matches exactly when splitting it at the separator gives three parts,
    each accepted by its directive. *)
Definition strptime (date_string : string) (fmt : date_format) : option datetime :=
  match Py.split_on (format_separator fmt) date_string with
  | [g1; g2; g3] =>
      if accepts (field1 fmt) g1 && accepts (field2 fmt) g2 && accepts (field3 fmt) g3
      then
        let value dir := Py.int_of_digits (Py.strip (group_of dir fmt (g1, g2, g3))) in
        if valid_date (value Year4) (value Month) (value Day)
        then Some (mk_datetime (value Year4) (value Month) (value Day) 0 0 0)
        else None
      else None
  | _ => None
  end.

(** [s] starts with [n] digits. *)
Definition starts_with_digits (n : nat) (s : string) : bool :=
  (n <=? String.length s)%nat && Py.all_digits (Py.take n s).

(** [re.match(pattern, date_str)] for the patterns of [normalize_date],
    which have no [$]: the text starts with two groups of digits, each
    followed by the separator, and then with the least number of digits of
    the field3 group. *)
Definition re_match_prefix (p : Excel.date_pattern) (date_str : string) : bool :=
  match Py.split_on (Excel.separator p) date_str with
  | g1 :: g2 :: g3 :: _ =>
      Excel.digits_between (Excel.width1 p) g1 && Excel.digits_between (Excel.width2 p) g2
      && starts_with_digits (fst (Excel.width3 p)) g3
  | _ => false
  end.

(** The [patterns] list: each format with its regular expression. *)
Definition patterns : list (date_format * Excel.date_pattern) :=
  [ (mk_format "/" Day Month Year4, Excel.mk_pattern "/" (1, 2) (1, 2) (4, 4));
    (mk_format "/" Month Day Year4, Excel.mk_pattern "/" (1, 2) (1, 2) (4, 4));
    (mk_format "-" Year4 Month Day, Excel.mk_pattern "-" (4, 4) (1, 2) (1, 2));
    (mk_format "-" Day Month Year4, Excel.mk_pattern "-" (1, 2) (1, 2) (4, 4)) ].

(** [for fmt, pattern in patterns], with its [try] and [continue]. *)
Fixpoint try_formats (date_str : string) (ps : list (date_format * Excel.date_pattern))
  : option string :=
  match ps with
  | [] => None
  | (fmt, pattern) :: rest =>
      if re_match_prefix pattern date_str then
        match strptime date_str fmt with
        | Some dt => Some (strftime_ymd dt)
        | None => try_formats date_str rest
        end
      else try_formats date_str rest
  end.

Definition normalize_date `{Runtime} (date_str : string) : string :=
  default today (try_formats date_str patterns).

End Pdf.

(** The labels a rule-based categoriser can return. *)
Definition rule_labels : list string := category_priority ++ ["Other Expenses"].


(** ** Sample data for the concrete checks *)

(** A classifier stub: a key is configured, every call returns some text
    and decoding it gives [answer] ([None]: decoding raises). *)
Definition stub_services (answer : option json) : Services :=
  {| api_key := true;
     chat_completion := λ _ _, Some "[...]";
     json_loads := λ _, answer;
     prompt_head := "Transactions to categorize:" +:+ Py.chr 10;
     prompt_tail := "" |}.

(** A classifier stub whose every call raises. *)
Definition throwing_services : Services :=
  {| api_key := true;
     chat_completion := λ _ _, None;
     json_loads := λ _, None;
     prompt_head := "Transactions to categorize:" +:+ Py.chr 10;
     prompt_tail := "" |}.

Definition sample_debit : transaction :=
  mk_transaction "2024-02-01" (Finite (-50)) "Carrefour Mall" (JStr "Food & Dining") "Food".

Definition sample_credit : transaction :=
  mk_transaction "2024-02-02" (Finite 5000) "Salary" (JStr "Other Expenses")
                 "Miscellaneous".

(** A sample interpreter: [float] on plain decimal texts (an optional sign,
    digits, an optional fraction) and on the special names [nan], [inf]
    and [infinity]; [str] of a float for whole numbers and the special
    values; and a fixed day as today. *)
Definition decimal_value (int_part frac_part : string) : Q :=
  Qmake (Z.of_nat (Py.int_of_digits (int_part +:+ frac_part)))
        (Z.to_pos (10 ^ Z.of_nat (String.length frac_part))).

Definition sample_float (s : string) : option pyfloat :=
  let t := Py.lower (Py.strip s) in
  let '(negative, body) :=
    match t with
    | String "-" r => (true, r)
    | String "+" r => (false, r)
    | _ => (false, t)
    end in
  let signed f := if negative then float_opp f else f in
  if String.eqb body "nan" then Some NaN
  else if String.eqb body "inf" || String.eqb body "infinity"
  then Some (signed (Inf false))
  else match Py.split_on "." body with
       | [i] =>
           if Py.all_digits i && negb (String.eqb i "")
           then Some (signed (Finite (decimal_value i ""))) else None
       | [i; f] =>
           if Py.all_digits i && Py.all_digits f
              && negb (String.eqb i "" && String.eqb f "")
           then Some (signed (Finite (decimal_value i f))) else None
       | _ => None
       end.

Definition sample_float_str (f : pyfloat) : string :=
  match f with
  | Finite q => Py.str_Z (Qnum q / Z.pos (Qden q)) +:+ ".0"
  | Inf negative => if negative then "-inf" else "inf"
  | NaN => "nan"
  end.

Definition sample_runtime : Runtime :=
  {| py_float := sample_float; float_str := sample_float_str; today := "2026-01-15" |}.

(** A sheet of twenty rows whose header is in row 20. *)
Definition sheet_header_in_row_20 : worksheet :=
  mk_worksheet 20 3
    (replicate 19 [CNone; CNone; CNone]
     ++ [[CStr "Date"; CStr "Description"; CStr "Amount"]]).

(** The same header in row 19. *)
Definition sheet_header_in_row_19 : worksheet :=
  mk_worksheet 20 3
    (replicate 18 [CNone; CNone; CNone]
     ++ [[CStr "Date"; CStr "Description"; CStr "Amount"]; [CNone; CNone; CNone]]).

(** A sheet whose header cells are in columns 8, 9 and 10 of row 1. *)
Definition sheet_header_in_column_10 : worksheet :=
  mk_worksheet 1 10
    [replicate 7 CNone ++ [CStr "Date"; CStr "Description"; CStr "Amount"]].

(** A header row whose first cell names two roles. *)
Definition sheet_particular_date : worksheet :=
  mk_worksheet 1 3 [[CStr "Particular Date"; CStr "Debit"; CStr "Credit"]].

(** A header row with two date columns. *)
Definition sheet_two_dates : worksheet :=
  mk_worksheet 1 3 [[CStr "Date"; CStr "Value Date"; CStr "Amount"]].

(** The statement of the end-to-end scenario, with an Account Info sheet. *)
Definition sample_account_info : worksheet :=
  mk_worksheet 3 2
    [ [CStr "Account Holder"; CStr "Jane Doe"];
      [CStr "Account Number"; CStr "1234567890123456"];
      [CStr "Bank Name"; CStr "Emirates NBD"] ].

Definition sample_sheet : worksheet :=
  mk_worksheet 3 4
    [ [CStr "Date"; CStr "Description"; CStr "Debit"; CStr "Credit"];
      [CStr "01/02/2024"; CStr "Carrefour Mall"; CInt 50; CStr ""];
      [CStr "02/02/2024"; CStr "Salary"; CNone; CInt 5000] ].

Definition sample_workbook : workbook :=
  [("Account Info", sample_account_info); ("Transactions", sample_sheet)].

(** A sheet with a row whose description reads "Closing costs", one whose
    description reads "Balance transfer" and one whose date cell reads
    "Monthly". *)
Definition sheet_summary_words : worksheet :=
  mk_worksheet 4 4
    [ [CStr "Date"; CStr "Description"; CStr "Debit"; CStr "Credit"];
      [CStr "01/02/2024"; CStr "Closing costs"; CInt 50; CNone];
      [CStr "02/02/2024"; CStr "Balance transfer"; CNone; CInt 70];
      [CStr "Monthly"; CStr "Gym"; CInt 30; CNone] ].

(** A sheet whose debit cell holds the text "nan". *)
Definition sheet_nan_debit : worksheet :=
  mk_worksheet 2 4
    [ [CStr "Date"; CStr "Description"; CStr "Debit"; CStr "Credit"];
      [CStr "01/02/2024"; CStr "Card payment"; CStr "nan"; CNone] ].

(** ** Notions used to state further properties *)

(** The fields of a transaction that the batcher never writes. *)
Definition core_fields (tx : transaction) : string * pyfloat * string :=
  (Date tx, Amount tx, Description tx).

(** A classifier stub whose first call raises and whose later calls are
    answered by the one-element array [["Income"]]. *)
Definition first_call_fails : Services :=
  {| api_key := true;
     chat_completion := λ k _, match k with O => None | S _ => Some "[...]" end;
     json_loads := λ _, Some (JArr [JStr "Income"]);
     prompt_head := "Transactions to categorize:" +:+ Py.chr 10;
     prompt_tail := "" |}.

(** ** The upload endpoint: bank and currency enrichment *)
Module App.

(** What [detect_bank_and_currency] returns. *)
Record bank_detection : Type := mk_detection {
  detected_name : string;
  country : string;
  detected_currency : string;
  bank_code : string
}.

(** [GLOBAL_BANK_CONFIG], in the order it is written: the key, then
    country, currency and code. *)
Definition GLOBAL_BANK_CONFIG : list (string * (string * string * string)) :=
  [ ("abu dhabi commercial bank", ("UAE", "AED", "ADCB"));
    ("adcb", ("UAE", "AED", "ADCB"));
    ("first abu dhabi bank", ("UAE", "AED", "FAB"));
    ("fab", ("UAE", "AED", "FAB"));
    ("emirates nbd", ("UAE", "AED", "ENBD"));
    ("enbd", ("UAE", "AED", "ENBD"));
    ("mashreq bank", ("UAE", "AED", "MASHREQ"));
    ("mashreq", ("UAE", "AED", "MASHREQ"));
    ("commercial bank of dubai", ("UAE", "AED", "CBD"));
    ("cbd", ("UAE", "AED", "CBD"));
    ("hsbc uae", ("UAE", "AED", "HSBC"));
    ("hsbc middle east", ("UAE", "AED", "HSBC"));
    ("abu dhabi islamic bank", ("UAE", "AED", "ADIB"));
    ("adib", ("UAE", "AED", "ADIB"));
    ("bank of america", ("USA", "USD", "BOA"));
    ("chase bank", ("USA", "USD", "CHASE"));
    ("wells fargo", ("USA", "USD", "WF"));
    ("citibank", ("USA", "USD", "CITI"));
    ("barclays", ("UK", "GBP", "BARCLAYS"));
    ("lloyds", ("UK", "GBP", "LLOYDS"));
    ("hsbc uk", ("UK", "GBP", "HSBC"));
    ("state bank of india", ("India", "INR", "SBI"));
    ("hdfc bank", ("India", "INR", "HDFC"));
    ("icici bank", ("India", "INR", "ICICI"));
    ("deutsche bank", ("Germany", "EUR", "DB"));
    ("bnp paribas", ("France", "EUR", "BNP"));
    ("ing bank", ("Netherlands", "EUR", "ING")) ].

Fixpoint scan_config (text_lower : string)
  (config : list (string * (string * string * string))) : option bank_detection :=
  match config with
  | [] => None
  | (bank_key, (ctry, cur, code)) :: rest =>
      if Py.contains bank_key text_lower
      then Some (mk_detection (Py.title bank_key) ctry cur code)
      else scan_config text_lower rest
  end.

Definition detect_bank_and_currency (text : string) : bank_detection :=
  default (mk_detection "Unknown Bank" "Unknown" "USD" "UNKNOWN")
          (scan_config (Py.lower text) GLOBAL_BANK_CONFIG).

(** The bank information of the upload response: the processor's, with
    currency, country and bank code taken from the detection on its bank
    name ([bank_info.update(...)]). *)
Record upload_bank_info : Type := mk_upload_info {
  from_processor : bank_info;
  upload_currency : string;
  upload_country : string;
  upload_bank_code : string
}.

Definition enrich_bank_info (info : bank_info) : upload_bank_info :=
  let bank_detection := detect_bank_and_currency (bank_name info) in
  mk_upload_info info (detected_currency bank_detection) (country bank_detection)
                 (bank_code bank_detection).

End App.

(** The bank names the spreadsheet processor can report from an Account
    Info sheet, each with the currency it sets for it. *)
Definition account_info_banks : list (string * string) :=
  [ ("Unknown Bank", "USD");
    ("Abu Dhabi Commercial Bank", "AED"); ("First Abu Dhabi Bank", "AED");
    ("Emirates NBD", "AED"); ("Mashreq Bank", "AED");
    ("Commercial Bank of Dubai", "AED"); ("HSBC Bank Middle East", "AED");
    ("RAKBank", "AED"); ("Abu Dhabi Islamic Bank", "AED");
    ("Bank of America", "USD"); ("Chase Bank", "USD");
    ("Wells Fargo", "USD"); ("Citibank", "USD") ].

(** A cell whose text the model reads as the interpreter does: its text
    is ASCII, or it holds a date with a year of four digits, from 1000 on,
    as spreadsheet dates are. *)
Definition cell_in_range `{Runtime} (c : cell) : Prop :=
  match c with
  | CDateTime dt =>
      (1000 ≤ year dt < 10 ^ 4)%nat ∧ (1 ≤ month dt ≤ 12)%nat ∧ (1 ≤ day dt ≤ 31)%nat
  | _ => Py.is_ascii (py_str c) = true
  end.

(** The chain of tests that gives a header cell its role, as a table: each
    role with the words that name it, in the order of the tests. *)
Definition role_chain : list (string * list string) :=
  [ ("date_col", ["date"]);
    ("description_col", ["description"; "particular"; "narration"]);
    ("type_col", ["type"]);
    ("reference_col", ["reference"; "ref"]);
    ("debit_col", ["debit"]);
    ("credit_col", ["credit"]);
    ("amount_col", ["amount"]) ].

(** The role of the first entry of the table one of whose words occurs in
    the text. *)
Definition first_role (cell_text : string) : option string :=
  fst <$> List.find (λ entry, Py.any_in (snd entry) cell_text) role_chain.

(** The masked form of an account number. *)
Definition masked (cell_text : string) : string :=
  Py.take 4 cell_text +:+ "-****-" +:+ Py.take_last 4 cell_text.

(** What the row loop gives every transaction it builds: the rule-based
    category of its description, the subcategory of that category, and an
    amount that is not equal to 0. *)
Definition rule_based (tx : transaction) : Prop :=
  Category tx = JStr (Excel.categorize_transaction (Description tx))
  ∧ Subcategory tx = Excel.subcategory_of (Excel.categorize_transaction (Description tx))
  ∧ float_is_zero (Amount tx) = false.

(** The ten digits, and the check that a year of four digits is printed
    back as it was read. *)
Definition digit_chars : list ascii :=
  ["0"; "1"; "2"; "3"; "4"; "5"; "6"; "7"; "8"; "9"]%char.

Definition year_check (a b c d : ascii) : bool :=
  let y := String a (String b (String c (String d EmptyString))) in
  String.eqb (Py.pad 4 (Py.int_of_digits y)) y && (Py.int_of_digits y <? 10 ^ 4)%nat.

(** The text of a cell as the header scan for bank information reads it,
    its test for an account number, and what the scan has established
    about the account number once the cells [seen] have been read: the
    placeholder while none of them reads as an account number, the masked
    text of one of them otherwise. *)
Definition bank_cell_text `{Runtime} (ws : worksheet) (row col : nat) : string :=
  Py.upper (str_or (cell_value ws row col) "").

Definition is_account_number (cell_text : string) : bool :=
  Py.match_digits 10 16 (Py.replace "-" "" (Py.replace " " "" cell_text)).

Definition account_scan_state `{Runtime} (ws : worksheet) (seen : nat → nat → Prop)
  (info : bank_info) : Prop :=
  (account_number info = "XXXX-XXXX-XXXX"
   ∧ ∀ row col, seen row col → is_account_number (bank_cell_text ws row col) = false)
  ∨ ∃ row col, seen row col
               ∧ is_account_number (bank_cell_text ws row col) = true
               ∧ account_number info = masked (bank_cell_text ws row col).
Local Open Scope nat_scope.

Example excel_cat_carrefour :
  Excel.categorize_transaction "Carrefour Mall" = "Food & Dining".
Proof. vm_compute. reflexivity. Qed.

Example excel_cat_salary : Excel.categorize_transaction "Salary" = "Other Expenses".
Proof. vm_compute. reflexivity. Qed.

Example excel_cat_cvs : Excel.categorize_transaction "cvs" = "Other Expenses".
Proof. vm_compute. reflexivity. Qed.

Example pdf_cat_cvs : Pdf.categorize_transaction "cvs" = "Healthcare".
Proof. vm_compute. reflexivity. Qed.

(** ** The two rule-based categorisers compared *)


Lemma excel_scan_keywords_label category d kws c :
  Excel.scan_keywords category d kws = Some c → c = category.
Proof.
  induction kws as [|kw kws IH]; simpl; [discriminate|].
  destruct (Py.contains kw d); [destruct (Excel.guard category d)|]; auto.
  congruence.
Qed.

Lemma excel_scan_priority_label d cats c :
  Excel.scan_priority d cats = Some c → In c cats.
Proof.
  induction cats as [|category cats IH]; simpl; [discriminate|].
  destruct (Excel.scan_keywords _ _ _) as [c'|] eqn:E.
  - intros [= <-]. left. symmetry. eapply excel_scan_keywords_label, E.
  - auto.
Qed.

Lemma excel_scan_merchants_label d ps cat :
  Excel.scan_merchants d ps = Some cat → In cat (map snd ps).
Proof.
  induction ps as [|[m c] ps IH]; simpl; [discriminate|].
  destruct (Py.contains _ _); [intros [= <-]; auto | auto].
Qed.

Lemma pdf_scan_keywords_label category d kws c :
  Pdf.scan_keywords category d kws = Some c → c = category.
Proof.
  induction kws as [|kw kws IH]; simpl; [discriminate|].
  destruct (Py.contains kw d); auto. congruence.
Qed.

Lemma pdf_scan_priority_label d cats c :
  Pdf.scan_priority d cats = Some c → In c cats.
Proof.
  induction cats as [|category cats IH]; simpl; [discriminate|].
  destruct (Pdf.scan_keywords _ _ _) as [c'|] eqn:E.
  - intros [= <-]. left. symmetry. eapply pdf_scan_keywords_label, E.
  - auto.
Qed.

Lemma excel_categorize_label d : In (Excel.categorize_transaction d) rule_labels.
Proof.
  unfold Excel.categorize_transaction, rule_labels.
  destruct (Excel.scan_priority _ _) as [c|] eqn:E.
  { apply in_or_app. left. eapply excel_scan_priority_label, E. }
  repeat match goal with |- context [if ?b then _ else _] => destruct b end;
    try (cbn; tauto).
  destruct (Excel.scan_merchants _ _) as [cat|] eqn:M; [|cbn; tauto].
  apply excel_scan_merchants_label in M. cbn in M |- *.
  intuition (subst; auto).
Qed.

Lemma pdf_categorize_label d : In (Pdf.categorize_transaction d) rule_labels.
Proof.
  unfold Pdf.categorize_transaction, rule_labels.
  destruct (Pdf.scan_priority _ _) as [c|] eqn:E.
  - apply in_or_app. left. eapply pdf_scan_priority_label, E.
  - cbn. tauto.
Qed.

(** C10, as stated, fails: the description "cvs" is Healthcare for the PDF
    categoriser (keyword [cvs]) and Other Expenses for the spreadsheet one,
    and "finance" is Banking & Finance for the PDF categoriser while the
    spreadsheet one rejects it for want of a guard term. *)
Lemma categorizers_differ :
  Excel.categorize_transaction "cvs" ≠ Pdf.categorize_transaction "cvs"
  ∧ Excel.categorize_transaction "finance" = "Other Expenses"
  ∧ Pdf.categorize_transaction "finance" = "Banking & Finance".
Proof. vm_compute. repeat split; discriminate. Qed.

(** ** The AI categorisation batcher *)

Lemma recategorize_updates c tx :
  set_subcategory (Py.split_first c) (set_category (JStr c) tx) = recategorize c tx.
Proof. reflexivity. Qed.

Lemma apply_positional_nil_response batch : apply_positional [] batch = batch.
Proof.
  unfold apply_positional. apply list_eq; intros j.
  rewrite list_lookup_imap. by destruct (batch !! j).
Qed.

Lemma apply_positional_nil_batch response : apply_positional response [] = [].
Proof. reflexivity. Qed.

Lemma apply_positional_cons c response tx batch :
  apply_positional (c :: response) (tx :: batch)
  = recategorize c tx :: apply_positional response batch.
Proof. unfold apply_positional. by rewrite imap_cons. Qed.

Lemma length_apply_positional response batch :
  length (apply_positional response batch) = length batch.
Proof. apply length_imap. Qed.

Lemma lookup_apply_positional response batch i tx :
  batch !! i = Some tx →
  apply_positional response batch !! i
  = Some (match response !! i with Some c => recategorize c tx | None => tx end).
Proof. intros Hi. unfold apply_positional. by rewrite list_lookup_imap, Hi. Qed.

Lemma drop_lookup_cons {A} (l : list A) idx x :
  l !! idx = Some x → drop idx l = x :: drop (S idx) l.
Proof.
  revert idx. induction l as [|y l IH]; intros [|idx]; simpl; try done.
  - by intros [= ->].
  - apply IH.
Qed.

(** The positional loop on an array of strings: it never raises, rewrites
    the objects of the batch in place and appends each of them once. *)
Lemma apply_ai_categories_strings (all : list string) vals :
  ∀ idx pre post cat reqs,
    apply_ai_categories (JArr (JStr <$> all)) idx
      (seq (length pre) (length vals)) (mk_state (pre ++ vals ++ post) cat reqs)
    = Returned (mk_state (pre ++ apply_positional (drop idx all) vals ++ post)
                         (cat ++ seq (length pre) (length vals)) reqs).
Proof.
  induction vals as [|tx vals IH]; intros idx pre post cat reqs.
  - simpl. by rewrite app_nil_r.
  - cbn [length seq apply_ai_categories py_len py_getitem].
    rewrite length_fmap.
    destruct (idx <? length all)%nat eqn:Hlt.
    + apply Nat.ltb_lt in Hlt.
      destruct (lookup_lt_is_Some_2 all idx Hlt) as [c Hc].
      rewrite list_lookup_fmap, Hc. cbn [fmap option_fmap option_map].
      unfold update_tx, append_tx. cbn [store categorized_transactions requests].
      rewrite (alter_app_r_alt _ pre) by lia.
      rewrite Nat.sub_diag. cbn [alter list_alter app].
      rewrite (alter_app_r_alt _ pre) by lia.
      rewrite Nat.sub_diag. cbn [alter list_alter app].
      rewrite recategorize_updates.
      rewrite (drop_lookup_cons _ _ _ Hc), apply_positional_cons.
      specialize (IH (S idx) (pre ++ [recategorize c tx]) post (cat ++ [length pre]) reqs).
      rewrite length_app, <- !app_assoc in IH. cbn [length app] in IH.
      replace (length pre + 1) with (S (length pre)) in IH by lia.
      exact IH.
    + apply Nat.ltb_ge in Hlt.
      unfold append_tx. cbn [store categorized_transactions requests].
      rewrite (drop_ge all idx) by lia.
      rewrite apply_positional_nil_response.
      specialize (IH (S idx) (pre ++ [tx]) post (cat ++ [length pre]) reqs).
      rewrite (drop_ge all (S idx)), apply_positional_nil_response in IH by lia.
      rewrite length_app, <- !app_assoc in IH. cbn [length app] in IH.
      replace (length pre + 1) with (S (length pre)) in IH by lia.
      exact IH.
Qed.

Lemma lookup_total_seq_all (l : list transaction) :
  (λ r, l !!! r) <$> seq 0 (length l) = l.
Proof.
  apply list_eq; intros j. rewrite list_lookup_fmap.
  destruct (l !! j) as [x|] eqn:Hj.
  - rewrite lookup_seq_lt by (eapply lookup_lt_Some, Hj). simpl.
    by rewrite (list_lookup_total_correct _ _ _ Hj).
  - rewrite lookup_seq_ge; [done|]. by apply lookup_ge_None.
Qed.

Lemma batch_references i n :
  take batch_size (drop i (seq 0 n)) = seq i (batch_size `min` (n - i)).
Proof. by rewrite drop_seq, take_seq. Qed.

Lemma descriptions_enumerated done vals post cat reqs :
  descriptions (mk_state (done ++ vals ++ post) cat reqs) (length done)
    (seq (length done) (length vals))
  = enumerated (length done) vals.
Proof.
  unfold descriptions, enumerated. cbn [store].
  apply list_eq; intros j. rewrite !list_lookup_imap.
  destruct (vals !! j) as [tx|] eqn:Hj.
  - rewrite lookup_seq_lt by (eapply lookup_lt_Some, Hj). simpl.
    rewrite lookup_total_app_r by lia.
    replace (length done + j - length done) with j by lia.
    rewrite lookup_total_app_l by (eapply lookup_lt_Some, Hj).
    by rewrite (list_lookup_total_correct _ _ _ Hj).
  - rewrite lookup_seq_ge; [done|]. by apply lookup_ge_None.
Qed.

Section batcher_facts.
Context `{Services}.

Lemma build_prompt_enumerated i batch :
  Excel.build_prompt (enumerated i batch) = Excel.batch_prompt i batch.
Proof. reflexivity. Qed.

(** One batch whose response decodes to an array of strings. *)
Lemma process_batch_strings n i done vals post cat reqs response :
  n = length done + (length vals + length post) → i = length done →
  length vals = batch_size `min` (length vals + length post) →
  Excel.parsed_response (length reqs) (Excel.batch_prompt i vals)
  = Some (JArr (JStr <$> response)) →
  Excel.process_batch (seq 0 n) (mk_state (done ++ vals ++ post) cat reqs) i
  = mk_state (done ++ apply_positional response vals ++ post)
             (cat ++ seq i (length vals))
             (reqs ++ [Excel.batch_prompt i vals]).
Proof.
  intros -> -> Hlen Hresp. unfold Excel.process_batch.
  rewrite batch_references.
  replace (length done + (length vals + length post) - length done)
    with (length vals + length post) by lia.
  rewrite <- Hlen. rewrite descriptions_enumerated.
  cbn [requests]. rewrite build_prompt_enumerated.
  rewrite Hresp. unfold log_request. cbn [store categorized_transactions requests].
  by rewrite apply_ai_categories_strings.
Qed.

(** One batch whose call or decoding raises. *)
Lemma process_batch_fails n i done vals post cat reqs :
  n = length done + (length vals + length post) → i = length done →
  length vals = batch_size `min` (length vals + length post) →
  Excel.parsed_response (length reqs) (Excel.batch_prompt i vals) = None →
  Excel.process_batch (seq 0 n) (mk_state (done ++ vals ++ post) cat reqs) i
  = mk_state (done ++ vals ++ post)
             (cat ++ seq i (length vals))
             (reqs ++ [Excel.batch_prompt i vals]).
Proof.
  intros -> -> Hlen Hresp. unfold Excel.process_batch.
  rewrite batch_references.
  replace (length done + (length vals + length post) - length done)
    with (length vals + length post) by lia.
  rewrite <- Hlen. rewrite descriptions_enumerated.
  cbn [requests]. rewrite build_prompt_enumerated.
  by rewrite Hresp.
Qed.

Lemma process_batch_answered n i done vals post cat reqs response :
  n = length done + (length vals + length post) → i = length done →
  length vals = batch_size `min` (length vals + length post) →
  Excel.answered response (length reqs) i vals →
  Excel.process_batch (seq 0 n) (mk_state (done ++ vals ++ post) cat reqs) i
  = mk_state (done ++ apply_positional (response (length reqs)) vals ++ post)
             (cat ++ seq i (length vals))
             (reqs ++ [Excel.batch_prompt i vals]).
Proof.
  intros Hn Hi Hlen [Hok|[Hfail Hnil]].
  - by apply process_batch_strings.
  - rewrite Hnil, apply_positional_nil_response. by apply process_batch_fails.
Qed.

Lemma positional_run_nil response fuel k : positional_run response fuel k [] = [].
Proof. by destruct fuel. Qed.

Lemma prompts_run_nil fuel i : Excel.prompts_run fuel i [] = [].
Proof. by destruct fuel. Qed.

Lemma range_from_done (fuel start stop step : nat) :
  (stop ≤ start)%nat → range_from fuel start stop step = [].
Proof.
  intros Hle. destruct fuel; [done|]. simpl.
  by rewrite (proj2 (Nat.ltb_ge start stop) Hle).
Qed.

(** The whole run, when every batch is answered by an array of strings or
    fails: batch after batch, the store receives the positional result. *)
Lemma run_answered (response : nat → list string) fuel :
  ∀ k done rest cat reqs n i,
    n = length done + length rest → i = length done → i = k * batch_size →
    length reqs = k → length rest ≤ fuel →
    (∀ j, j * batch_size < length rest →
          Excel.answered response (k + j) ((k + j) * batch_size)
            (batch_at (j * batch_size) rest)) →
    foldl (Excel.process_batch (seq 0 n)) (mk_state (done ++ rest) cat reqs)
      (range_from fuel i n batch_size)
    = mk_state (done ++ positional_run response fuel k rest)
               (cat ++ seq i (length rest))
               (reqs ++ Excel.prompts_run fuel i rest).
Proof.
  induction fuel as [|fuel IH]; intros k done rest cat reqs n i Hn Hi Hk Hreqs Hfuel Hans.
  - destruct rest; [|simpl in Hfuel; lia]. simpl. by rewrite !app_nil_r.
  - destruct rest as [|tx rest'].
    { rewrite range_from_done by (simpl in Hn; lia). simpl. by rewrite !app_nil_r. }
    set (rest := tx :: rest') in *.
    set (vals := take batch_size rest).
    set (post := drop batch_size rest).
    assert (Hsplit : rest = vals ++ post) by (symmetry; apply take_drop).
    assert (Hvals : length vals = batch_size `min` length rest)
      by (unfold vals; rewrite length_take; lia).
    assert (Hpost : length post = length rest - batch_size)
      by (unfold post; apply length_drop).
    assert (Hrest : length rest = S (length rest')) by reflexivity.
    cbn [range_from].
    rewrite (proj2 (Nat.ltb_lt i n)) by lia.
    cbn [foldl].
    assert (H0 : Excel.answered response (length reqs) i vals).
    { specialize (Hans 0). rewrite Nat.add_0_r in Hans. subst k.
      rewrite <- Hk in Hans. apply Hans. simpl. lia. }
    assert (Hstore : done ++ rest = done ++ vals ++ post) by (by rewrite <- Hsplit).
    rewrite Hstore.
    rewrite (process_batch_answered n i done vals post cat reqs response);
      [|lia|done|lia|done].
    cbn [positional_run Excel.prompts_run]. fold rest. fold vals. fold post.
    change (match rest with [] => [] | _ :: _ =>
        apply_positional (response k) vals ++ positional_run response fuel (S k) post end)
      with (apply_positional (response k) vals ++ positional_run response fuel (S k) post).
    change (match rest with [] => [] | _ :: _ =>
        Excel.batch_prompt i vals :: Excel.prompts_run fuel (i + batch_size) post end)
      with (Excel.batch_prompt i vals :: Excel.prompts_run fuel (i + batch_size) post).
    rewrite Hreqs.
    destruct (decide (length rest ≤ batch_size)) as [Hshort|Hlong].
    { assert (post = []) as -> by (apply nil_length_inv; lia).
      rewrite range_from_done by lia.
      rewrite positional_run_nil, prompts_run_nil, !app_nil_r. cbn [foldl].
      f_equal. f_equal. f_equal. lia. }
    replace (done ++ apply_positional (response k) vals ++ post)
      with ((done ++ apply_positional (response k) vals) ++ post)
      by (by rewrite <- app_assoc).
    rewrite (IH (S k) (done ++ apply_positional (response k) vals) post
               (cat ++ seq i (length vals)) (reqs ++ [Excel.batch_prompt i vals])
               n (i + batch_size)).
    + f_equal.
      * by rewrite <- !app_assoc.
      * rewrite <- !app_assoc. f_equal.
        replace (length rest) with (length vals + length post) by lia.
        rewrite seq_app. f_equal. f_equal. lia.
      * by rewrite <- !app_assoc.
    + rewrite length_app, length_apply_positional. lia.
    + rewrite length_app, length_apply_positional. lia.
    + unfold batch_size in *. lia.
    + rewrite length_app. simpl. lia.
    + unfold batch_size in *. lia.
    + intros j Hj.
      replace (S k + j) with (k + S j) by lia.
      replace (batch_at (j * batch_size) post)
        with (batch_at (S j * batch_size) rest).
      * apply Hans. unfold batch_size in *. lia.
      * unfold batch_at, post. rewrite drop_drop.
        do 2 f_equal; unfold batch_size; lia.
Qed.

End batcher_facts.

Lemma length_positional_run response fuel :
  ∀ k rest, length rest ≤ fuel →
    length (positional_run response fuel k rest) = length rest.
Proof.
  induction fuel as [|fuel IH]; intros k rest Hfuel.
  - by destruct rest; [|simpl in Hfuel; lia].
  - destruct rest as [|tx rest']; [done|].
    cbn [positional_run]. rewrite length_app, length_apply_positional, IH.
    + rewrite length_take, length_drop. lia.
    + rewrite length_drop. unfold batch_size. simpl in *. lia.
Qed.

Lemma lookup_positional_run response fuel :
  ∀ k rest j i tx, length rest ≤ fuel → i < batch_size →
    rest !! (j * batch_size + i) = Some tx →
    positional_run response fuel k rest !! (j * batch_size + i)
    = Some (match response (k + j) !! i with
            | Some c => recategorize c tx
            | None => tx
            end).
Proof.
  induction fuel as [|fuel IH]; intros k rest j i tx Hfuel Hi Htx.
  - destruct rest; [done|simpl in Hfuel; lia].
  - destruct rest as [|tx0 rest']; [done|].
    set (rest := tx0 :: rest') in *.
    cbn [positional_run]. fold rest.
    change (match rest with [] => [] | _ :: _ =>
        apply_positional (response k) (take batch_size rest)
        ++ positional_run response fuel (S k) (drop batch_size rest) end)
      with (apply_positional (response k) (take batch_size rest)
            ++ positional_run response fuel (S k) (drop batch_size rest)).
    pose proof (lookup_lt_Some _ _ _ Htx) as Hlt.
    destruct j as [|j].
    + rewrite Nat.add_0_r. change (0 * batch_size + i) with i in *.
      rewrite lookup_app_l by (rewrite length_apply_positional, length_take; lia).
      apply lookup_apply_positional. by rewrite lookup_take_lt.
    + rewrite lookup_app_r
        by (rewrite length_apply_positional, length_take; unfold batch_size in *; lia).
      rewrite length_apply_positional, length_take.
      replace (S j * batch_size + i - batch_size `min` length rest)
        with (j * batch_size + i) by (unfold batch_size in *; lia).
      replace (k + S j) with (S k + j) by lia.
      apply IH; [|done|].
      * rewrite length_drop. unfold batch_size in *. subst rest. simpl in *. lia.
      * rewrite lookup_drop. rewrite <- Htx. f_equal; unfold batch_size; lia.
Qed.

Section batcher_run.
Context `{Services}.

Lemma lookup_prompts_run fuel :
  ∀ i rest j, length rest ≤ fuel → j * batch_size < length rest →
    Excel.prompts_run fuel i rest !! j
    = Some (Excel.batch_prompt (i + j * batch_size) (batch_at (j * batch_size) rest)).
Proof.
  induction fuel as [|fuel IH]; intros i rest j Hfuel Hj.
  - destruct rest; simpl in *; lia.
  - destruct rest as [|tx0 rest']; [simpl in Hj; lia|].
    cbn [Excel.prompts_run].
    destruct j as [|j].
    + simpl. rewrite Nat.add_0_r. unfold batch_at. by rewrite drop_0.
    + rewrite lookup_cons. rewrite IH.
      * f_equal. f_equal; [unfold batch_size; lia|].
        unfold batch_at. rewrite drop_drop. do 2 f_equal; unfold batch_size; lia.
      * rewrite length_drop. unfold batch_size in *. simpl in *. lia.
      * rewrite length_drop. unfold batch_size in *. lia.
Qed.

(** The final state of a run in which every batch is answered by an array
    of strings or fails. *)
Lemma run_batches_answered (response : nat → list string) transactions :
  (∀ k, k * batch_size < length transactions →
        Excel.answered response k (k * batch_size)
          (batch_at (k * batch_size) transactions)) →
  Excel.run_batches transactions
  = mk_state (positional_run response (length transactions) 0 transactions)
             (seq 0 (length transactions))
             (Excel.prompts_run (length transactions) 0 transactions).
Proof.
  intros Hans. unfold Excel.run_batches, py_range. rewrite Nat.sub_0_r.
  by rewrite (run_answered response (length transactions) 0 [] transactions [] []
             (length transactions) 0).
Qed.

Lemma ai_categorize_answered (response : nat → list string) transactions :
  api_key = true →
  (∀ k, k * batch_size < length transactions →
        Excel.answered response k (k * batch_size)
          (batch_at (k * batch_size) transactions)) →
  Excel.ai_categorize_transactions transactions
  = positional_run response (length transactions) 0 transactions.
Proof.
  intros Hkey Hans. unfold Excel.ai_categorize_transactions. rewrite Hkey.
  destruct transactions as [|tx txs]; [done|].
  rewrite (run_batches_answered response) by done.
  unfold Excel.returned_list. cbn [store categorized_transactions].
  set (out := positional_run response (length (tx :: txs)) 0 (tx :: txs)).
  replace (length (tx :: txs)) with (length out)
    by (by apply length_positional_run).
  apply lookup_total_seq_all.
Qed.

End batcher_run.

Lemma positional_run_no_response fuel :
  ∀ k rest, length rest ≤ fuel → positional_run (λ _, []) fuel k rest = rest.
Proof.
  induction fuel as [|fuel IH]; intros k rest Hfuel.
  - by destruct rest; [|simpl in Hfuel; lia].
  - destruct rest as [|tx rest']; [done|].
    cbn [positional_run]. rewrite apply_positional_nil_response, IH.
    + apply take_drop.
    + rewrite length_drop. unfold batch_size. simpl in *. lia.
Qed.

(** When every call or decoding fails the batcher returns its input: the
    same transactions, in the same order, with their categories. *)
Lemma classifier_failure_keeps_input `{Services} (transactions : list transaction) :
  (∀ k prompt, Excel.parsed_response k prompt = None) →
  Excel.ai_categorize_transactions transactions = transactions.
Proof.
  intros Hfail. destruct api_key eqn:Hkey.
  - rewrite (ai_categorize_answered (λ _, [])); [|done|].
    + by apply positional_run_no_response.
    + intros k _. right. split; [apply Hfail|done].
  - unfold Excel.ai_categorize_transactions. by rewrite Hkey.
Qed.

(** Without an API key the input is returned as it is. *)
Lemma no_api_key_keeps_input `{Services} (transactions : list transaction) :
  api_key = false → Excel.ai_categorize_transactions transactions = transactions.
Proof. intros Hkey. unfold Excel.ai_categorize_transactions. by rewrite Hkey. Qed.

(** With well-formed answers (an array of strings, or a failure) the
    output has the length of the input, and date, amount and description
    stay where they were. *)
Lemma well_formed_answers_keep_order `{Services} (response : nat → list string)
  (transactions : list transaction) :
  api_key = true →
  (∀ k, k * batch_size < length transactions →
        Excel.answered response k (k * batch_size)
          (batch_at (k * batch_size) transactions)) →
  length (Excel.ai_categorize_transactions transactions) = length transactions
  ∧ ∀ j tx, transactions !! j = Some tx →
      ∃ tx', Excel.ai_categorize_transactions transactions !! j = Some tx'
             ∧ Date tx' = Date tx ∧ Amount tx' = Amount tx
             ∧ Description tx' = Description tx.
Proof.
  intros Hkey Hans. rewrite (ai_categorize_answered response) by done. split.
  - by apply length_positional_run.
  - intros j tx Hj.
    assert (Hdiv : j = j `div` batch_size * batch_size + j `mod` batch_size)
      by (rewrite Nat.mul_comm; apply Nat.div_mod_eq).
    assert (Hmod : j `mod` batch_size < batch_size)
      by (apply Nat.mod_upper_bound; unfold batch_size; lia).
    rewrite Hdiv in Hj |- *.
    rewrite (lookup_positional_run response _ 0 _ _ _ tx) by (done || lia).
    eexists. split; [done|]. by destruct (response _ !! _).
Qed.

(** Failure isolation: a batch whose call or decoding fails keeps its
    transactions as they were, whatever happens to the other batches, as
    long as those are answered by arrays of strings or fail too. *)
Lemma failed_batch_is_kept `{Services} (response : nat → list string)
  (transactions : list transaction) (k : nat) :
  api_key = true →
  (∀ k, k * batch_size < length transactions →
        Excel.answered response k (k * batch_size)
          (batch_at (k * batch_size) transactions)) →
  response k = [] →
  ∀ i tx, i < batch_size → transactions !! (k * batch_size + i) = Some tx →
    Excel.ai_categorize_transactions transactions !! (k * batch_size + i) = Some tx.
Proof.
  intros Hkey Hans Hnil i tx Hi Htx.
  rewrite (ai_categorize_answered response) by done.
  rewrite (lookup_positional_run response _ 0 _ k i tx) by done.
  change (0 + k) with k. by rewrite Hnil.
Qed.

(** C3: the batches are the consecutive slices of fifty transactions; the
    prompt of the batch that starts at index [k * 50] lists the first
    thirty numbered descriptions of that batch and no others; and when
    each batch is answered by an array of category strings, transaction
    [i] of batch [k] is overwritten by element [i] of that array exactly
    when [i] is below the array's length, and is kept as it was otherwise. *)
Theorem batches_applied_positionally `{Services}
  (transactions : list transaction) (response : nat → list string) :
  api_key = true →
  (∀ k, k * 50 < length transactions →
        Excel.parsed_response k
          (Excel.batch_prompt (k * 50) (take 50 (drop (k * 50) transactions)))
        = Some (JArr (JStr <$> response k))) →
  length (Excel.ai_categorize_transactions transactions) = length transactions
  ∧ (∀ k, k * 50 < length transactions →
          requests (Excel.run_batches transactions) !! k
          = Some (prompt_head
                  +:+ Py.join (Py.chr 10)
                        (take 30 (enumerated (k * 50)
                                    (take 50 (drop (k * 50) transactions))))
                  +:+ prompt_tail))
  ∧ (∀ k i tx, i < 50 → transactions !! (k * 50 + i) = Some tx →
          Excel.ai_categorize_transactions transactions !! (k * 50 + i)
          = Some (match response k !! i with
                  | Some c => recategorize c tx
                  | None => tx
                  end)).
Proof.
  intros Hkey Hresp.
  assert (Hans : ∀ k, k * batch_size < length transactions →
                      Excel.answered response k (k * batch_size)
                        (batch_at (k * batch_size) transactions))
    by (intros k Hk; left; by apply Hresp).
  split; [|split].
  - by apply (well_formed_answers_keep_order response).
  - intros k Hk. rewrite (run_batches_answered response) by done.
    cbn [requests].
    by rewrite lookup_prompts_run.
  - intros k i tx Hi Htx.
    rewrite (ai_categorize_answered response) by done.
    by rewrite (lookup_positional_run response _ 0 _ k i tx).
Qed.

(** C3 at a stub classifier that answers every batch with two categories:
    the first two of three transactions are overwritten, the third is kept. *)
Lemma batches_applied_positionally_witness :
  let S := stub_services (Some (JArr [JStr "Shopping & Retail"; JStr "Income"])) in
  let txs := [sample_debit; sample_credit; sample_debit] in
  length (@Excel.ai_categorize_transactions S txs) = 3
  ∧ @Excel.ai_categorize_transactions S txs !! 2 = Some sample_debit
  ∧ @Excel.ai_categorize_transactions S txs !! 1
    = Some (recategorize "Income" sample_credit).
Proof.
  intros S txs.
  destruct (@batches_applied_positionally S txs (λ _, ["Shopping & Retail"; "Income"]))
    as (Hlen & _ & Hpos).
  - reflexivity.
  - intros k _. reflexivity.
  - split; [exact Hlen|]. split.
    + exact (Hpos 0 2 sample_debit ltac:(lia) eq_refl).
    + exact (Hpos 0 1 sample_credit ltac:(lia) eq_refl).
Defined.

(** C2 fails on the code.  When the decoded response is an array whose
    second element is not a string, the loop has already rewritten and
    appended the first transaction when [split] raises on the second; the
    handler then appends the whole batch again.  Two transactions come back
    as three, the first twice and with the classifier's category, the
    second with the number stored as its category. *)
Theorem malformed_array_duplicates_transactions :
  @Excel.ai_categorize_transactions
    (stub_services (Some (JArr [JStr "Shopping & Retail"; JNum 5])))
    [sample_debit; sample_credit]
  = [ recategorize "Shopping & Retail" sample_debit;
      recategorize "Shopping & Retail" sample_debit;
      set_category (JNum 5) sample_credit ].
Proof. vm_compute. reflexivity. Qed.

(** With a classifier that always throws the output is the input. *)
Lemma throwing_classifier_keeps_input (transactions : list transaction) :
  @Excel.ai_categorize_transactions throwing_services transactions = transactions.
Proof. apply classifier_failure_keeps_input. reflexivity. Qed.

(** C9 fails on the code after an overwrite by the batcher: for the answer
    Other Expenses the transaction builder writes the subcategory
    Miscellaneous, the batcher of either processor writes the first word,
    Other. *)
Theorem batcher_other_expenses_subcategory :
  @Excel.ai_categorize_transactions
    (stub_services (Some (JArr [JStr "Other Expenses"]))) [sample_debit]
  = [ mk_transaction "2024-02-01" (Finite (-50)) "Carrefour Mall"
        (JStr "Other Expenses") "Other" ]
  ∧ @Pdf.ai_categorize_transactions
      (stub_services (Some (JArr [JStr "Other Expenses"]))) [sample_debit]
    = [ mk_transaction "2024-02-01" (Finite (-50)) "Carrefour Mall"
          (JStr "Other Expenses") "Other" ].
Proof. vm_compute. split; reflexivity. Qed.

(** ** The format detector *)

Section header_facts.
Context `{Runtime}.

(** A column names the role [key] in a row when its text is a header
    cell and the chain of tests picks [key] for it. *)
Lemma scan_cell_role ws row key acc col :
  fst (Excel.scan_cell ws row acc col) !! key
  = if decide (Excel.is_header_cell (Excel.header_text ws row col) = true
               ∧ Excel.cell_role (Excel.header_text ws row col) = Some key)
    then Some col else fst acc !! key.
Proof.
  unfold Excel.scan_cell.
  destruct (Excel.is_header_cell _) eqn:Hcell; cbn [fst].
  - unfold Excel.assign_role.
    destruct (Excel.cell_role _) as [key'|] eqn:Hrole.
    + case_decide as Hd.
      * destruct Hd as [_ [= ->]]. apply lookup_insert_eq.
      * apply lookup_insert_ne. intros ->. by apply Hd.
    + case_decide as Hd; [by destruct Hd|done].
  - case_decide as Hd; [by destruct Hd|done].
Qed.

Lemma scan_cells_role ws row key cols :
  ∀ acc,
    fst (foldl (Excel.scan_cell ws row) acc cols) !! key
    = match last (filter (λ col,
                     Excel.is_header_cell (Excel.header_text ws row col) = true
                     ∧ Excel.cell_role (Excel.header_text ws row col) = Some key)
                   cols) with
      | Some col => Some col
      | None => fst acc !! key
      end.
Proof.
  induction cols as [|col cols IH]; intros acc; [done|].
  cbn [foldl]. rewrite IH, scan_cell_role, filter_cons.
  case_decide as Hd.
  - rewrite last_cons. by destruct (last _).
  - done.
Qed.

(** The header row found, if any, is that row's scan with [header_row] added. *)
Lemma find_header_scan ws rows row_data :
  Excel.find_header ws rows = Some row_data →
  ∃ row, row ∈ rows ∧ 3 ≤ snd (Excel.scan_header_row ws row)
         ∧ row_data = <["header_row" := row]> (fst (Excel.scan_header_row ws row)).
Proof.
  induction rows as [|row rows IH]; [done|].
  cbn [Excel.find_header].
  destruct (Excel.scan_header_row ws row) as [rd count] eqn:Hscan.
  destruct (3 <=? count) eqn:Hcount.
  - intros [= <-]. exists row. rewrite Hscan. cbn [fst snd].
    split; [apply list_elem_of_here|]. split; [by apply Nat.leb_le|done].
  - intros Hrest. destruct (IH Hrest) as (row' & Hin & Hrow').
    exists row'. split; [by apply list_elem_of_further|done].
Qed.

End header_facts.

(** Header detection on a sheet whose rows 1 to 4 are blank and whose
    row 5 is the header. *)
Example header_in_row_5 :
  @Excel.find_data_headers sample_runtime
    (mk_worksheet 6 5
       (replicate 4 [] ++ [[CStr "Date"; CStr "Description"; CStr "Debit"; CStr "Credit"]]))
  = <["header_row" := 5]> (<["date_col" := 1]> (<["description_col" := 2]>
      (<["debit_col" := 3]> (<["credit_col" := 4]> ∅)))).
Proof. vm_compute. reflexivity. Qed.

(** C5 fails on the code.  The row loop is [range(1, min(20, max_row + 1))],
    which ends at row 19: a header in row 20 is not seen and the default
    mapping is returned, while the same header in row 19 is found.  The
    column loop, commented "check up to 10 columns", ends at column 9 in
    the same way: header cells in columns 8, 9 and 10 count as two. *)
Theorem header_in_row_20_is_missed :
  @Excel.find_data_headers sample_runtime sheet_header_in_row_20
  = Excel.default_mapping
  ∧ @Excel.find_data_headers sample_runtime sheet_header_in_row_19 !! "header_row"
    = Some 19
  ∧ @Excel.find_data_headers sample_runtime sheet_header_in_column_10
    = Excel.default_mapping.
Proof. vm_compute. repeat split; reflexivity. Qed.

(** C6, as stated, fails: a cell containing both "particular" and "date"
    becomes the date column and no description column is recorded; and of
    two cells with the date role the later one is kept, not the first. *)
Lemma particular_date_cell_is_date_column :
  @Excel.find_data_headers sample_runtime sheet_particular_date !! "date_col" = Some 1
  ∧ @Excel.find_data_headers sample_runtime sheet_particular_date !! "description_col"
    = None
  ∧ @Excel.find_data_headers sample_runtime sheet_two_dates !! "date_col" = Some 2.
Proof. vm_compute. repeat split; reflexivity. Qed.

(** C6, amended: within a header cell the first matching test of the chain
    date, description/particular/narration, type, reference/ref, debit,
    credit, amount decides the role: the role of a cell is that of the
    first entry of the chain one of whose words it contains.  So a cell
    containing "date" always takes the date role, whatever else it
    contains; and across the cells of a row the last cell with a role
    decides that role's column. *)
Theorem header_role_first_test_last_cell `{Runtime} (ws : worksheet) (row : nat)
  (key : string) :
  (∀ text, Excel.cell_role text = first_role text)
  ∧ (∀ text, Py.contains "date" text = true → Excel.cell_role text = Some "date_col")
  ∧ fst (Excel.scan_header_row ws row) !! key
    = last (filter (λ col,
                Excel.is_header_cell (Excel.header_text ws row col) = true
                ∧ Excel.cell_role (Excel.header_text ws row col) = Some key)
              (Excel.header_columns ws))
  ∧ (∀ row_data, Excel.find_header ws (Excel.header_rows ws) = Some row_data →
       key ≠ "header_row" →
       ∃ r, r ∈ Excel.header_rows ws
            ∧ Excel.find_data_headers ws !! "header_row" = Some r
            ∧ Excel.find_data_headers ws !! key
              = fst (Excel.scan_header_row ws r) !! key).
Proof.
  split; [|split; [|split]].
  - intros text. unfold Excel.cell_role, first_role, role_chain, Py.any_in.
    cbn [List.find existsb fst snd]. rewrite !orb_false_r.
    repeat match goal with
           | |- context [Py.contains ?w text] => destruct (Py.contains w text)
           end; reflexivity.
  - intros text Hdate. unfold Excel.cell_role. by rewrite Hdate.
  - unfold Excel.scan_header_row. rewrite scan_cells_role.
    cbn [fst]. rewrite lookup_empty. by destruct (last _).
  - intros row_data Hfound Hkey.
    destruct (find_header_scan _ _ _ Hfound) as (r & Hin & _ & ->).
    exists r. split; [done|].
    unfold Excel.find_data_headers. rewrite Hfound.
    split; [apply lookup_insert_eq|by rewrite lookup_insert_ne].
Qed.

(** The amended C6 on the row of the sheet whose first cell reads
    "Particular Date". *)
Lemma header_role_first_test_last_cell_witness :
  Excel.cell_role "particular date" = Some "date_col"
  ∧ fst (@Excel.scan_header_row sample_runtime sheet_two_dates 1) !! "date_col"
    = Some 2.
Proof.
  destruct (@header_role_first_test_last_cell sample_runtime sheet_two_dates 1
              "date_col") as (_ & Hdate & Hlast & _).
  split.
  - apply Hdate. reflexivity.
  - rewrite Hlast. reflexivity.
Defined.

(** ** The date normaliser *)

Local Open Scope string_scope.
Local Open Scope nat_scope.

Lemma all_chars_app p a b :
  Py.all_chars p (a +:+ b) = Py.all_chars p a && Py.all_chars p b.
Proof. induction a as [|c a IH]; simpl; [done|]. by rewrite IH, andb_assoc. Qed.

Lemma all_digits_all_chars (p : ascii → bool) s :
  (∀ c, Py.is_digit c = true → p c = true) →
  Py.all_digits s = true → Py.all_chars p s = true.
Proof.
  intros Hp. induction s as [|c s IH]; simpl; [done|].
  intros [Hc Hs]%andb_prop. by rewrite (Hp c Hc), IH.
Qed.

Lemma all_digits_app a b :
  Py.all_digits (a +:+ b) = Py.all_digits a && Py.all_digits b.
Proof. induction a as [|c a IH]; simpl; [done|]. by rewrite IH, andb_assoc. Qed.

Lemma length_string_app (a b : string) :
  String.length (a +:+ b) = String.length a + String.length b.
Proof. induction a as [|c a IH]; simpl; [done|]. by rewrite IH. Qed.

Lemma digit_not_slash c : Py.is_digit c = true → negb (Ascii.eqb c "/") = true.
Proof. destruct c as [[] [] [] [] [] [] [] []]; vm_compute; congruence. Qed.

Lemma digit_not_dash c : Py.is_digit c = true → negb (Ascii.eqb c "-") = true.
Proof. destruct c as [[] [] [] [] [] [] [] []]; vm_compute; congruence. Qed.

Lemma digit_not_space c : Py.is_digit c = true → negb (Py.is_space c) = true.
Proof. destruct c as [[] [] [] [] [] [] [] []]; vm_compute; congruence. Qed.

Lemma split_on_nonempty sep s : Py.split_on sep s ≠ [].
Proof.
  destruct s as [|c s]; simpl; [done|].
  destruct (Ascii.eqb c sep); [done|]. by destruct (Py.split_on sep s).
Qed.

Lemma split_on_no_sep sep s :
  Py.all_chars (λ c, negb (Ascii.eqb c sep)) s = true → Py.split_on sep s = [s].
Proof.
  induction s as [|c s IH]; simpl; [done|].
  intros [Hc Hs]%andb_prop. apply negb_true_iff in Hc. by rewrite Hc, IH.
Qed.

Lemma split_on_app sep a r :
  Py.all_chars (λ c, negb (Ascii.eqb c sep)) a = true →
  Py.split_on sep (a +:+ String sep r) = a :: Py.split_on sep r.
Proof.
  induction a as [|c a IH]; simpl.
  - intros _. by rewrite Ascii.eqb_refl.
  - intros [Hc Ha]%andb_prop. apply negb_true_iff in Hc. by rewrite Hc, IH.
Qed.

Lemma join_cons_cons sep a b l :
  Py.join sep (a :: b :: l) = a +:+ sep +:+ Py.join sep (b :: l).
Proof. reflexivity. Qed.

(** Splitting loses nothing: joining the parts with the Excel.separator gives
    the text back. *)
Lemma join_split_on sep s :
  Py.join (String sep EmptyString) (Py.split_on sep s) = s.
Proof.
  induction s as [|c s IH]; [done|].
  pose proof (split_on_nonempty sep s) as Hne.
  cbn [Py.split_on].
  destruct (Ascii.eqb c sep) eqn:Hc.
  - apply Ascii.eqb_eq in Hc as ->.
    destruct (Py.split_on sep s) as [|p ps]; [done|].
    rewrite join_cons_cons, IH. reflexivity.
  - destruct (Py.split_on sep s) as [|p ps]; [done|].
    destruct ps as [|q ps].
    + simpl in IH |- *. by rewrite IH.
    + rewrite join_cons_cons in IH |- *.
      transitivity (String c (p +:+ String sep "" +:+ Py.join (String sep "") (q :: ps)));
        [reflexivity|by rewrite IH].
Qed.

Lemma split_on_three sep s g1 g2 g3 :
  Py.split_on sep s = [g1; g2; g3] → s = g1 +:+ String sep (g2 +:+ String sep g3).
Proof.
  intros Hs. rewrite <- (join_split_on sep s), Hs. reflexivity.
Qed.

Lemma lstrip_no_space s :
  Py.all_chars (λ c, negb (Py.is_space c)) s = true → Py.lstrip s = s.
Proof.
  destruct s as [|c s]; simpl; [done|].
  intros [Hc _]%andb_prop. apply negb_true_iff in Hc. by rewrite Hc.
Qed.

Lemma rstrip_no_space s :
  Py.all_chars (λ c, negb (Py.is_space c)) s = true → Py.rstrip s = s.
Proof.
  induction s as [|c s IH]; simpl; [done|].
  intros [Hc Hs]%andb_prop. apply negb_true_iff in Hc. rewrite (IH Hs), Hc.
  by destruct s.
Qed.

Lemma strip_no_space s :
  Py.all_chars (λ c, negb (Py.is_space c)) s = true → Py.strip s = s.
Proof.
  intros Hs. unfold Py.strip. rewrite (lstrip_no_space s Hs). by apply rstrip_no_space.
Qed.

Lemma digits_between_inv bounds s :
  Excel.digits_between bounds s = true →
  Py.all_digits s = true ∧ fst bounds ≤ String.length s ≤ snd bounds.
Proof.
  unfold Excel.digits_between.
  intros [[Hd Hlo]%andb_prop Hhi]%andb_prop.
  apply Nat.leb_le in Hlo, Hhi. done.
Qed.

Lemma digits_between_intro bounds s :
  Py.all_digits s = true → fst bounds ≤ String.length s ≤ snd bounds →
  Excel.digits_between bounds s = true.
Proof.
  intros Hd [Hlo Hhi]. unfold Excel.digits_between.
  by rewrite Hd, (proj2 (Nat.leb_le _ _) Hlo), (proj2 (Nat.leb_le _ _) Hhi).
Qed.

Lemma re_match_inv p s g1 g2 g3 :
  Excel.re_match p s = Some (g1, g2, g3) →
  Py.split_on (Excel.separator p) s = [g1; g2; g3]
  ∧ Excel.digits_between (Excel.width1 p) g1 = true
  ∧ Excel.digits_between (Excel.width2 p) g2 = true
  ∧ Excel.digits_between (Excel.width3 p) g3 = true.
Proof.
  unfold Excel.re_match.
  destruct (Py.split_on _ s) as [|a [|b [|c [|? ?]]]]; try done.
  destruct (Excel.digits_between (Excel.width1 p) a) eqn:H1; [|done].
  destruct (Excel.digits_between (Excel.width2 p) b) eqn:H2; [|done].
  destruct (Excel.digits_between (Excel.width3 p) c) eqn:H3; [|done].
  simpl. by intros [= <- <- <-].
Qed.

(** Three groups of digits joined by a Excel.separator that is no digit match. *)
Lemma re_match_compose p g1 g2 g3 :
  (∀ c, Py.is_digit c = true → negb (Ascii.eqb c (Excel.separator p)) = true) →
  Excel.digits_between (Excel.width1 p) g1 = true →
  Excel.digits_between (Excel.width2 p) g2 = true →
  Excel.digits_between (Excel.width3 p) g3 = true →
  Excel.re_match p (g1 +:+ String (Excel.separator p) (g2 +:+ String (Excel.separator p) g3))
  = Some (g1, g2, g3).
Proof.
  intros Hsep H1 H2 H3. unfold Excel.re_match.
  destruct (digits_between_inv _ _ H1) as [D1 _].
  destruct (digits_between_inv _ _ H2) as [D2 _].
  destruct (digits_between_inv _ _ H3) as [D3 _].
  rewrite !split_on_app by (by apply all_digits_all_chars).
  rewrite split_on_no_sep by (by apply all_digits_all_chars).
  by rewrite H1, H2, H3.
Qed.

(** A text without the Excel.separator does not match. *)
Lemma re_match_no_sep p s :
  Py.all_chars (λ c, negb (Ascii.eqb c (Excel.separator p))) s = true →
  Excel.re_match p s = None.
Proof. intros Hs. unfold Excel.re_match. by rewrite split_on_no_sep. Qed.

Lemma zfill2_digits g :
  Excel.digits_between (1, 2) g = true → Excel.digits_between (2, 2) (Py.zfill2 g) = true.
Proof.
  intros [Hd [Hlo Hhi]]%digits_between_inv. cbn [fst snd] in *.
  destruct g as [|a [|b [|c g]]]; simpl in *; try lia.
  - apply digits_between_intro; [done|simpl; lia].
  - apply digits_between_intro; [done|simpl; lia].
Qed.

Lemma zfill2_two g :
  Excel.digits_between (2, 2) g = true → Py.zfill2 g = g.
Proof.
  intros [_ [Hlo Hhi]]%digits_between_inv. cbn [fst snd] in *.
  destruct g as [|a [|b [|c g]]]; simpl in *; try lia. done.
Qed.

Lemma digits_between_weaken lo hi lo' hi' g :
  lo' ≤ lo → hi ≤ hi' →
  Excel.digits_between (lo, hi) g = true → Excel.digits_between (lo', hi') g = true.
Proof.
  intros Hlo Hhi [Hd [H1 H2]]%digits_between_inv. cbn [fst snd] in *.
  apply digits_between_intro; [done|]. cbn [fst snd]. lia.
Qed.

Lemma century_digits (prefix year : string) :
  Py.all_digits prefix = true → String.length prefix = 2 →
  Excel.digits_between (2, 2) year = true →
  Excel.digits_between (4, 4) (prefix +:+ year) = true.
Proof.
  intros Hp Hl [Hd [Hlo Hhi]]%digits_between_inv. cbn [fst snd] in *.
  apply digits_between_intro.
  - by rewrite all_digits_app, Hp, Hd.
  - rewrite length_string_app. cbn [fst snd]. lia.
Qed.

Lemma is_iso_date_compose y m d :
  Excel.digits_between (4, 4) y = true → Excel.digits_between (2, 2) m = true →
  Excel.digits_between (2, 2) d = true →
  Excel.is_iso_date (y +:+ "-" +:+ m +:+ "-" +:+ d) = true.
Proof.
  intros Hy Hm Hd. unfold Excel.is_iso_date.
  change (y +:+ "-" +:+ m +:+ "-" +:+ d)
    with (y +:+ String "-" (m +:+ String "-" d)).
  rewrite (re_match_compose (Excel.mk_pattern "-" (4, 4) (2, 2) (2, 2))); [done| |done..].
  apply digit_not_dash.
Qed.

Lemma pattern_eqb_year4 : Excel.pattern_eqb Excel.slash_year4 Excel.slash_year2 = false.
Proof. reflexivity. Qed.

Lemma pattern_eqb_year2 : Excel.pattern_eqb Excel.slash_year2 Excel.slash_year2 = true.
Proof. reflexivity. Qed.

Lemma pattern_eqb_iso : Excel.pattern_eqb Excel.dash_iso Excel.slash_year2 = false.
Proof. reflexivity. Qed.

(** The four patterns, tried in order, written out. *)
Lemma try_patterns_unfold date_str :
  Excel.try_patterns date_str Excel.patterns
  = match Excel.re_match Excel.slash_year4 date_str with
    | Some (g1, g2, g3) => Some (g3 +:+ "-" +:+ Py.zfill2 g2 +:+ "-" +:+ Py.zfill2 g1)
    | None =>
        match Excel.re_match Excel.slash_year2 date_str with
        | Some (month, day, year) =>
            Some ((if Py.int_of_digits year <? 50 then "20" +:+ year else "19" +:+ year)
                  +:+ "-" +:+ Py.zfill2 month +:+ "-" +:+ Py.zfill2 day)
        | None =>
            match Excel.re_match Excel.dash_iso date_str with
            | Some (g1, g2, g3) =>
                Some (g1 +:+ "-" +:+ Py.zfill2 g2 +:+ "-" +:+ Py.zfill2 g3)
            | None => None
            end
        end
    end.
Proof.
  unfold Excel.patterns. cbn [Excel.try_patterns].
  rewrite pattern_eqb_year4, pattern_eqb_year2, pattern_eqb_iso.
  destruct (Excel.re_match Excel.slash_year4 date_str) as [[[g1 g2] g3]|]; [done|].
  destruct (Excel.re_match Excel.slash_year2 date_str) as [[[g1 g2] g3]|]; [done|].
  by destruct (Excel.re_match Excel.dash_iso date_str) as [[[g1 g2] g3]|].
Qed.

(** Whatever a pattern produces has the shape YYYY-MM-DD. *)
Lemma try_patterns_iso date_str iso :
  Excel.try_patterns date_str Excel.patterns = Some iso → Excel.is_iso_date iso = true.
Proof.
  rewrite try_patterns_unfold.
  destruct (Excel.re_match Excel.slash_year4 date_str) as [[[g1 g2] g3]|] eqn:E1.
  { intros [= <-]. apply re_match_inv in E1 as (_ & H1 & H2 & H3).
    apply is_iso_date_compose; [done|by apply zfill2_digits..]. }
  destruct (Excel.re_match Excel.slash_year2 date_str) as [[[g1 g2] g3]|] eqn:E2.
  { intros [= <-]. apply re_match_inv in E2 as (_ & H1 & H2 & H3).
    apply is_iso_date_compose; [|by apply zfill2_digits..].
    destruct (Py.int_of_digits g3 <? 50); by apply century_digits. }
  destruct (Excel.re_match Excel.dash_iso date_str) as [[[g1 g2] g3]|] eqn:E3; [|done].
  intros [= <-]. apply re_match_inv in E3 as (_ & H1 & H2 & H3).
  apply is_iso_date_compose; [done|by apply zfill2_digits..].
Qed.

Lemma digits_no_space g :
  Py.all_digits g = true → Py.all_chars (λ c, negb (Py.is_space c)) g = true.
Proof. apply all_digits_all_chars, digit_not_space. Qed.

(** Three groups of digits around a separator that is no space: [strip]
    leaves the text as it is. *)
Lemma strip_three sep g1 g2 g3 :
  Py.is_space sep = false →
  Py.all_digits g1 = true → Py.all_digits g2 = true → Py.all_digits g3 = true →
  Py.strip (g1 +:+ String sep (g2 +:+ String sep g3))
  = g1 +:+ String sep (g2 +:+ String sep g3).
Proof.
  intros Hsep D1 D2 D3. apply strip_no_space.
  rewrite all_chars_app. cbn [Py.all_chars]. rewrite all_chars_app. cbn [Py.all_chars].
  by rewrite !digits_no_space, Hsep.
Qed.

Lemma digits_no_slash g :
  Py.all_digits g = true → Py.all_chars (λ c, negb (Ascii.eqb c "/")) g = true.
Proof. apply all_digits_all_chars, digit_not_slash. Qed.

Section date_facts.
Context `{Runtime}.

(** DD/MM/YYYY: a slash date with a four-digit year. *)
Lemma detect_slash_year4 d m y :
  Excel.digits_between (1, 2) d = true → Excel.digits_between (1, 2) m = true →
  Excel.digits_between (4, 4) y = true →
  Excel.detect_date_format (CStr (d +:+ "/" +:+ m +:+ "/" +:+ y))
  = y +:+ "-" +:+ Py.zfill2 m +:+ "-" +:+ Py.zfill2 d.
Proof.
  intros Hd Hm Hy.
  destruct (digits_between_inv _ _ Hd) as [Dd _].
  destruct (digits_between_inv _ _ Hm) as [Dm _].
  destruct (digits_between_inv _ _ Hy) as [Dy _].
  unfold Excel.detect_date_format. cbn [py_str].
  change (d +:+ "/" +:+ m +:+ "/" +:+ y) with (d +:+ String "/" (m +:+ String "/" y)).
  rewrite strip_three by done. rewrite try_patterns_unfold.
  by rewrite (re_match_compose Excel.slash_year4) by (done || apply digit_not_slash).
Qed.

(** MM/DD/YY: a slash date with a two-digit year, and the pivot at 50. *)
Lemma detect_slash_year2 m d y :
  Excel.digits_between (1, 2) m = true → Excel.digits_between (1, 2) d = true →
  Excel.digits_between (2, 2) y = true →
  Excel.detect_date_format (CStr (m +:+ "/" +:+ d +:+ "/" +:+ y))
  = (if Py.int_of_digits y <? 50 then "20" else "19") +:+ y
    +:+ "-" +:+ Py.zfill2 m +:+ "-" +:+ Py.zfill2 d.
Proof.
  intros Hm Hd Hy.
  destruct (digits_between_inv _ _ Hd) as [Dd _].
  destruct (digits_between_inv _ _ Hm) as [Dm _].
  destruct (digits_between_inv _ _ Hy) as [Dy [Hlo Hhi]].
  unfold Excel.detect_date_format. cbn [py_str].
  change (m +:+ "/" +:+ d +:+ "/" +:+ y) with (m +:+ String "/" (d +:+ String "/" y)).
  rewrite strip_three by done. rewrite try_patterns_unfold.
  assert (E1 : Excel.re_match Excel.slash_year4
                 (m +:+ String "/" (d +:+ String "/" y)) = None).
  { unfold Excel.re_match, Excel.slash_year4.
    cbn [Excel.separator Excel.width1 Excel.width2 Excel.width3].
    rewrite !split_on_app by (by apply digits_no_slash).
    rewrite split_on_no_sep by (by apply digits_no_slash).
    assert (Excel.digits_between (4, 4) y = false) as ->; [|by rewrite !andb_false_r].
    unfold Excel.digits_between. cbn [fst snd] in *.
    rewrite (proj2 (Nat.leb_gt 4 (String.length y))) by lia.
    by rewrite andb_false_r. }
  rewrite E1.
  rewrite (re_match_compose Excel.slash_year2) by (done || apply digit_not_slash).
  by destruct (Py.int_of_digits y <? 50).
Qed.

(** A text of the shape YYYY-MM-DD is returned as it is. *)
Lemma detect_iso_unchanged s :
  Excel.is_iso_date s = true → Excel.detect_date_format (CStr s) = s.
Proof.
  unfold Excel.is_iso_date.
  destruct (Excel.re_match _ s) as [[[y m] d]|] eqn:E; [intros _|done].
  apply re_match_inv in E as (Hs & Hy & Hm & Hd).
  cbn [Excel.separator Excel.width1 Excel.width2 Excel.width3] in *.
  apply split_on_three in Hs. subst s.
  destruct (digits_between_inv _ _ Hd) as [Dd _].
  destruct (digits_between_inv _ _ Hm) as [Dm _].
  destruct (digits_between_inv _ _ Hy) as [Dy _].
  unfold Excel.detect_date_format. cbn [py_str].
  rewrite strip_three by done. rewrite try_patterns_unfold.
  assert (Hno : Py.all_chars (λ c, negb (Ascii.eqb c "/"))
                  (y +:+ String "-" (m +:+ String "-" d)) = true).
  { rewrite all_chars_app. cbn [Py.all_chars]. rewrite all_chars_app. cbn [Py.all_chars].
    by rewrite !digits_no_slash. }
  rewrite (re_match_no_sep Excel.slash_year4) by done.
  rewrite (re_match_no_sep Excel.slash_year2) by done.
  rewrite (re_match_compose Excel.dash_iso);
    [|apply digit_not_dash|exact Hy
     |exact (digits_between_weaken 2 2 1 2 m ltac:(lia) ltac:(lia) Hm)
     |exact (digits_between_weaken 2 2 1 2 d ltac:(lia) ltac:(lia) Hd)].
  by rewrite !zfill2_two.
Qed.

End date_facts.

(** The date normaliser on ASCII texts: it returns a text of the shape
    YYYY-MM-DD for every one of them, and today's date when no pattern
    matches; a text that already has the shape YYYY-MM-DD is returned
    unchanged; "25/12/2024" gives "2024-12-25", as every slash date with a
    four-digit year is read as DD/MM/YYYY; "03/04/23" gives "2023-03-04",
    as every slash date with a two-digit year is read as MM/DD/YY, the
    year going to the 2000s below 50 and to the 1900s from 50 on. *)
Lemma detect_date_format_on_ascii_texts `{Runtime} :
  Excel.is_iso_date today = true →
  (∀ s, Py.is_ascii s = true →
        Excel.is_iso_date (Excel.detect_date_format (CStr s)) = true)
  ∧ (∀ s, Py.is_ascii s = true →
          Excel.try_patterns (Py.strip s) Excel.patterns = None →
          Excel.detect_date_format (CStr s) = today)
  ∧ (∀ s, Excel.is_iso_date s = true → Excel.detect_date_format (CStr s) = s)
  ∧ Excel.detect_date_format (CStr "25/12/2024") = "2024-12-25"
  ∧ (∀ d m y, Excel.digits_between (1, 2) d = true →
              Excel.digits_between (1, 2) m = true →
              Excel.digits_between (4, 4) y = true →
              Excel.detect_date_format (CStr (d +:+ "/" +:+ m +:+ "/" +:+ y))
              = y +:+ "-" +:+ Py.zfill2 m +:+ "-" +:+ Py.zfill2 d)
  ∧ Excel.detect_date_format (CStr "03/04/23") = "2023-03-04"
  ∧ (∀ m d y, Excel.digits_between (1, 2) m = true →
              Excel.digits_between (1, 2) d = true →
              Excel.digits_between (2, 2) y = true →
              Excel.detect_date_format (CStr (m +:+ "/" +:+ d +:+ "/" +:+ y))
              = (if Py.int_of_digits y <? 50 then "20" else "19") +:+ y
                +:+ "-" +:+ Py.zfill2 m +:+ "-" +:+ Py.zfill2 d).
Proof.
  intros Htoday. split; [|split; [|split; [|split; [|split; [|split]]]]].
  - intros s _. unfold Excel.detect_date_format. cbn [py_str].
    destruct (Excel.try_patterns _ _) as [iso|] eqn:E; [|done].
    by apply (try_patterns_iso _ _ E).
  - intros s _ Hnone. unfold Excel.detect_date_format. cbn [py_str]. by rewrite Hnone.
  - apply detect_iso_unchanged.
  - exact (detect_slash_year4 "25" "12" "2024" eq_refl eq_refl eq_refl).
  - apply detect_slash_year4.
  - exact (detect_slash_year2 "03" "04" "23" eq_refl eq_refl eq_refl).
  - apply detect_slash_year2.
Qed.

(** With the sample interpreter, whose today is 2026-01-15. *)
Example detect_date_format_on_ascii_texts_examples :
  @Excel.detect_date_format sample_runtime (CStr "2024-02-29") = "2024-02-29"
  ∧ @Excel.detect_date_format sample_runtime (CStr "no date") = "2026-01-15"
  ∧ @Excel.detect_date_format sample_runtime (CStr "7/8/99") = "1999-07-08".
Proof.
  destruct (@detect_date_format_on_ascii_texts sample_runtime eq_refl)
    as (_ & Hfallback & Hiso & _ & _ & _ & Hyear2).
  split; [|split].
  - apply Hiso. reflexivity.
  - apply Hfallback; reflexivity.
  - exact (Hyear2 "7" "8" "99" eq_refl eq_refl eq_refl).
Qed.

(** ** Bank information *)

(** A cell that reads as ten to sixteen digits is masked by the header
    scan for bank information: its first four characters, four stars, its
    last four characters. *)
Lemma scan_bank_cell_masks `{Runtime} ws row info col :
  let cell_text := Py.upper (str_or (cell_value ws row col) "") in
  Py.match_digits 10 16 (Py.replace "-" "" (Py.replace " " "" cell_text)) = true →
  account_number (Excel.scan_bank_cell ws row info col)
  = Py.take 4 cell_text +:+ "-****-" +:+ Py.take_last 4 cell_text.
Proof.
  intros cell_text Hdigits. unfold Excel.scan_bank_cell.
  fold cell_text. by rewrite Hdigits.
Qed.

(** C1 fails on the code.  The pipeline reads the account number from the
    Account Info sheet and stores the cell text as it is: the sixteen
    digits come out unmasked.  The header scan for bank information, which
    does mask (the same sheet gives 1234-****-3456 there), is not called
    by the pipeline. *)
Theorem pipeline_account_number_unmasked :
  account_number (statement_bank_info
    (@Excel.process_excel_file sample_runtime throwing_services sample_workbook))
  = "1234567890123456"
  ∧ account_number (@Excel.extract_bank_info sample_runtime sample_account_info)
    = "1234-****-3456".
Proof. vm_compute. split; reflexivity. Qed.

(** ** The transaction builder *)

Section builder_facts.
Context `{Runtime}.

(** A built transaction carries the rule-based category of its
    description and the subcategory derived from it: the first word, or
    Miscellaneous for Other Expenses. *)
Lemma process_row_subcategory ws column_map row count tx :
  Excel.process_row ws column_map row count = Some tx →
  Category tx = JStr (Excel.categorize_transaction (Description tx))
  ∧ Subcategory tx
    = (if String.eqb (Excel.categorize_transaction (Description tx)) "Other Expenses"
       then "Miscellaneous"
       else Py.split_first (Excel.categorize_transaction (Description tx))).
Proof.
  unfold Excel.process_row.
  repeat match goal with
         | |- context [if ?b then None else _] => destruct b; [done|]
         end.
  destruct (Excel.resolve_amount _ _ _ _ _) as [amount|]; [|done].
  destruct (float_is_zero amount); [done|].
  by intros [= <-].
Qed.

Lemma neg_abs_sign q :
  Qeq_bool (- Qabs q) 0 = false →
  Qle_bool 0 (- Qabs q) = false ∧ Qle_bool (- Qabs q) 0 = true.
Proof.
  intros Hz. pose proof (Qabs_nonneg q) as Hq. split.
  - apply not_true_is_false. intros Hle%Qle_bool_iff.
    assert (Heq : (- Qabs q == 0)%Q) by lra.
    apply Qeq_bool_iff in Heq. congruence.
  - apply Qle_bool_iff. lra.
Qed.

Lemma abs_sign q :
  Qeq_bool (Qabs q) 0 = false →
  Qle_bool 0 (Qabs q) = true ∧ Qle_bool (Qabs q) 0 = false.
Proof.
  intros Hz. pose proof (Qabs_nonneg q) as Hq. split.
  - by apply Qle_bool_iff.
  - apply not_true_is_false. intros Hle%Qle_bool_iff.
    assert (Heq : (Qabs q == 0)%Q) by lra.
    apply Qeq_bool_iff in Heq. congruence.
Qed.

(** The sign of a built amount in debit/credit mode, when the amount is a
    number: negative exactly when it was read from the debit cell,
    positive exactly when it was read from the credit cell, never zero. *)
Lemma amount_sign_debit_credit ws column_map row count tx :
  column_map !! "amount_col" = None →
  Excel.process_row ws column_map row count = Some tx →
  Amount tx ≠ NaN →
  let debit_cell := Excel.cell_if ws row (default 4 (column_map !! "debit_col")) in
  let credit_cell := Excel.cell_if ws row (default 5 (column_map !! "credit_col")) in
  (float_neg (Amount tx) = true ↔ Excel.has_amount debit_cell = true)
  ∧ (float_pos (Amount tx) = true
     ↔ Excel.has_amount debit_cell = false ∧ Excel.has_amount credit_cell = true)
  ∧ float_is_zero (Amount tx) = false.
Proof.
  intros Hmode Hrow Hnan debit_cell credit_cell.
  unfold Excel.process_row in Hrow. rewrite Hmode in Hrow.
  repeat match type of Hrow with
         | context [if ?b then None else _] => destruct b; [done|]
         end.
  fold debit_cell credit_cell in Hrow.
  destruct (Excel.resolve_amount _ _ _ _ _) as [amount|] eqn:Hamount; [|done].
  destruct (float_is_zero amount) eqn:Hzero; [done|].
  injection Hrow as <-. cbn [Amount] in *.
  unfold Excel.resolve_amount in Hamount.
  destruct (Excel.has_amount debit_cell) eqn:Hdebit.
  - destruct (py_float _) as [f|]; [|done]. injection Hamount as <-.
    destruct f as [q|negative|]; cbn in *.
    + destruct (neg_abs_sign q Hzero) as [-> ->]. cbn. intuition congruence.
    + intuition congruence.
    + done.
  - destruct (Excel.has_amount credit_cell) eqn:Hcredit.
    + destruct (py_float _) as [f|]; [|done]. injection Hamount as <-.
      destruct f as [q|negative|]; cbn in *.
      * destruct (abs_sign q Hzero) as [-> ->]. cbn. intuition congruence.
      * intuition congruence.
      * done.
    + injection Hamount as <-. done.
Qed.

End builder_facts.

(** The end-to-end scenario: a debit row and a credit row of a sheet with
    a header row, with a classifier that is not reachable. *)
Example end_to_end_scenario :
  transactions
    (@Excel.process_excel_file sample_runtime throwing_services sample_workbook)
  = [ mk_transaction "2024-02-01" (Finite (-50)) "Carrefour Mall"
        (JStr "Food & Dining") "Food";
      mk_transaction "2024-02-02" (Finite 5000) "Salary"
        (JStr "Other Expenses") "Miscellaneous" ].
Proof. vm_compute. reflexivity. Qed.

(** C7, as stated, fails: only TOTAL, SUMMARY and MONTHLY are looked for in
    the description cell, and MONTHLY is not looked for in the date cell.
    The rows described "Closing costs" and "Balance transfer" and the row
    dated "Monthly" are all built. *)
Lemma summary_words_not_skipped :
  Description <$> @Excel.build_transactions sample_runtime [("S", sheet_summary_words)]
  = ["Closing costs"; "Balance transfer"; "Gym"].
Proof. vm_compute. reflexivity. Qed.

(** C7, amended: a row is skipped when the text of its date cell contains
    one of TOTAL, SUMMARY, BALANCE, OPENING, CLOSING, and when its
    description cell is not empty and its text contains one of TOTAL,
    SUMMARY, MONTHLY, in either case whatever the case of the letters. *)
Theorem summary_rows_skipped `{Runtime} (ws : worksheet) (column_map : gmap string nat)
  (row count : nat) :
  let date_cell := Excel.cell_if ws row (default 1 (column_map !! "date_col")) in
  let description_cell :=
    Excel.cell_if ws row (default 2 (column_map !! "description_col")) in
  (Py.any_in ["TOTAL"; "SUMMARY"; "BALANCE"; "OPENING"; "CLOSING"]
     (Py.upper (py_str date_cell)) = true →
   Excel.process_row ws column_map row count = None)
  ∧ (truthy description_cell = true →
     Py.any_in ["TOTAL"; "SUMMARY"; "MONTHLY"] (Py.upper (py_str description_cell)) = true →
     Excel.process_row ws column_map row count = None).
Proof.
  intros date_cell description_cell. unfold Excel.process_row.
  fold date_cell description_cell. split.
  - intros Hdate. destruct (truthy date_cell); [|done].
    unfold Excel.date_summary_keywords. by rewrite Hdate.
  - intros Htruthy Hdesc. destruct (truthy date_cell); [|done]. cbn [negb].
    destruct (Py.any_in Excel.date_summary_keywords _); [done|].
    unfold Excel.description_summary_keywords. by rewrite Htruthy, Hdesc.
Qed.

(** The amended C7 on two rows: one dated "Opening balance", one
    described "monthly fee". *)
Lemma summary_rows_skipped_witness :
  @Excel.process_row sample_runtime
    (mk_worksheet 1 4 [[CStr "Opening balance"; CStr "x"; CInt 5; CNone]])
    Excel.default_mapping 1 0 = None
  ∧ @Excel.process_row sample_runtime
      (mk_worksheet 1 4 [[CStr "01/02/2024"; CStr "monthly fee"; CInt 5; CNone]])
      Excel.default_mapping 1 0 = None.
Proof.
  split.
  - exact (proj1 (@summary_rows_skipped sample_runtime
                    (mk_worksheet 1 4 [[CStr "Opening balance"; CStr "x"; CInt 5; CNone]])
                    Excel.default_mapping 1 0) eq_refl).
  - exact (proj2 (@summary_rows_skipped sample_runtime
                    (mk_worksheet 1 4 [[CStr "01/02/2024"; CStr "monthly fee"; CInt 5; CNone]])
                    Excel.default_mapping 1 0) eq_refl eq_refl).
Defined.

(** C8 fails on the code.  A debit cell that holds the text "nan" is not
    empty and no placeholder, [float] accepts it, and the result is not
    equal to 0: the row is built with an amount that is not a number, so
    it is not negative although it was read from the debit cell. *)
Theorem nan_debit_amount_has_no_sign :
  @Excel.build_transactions sample_runtime [("S", sheet_nan_debit)]
  = [ mk_transaction "2024-02-01" NaN "Card payment" (JStr "Other Expenses")
        "Miscellaneous" ]
  ∧ @Excel.has_amount sample_runtime (cell_value sheet_nan_debit 2 3) = true
  ∧ float_neg NaN = false.
Proof. vm_compute. repeat split; reflexivity. Qed.

(** ** The batcher under arbitrary answers *)

Local Open Scope list_scope.
Local Open Scope nat_scope.

Lemma core_fields_set_category v tx : core_fields (set_category v tx) = core_fields tx.
Proof. reflexivity. Qed.

Lemma core_fields_set_subcategory s tx :
  core_fields (set_subcategory s tx) = core_fields tx.
Proof. reflexivity. Qed.

Lemma core_fields_alter (f : transaction → transaction) r (l : list transaction) :
  (∀ tx, core_fields (f tx) = core_fields tx) →
  core_fields <$> alter f r l = core_fields <$> l.
Proof.
  intros Hf. revert r. induction l as [|tx l IH]; intros [|r]; simpl; [done..| |].
  - by rewrite Hf.
  - f_equal. apply IH.
Qed.

(** How a block ended is forgotten: the state it reached. *)
Lemma apply_ai_categories_effect ai batch :
  ∀ idx st, ∃ st' m,
    (apply_ai_categories ai idx batch st = Returned st' ∧ m = length batch
     ∨ apply_ai_categories ai idx batch st = Raised st' ∧ m < length batch)
    ∧ core_fields <$> store st' = core_fields <$> store st
    ∧ categorized_transactions st' = categorized_transactions st ++ take m batch
    ∧ requests st' = requests st.
Proof.
  induction batch as [|tx rest IH]; intros idx st.
  { exists st, 0. simpl. rewrite app_nil_r. auto. }
  cbn [apply_ai_categories length].
  assert (Hraise : ∀ st1, core_fields <$> store st1 = core_fields <$> store st →
            categorized_transactions st1 = categorized_transactions st →
            requests st1 = requests st →
            ∃ st' m,
              (Raised st1 = Returned st' ∧ m = S (length rest)
               ∨ Raised st1 = Raised st' ∧ m < S (length rest))
              ∧ core_fields <$> store st' = core_fields <$> store st
              ∧ categorized_transactions st'
                = categorized_transactions st ++ take m (tx :: rest)
              ∧ requests st' = requests st).
  { intros st1 H1 H2 H3. exists st1, 0. simpl. rewrite app_nil_r.
    split; [right; split; [done|lia]|done]. }
  assert (Hnext : ∀ idx' st1, core_fields <$> store st1 = core_fields <$> store st →
            categorized_transactions st1 = categorized_transactions st ++ [tx] →
            requests st1 = requests st →
            ∃ st' m,
              (apply_ai_categories ai idx' rest st1 = Returned st' ∧ m = S (length rest)
               ∨ apply_ai_categories ai idx' rest st1 = Raised st' ∧ m < S (length rest))
              ∧ core_fields <$> store st' = core_fields <$> store st
              ∧ categorized_transactions st'
                = categorized_transactions st ++ take m (tx :: rest)
              ∧ requests st' = requests st).
  { intros idx' st1 H1 H2 H3.
    destruct (IH idx' st1) as (st' & m & Hout & Hcore & Hcat & Hreq).
    exists st', (S m). split; [|split; [|split]].
    - destruct Hout as [[-> ->]|[-> Hm]]; [left|right]; split; (done || lia).
    - by rewrite Hcore.
    - rewrite Hcat, H2, <- app_assoc. done.
    - by rewrite Hreq. }
  destruct (py_len ai) as [n|]; [|by apply Hraise].
  destruct (idx <? n); [|by apply Hnext].
  destruct (py_getitem ai idx) as [v|]; [|by apply Hraise].
  assert (Hcore1 : core_fields <$> store (update_tx tx (set_category v) st)
                   = core_fields <$> store st)
    by (apply core_fields_alter, core_fields_set_category).
  destruct v; try (by apply Hraise).
  apply Hnext; [|done..].
  cbn [append_tx update_tx store].
  rewrite core_fields_alter by apply core_fields_set_subcategory.
  apply Hcore1.
Qed.

Section batcher_any_answer.
Context `{Services}.

(** One batch, whatever the answer: one more request, the batch appended
    once after at most a part of it, and no core field changed. *)
Lemma process_batch_effect refs st i :
  ∃ st' m,
    Excel.process_batch refs st i = st'
    ∧ m < length (take batch_size (drop i refs)) `max` 1
    ∧ core_fields <$> store st' = core_fields <$> store st
    ∧ categorized_transactions st'
      = categorized_transactions st
        ++ take m (take batch_size (drop i refs)) ++ take batch_size (drop i refs)
    ∧ length (requests st') = S (length (requests st)).
Proof.
  unfold Excel.process_batch.
  set (batch := take batch_size (drop i refs)).
  set (prompt := Excel.build_prompt (descriptions st i batch)).
  destruct (Excel.parsed_response _ _) as [ai|].
  - destruct (apply_ai_categories_effect ai batch 0 (log_request prompt st))
      as (st' & m & Hout & Hcore & Hcat & Hreq).
    cbn [log_request store categorized_transactions requests] in *.
    destruct Hout as [[-> ->]|[-> Hm]].
    + exists st', 0. rewrite Hcat, firstn_all. cbn [take app].
      rewrite Hreq, length_app. simpl. repeat split; (done || lia).
    + exists (fallback batch st'), m.
      cbn [fallback store categorized_transactions requests].
      rewrite Hcat, <- app_assoc, Hreq, length_app. simpl.
      repeat split; (done || lia).
  - exists (fallback batch (log_request prompt st)), 0.
    cbn [fallback log_request store categorized_transactions requests].
    rewrite length_app. simpl. repeat split; (done || lia).
Qed.

End batcher_any_answer.

Section batcher_any_answer_run.
Context `{Services}.

(** The loop over the batches from index [i] on, whatever the answers. *)
Lemma run_effect (n : nat) fuel :
  ∀ i st, n - i ≤ fuel →
    let st' := foldl (Excel.process_batch (seq 0 n)) st (range_from fuel i n batch_size) in
    core_fields <$> store st' = core_fields <$> store st
    ∧ length (requests st')
      = length (requests st) + length (range_from fuel i n batch_size)
    ∧ (∀ r, r ∈ categorized_transactions st'
            ↔ r ∈ categorized_transactions st ∨ i ≤ r < n)
    ∧ length (categorized_transactions st) + (n - i)
      ≤ length (categorized_transactions st')
      ≤ length (categorized_transactions st) + 2 * (n - i).
Proof.
  induction fuel as [|fuel IH]; intros i st Hfuel; cbn [range_from foldl].
  { simpl. split; [done|]. split; [lia|]. split; [|lia]. intros r. split; [auto|].
    intros [?|?]; [done|lia]. }
  destruct (i <? n) eqn:Hi; cbn [foldl length].
  2:{ apply Nat.ltb_ge in Hi. split; [done|]. split; [lia|]. split; [|lia].
      intros r. split; [auto|]. intros [?|?]; [done|lia]. }
  apply Nat.ltb_lt in Hi.
  destruct (process_batch_effect (seq 0 n) st i)
    as (st1 & m & -> & Hm & Hcore & Hcat & Hreq).
  rewrite batch_references in Hm, Hcat.
  rewrite length_seq in Hm.
  destruct (IH (i + batch_size) st1) as (Hcore' & Hreq' & Hmem & Hlen);
    [unfold batch_size; lia|].
  split; [by rewrite Hcore', Hcore|]. split; [rewrite Hreq', Hreq; lia|]. split.
  - intros r. rewrite Hmem, Hcat, !elem_of_app, !elem_of_seq.
    split.
    + intros [[?|[Hr|Hr]]|?]; [by left|right..].
      * apply elem_of_take in Hr as (j & Hj & _).
        apply lookup_seq in Hj. unfold batch_size in *. lia.
      * unfold batch_size in *. lia.
      * unfold batch_size in *. lia.
    + intros [?|Hr]; [by left; left|].
      destruct (decide (r < i + batch_size)).
      * left. right. right. unfold batch_size in *. lia.
      * right. lia.
  - rewrite Hcat, !length_app, length_take, length_seq in Hlen.
    unfold batch_size in *. lia.
Qed.

End batcher_any_answer_run.



Lemma length_range_from fuel :
  ∀ i n, n - i ≤ fuel → length (range_from fuel i n batch_size) = (n - i + 49) / 50.
Proof.
  induction fuel as [|fuel IH]; intros i n Hfuel; cbn [range_from].
  - replace (n - i) with 0 by lia. reflexivity.
  - destruct (i <? n) eqn:Hi.
    + apply Nat.ltb_lt in Hi. cbn [length]. rewrite IH by (unfold batch_size; lia).
      unfold batch_size.
      destruct (decide (n - i ≤ 50)).
      * replace (n - (i + 50)) with 0 by lia. change ((0 + 49) / 50) with 0.
        apply (Nat.div_unique _ 50 1 (n - i + 49 - 50)); lia.
      * replace (n - i + 49) with (n - (i + 50) + 49 + 1 * 50) by lia.
        rewrite Nat.div_add by lia. lia.
    + apply Nat.ltb_ge in Hi. replace (n - i) with 0 by lia. reflexivity.
Qed.

(** X2.  The classifier is called once per batch of fifty, whatever it
    answers: a run over [n] transactions sends [(n + 49) / 50] requests. *)
Theorem one_request_per_batch `{Services} (transactions : list transaction) :
  length (requests (Excel.run_batches transactions)) = (length transactions + 49) / 50.
Proof.
  unfold Excel.run_batches, py_range. rewrite Nat.sub_0_r.
  destruct (run_effect (length transactions) (length transactions) 0
              (mk_state transactions [] [])) as (_ & Hreq & _); [lia|].
  rewrite Hreq. cbn [requests length]. rewrite length_range_from by lia.
  by rewrite Nat.sub_0_r.
Qed.

(** X3.  Without an API key, or when every call or decoding fails, the
    batcher returns exactly the list it was given. *)
Theorem batcher_identity_without_answers `{Services} (transactions : list transaction) :
  api_key = false ∨ (∀ k prompt, Excel.parsed_response k prompt = None) →
  Excel.ai_categorize_transactions transactions = transactions.
Proof.
  intros [Hkey|Hfail].
  - by apply no_api_key_keeps_input.
  - by apply classifier_failure_keeps_input.
Qed.

Lemma batcher_identity_without_answers_witness :
  @Excel.ai_categorize_transactions throwing_services [sample_debit; sample_credit]
  = [sample_debit; sample_credit].
Proof.
  apply (@batcher_identity_without_answers throwing_services).
  right. intros k prompt. reflexivity.
Defined.

(** X4.  Failure isolation: among batches that are answered by arrays of
    strings or fail, a batch whose call or decoding fails keeps each of
    its transactions as it was. *)
Theorem failed_batch_unchanged `{Services} (response : nat → list string)
  (transactions : list transaction) (k : nat) :
  api_key = true →
  (∀ j, j * 50 < length transactions →
        Excel.answered response j (j * 50) (take 50 (drop (j * 50) transactions))) →
  response k = [] →
  ∀ i tx, i < 50 → transactions !! (k * 50 + i) = Some tx →
    Excel.ai_categorize_transactions transactions !! (k * 50 + i) = Some tx.
Proof. apply failed_batch_is_kept. Qed.

Lemma failed_batch_unchanged_witness :
  @Excel.ai_categorize_transactions first_call_fails
    (replicate 50 sample_debit ++ [sample_credit]) !! 7 = Some sample_debit.
Proof.
  apply (@failed_batch_unchanged first_call_fails
           (λ k, match k with O => [] | S _ => ["Income"] end)
           (replicate 50 sample_debit ++ [sample_credit]) 0 eq_refl).
  - intros [|j] _; [right; split; reflexivity|left; reflexivity].
  - reflexivity.
  - lia.
  - reflexivity.
Defined.

(** ** The rule-based categorisers in closed form *)

Lemma any_in_false_In ws s w :
  Py.any_in ws s = false → existsb (String.eqb w) ws = true → Py.contains w s = false.
Proof.
  unfold Py.any_in. intros Hnone Hin.
  apply existsb_exists in Hin as (w' & Hw' & ->%String.eqb_eq).
  apply not_true_is_false. intros Hc.
  assert (existsb (λ w, Py.contains w s) ws = true)
    by (apply existsb_exists; eauto).
  congruence.
Qed.

Lemma any_in_true_In ws s w :
  existsb (String.eqb w) ws = true → Py.contains w s = true → Py.any_in ws s = true.
Proof.
  intros Hin Hc. apply existsb_exists in Hin as (w' & Hw' & ->%String.eqb_eq).
  apply existsb_exists. eauto.
Qed.

Lemma excel_scan_keywords_closed category d kws :
  Excel.scan_keywords category d kws
  = if Py.any_in kws d && Excel.guard category d then Some category else None.
Proof.
  induction kws as [|kw kws IH]; [done|].
  cbn [Excel.scan_keywords Py.any_in existsb]. fold (Py.any_in kws d).
  destruct (Py.contains kw d); [|exact IH].
  destruct (Excel.guard category d); [done|].
  rewrite IH. by rewrite !andb_false_r.
Qed.

Lemma excel_scan_priority_closed d cats :
  Excel.scan_priority d cats
  = List.find (λ c, Py.any_in (default [] (Excel.categories !! c)) d && Excel.guard c d)
              cats.
Proof.
  induction cats as [|c cats IH]; [done|].
  cbn [Excel.scan_priority List.find]. rewrite excel_scan_keywords_closed.
  by destruct (_ && _).
Qed.

Lemma pdf_scan_keywords_closed category d kws :
  Pdf.scan_keywords category d kws = if Py.any_in kws d then Some category else None.
Proof.
  induction kws as [|kw kws IH]; [done|].
  cbn [Pdf.scan_keywords Py.any_in existsb]. fold (Py.any_in kws d).
  by destruct (Py.contains kw d).
Qed.

Lemma pdf_scan_priority_closed d cats :
  Pdf.scan_priority d cats
  = List.find (λ c, Py.any_in (default [] (Pdf.categories !! c)) d) cats.
Proof.
  induction cats as [|c cats IH]; [done|].
  cbn [Pdf.scan_priority List.find]. rewrite pdf_scan_keywords_closed.
  by destruct (Py.any_in _ _).
Qed.

(** The spreadsheet categoriser in closed form: the fallback word checks
    and the merchant table are never reached with a match. *)
Lemma excel_categorize_closed (description : string) :
  let desc_lower := Py.strip (Py.lower description) in
  Excel.categorize_transaction description
  = default "Other Expenses"
      (List.find (λ c, Py.any_in (default [] (Excel.categories !! c)) desc_lower
                       && Excel.guard c desc_lower)
                 category_priority).
Proof.
  intros dl. unfold Excel.categorize_transaction. fold dl.
  rewrite excel_scan_priority_closed.
  destruct (List.find _ _) as [c|] eqn:Hfind; [done|].
  assert (Hall : ∀ c, existsb (String.eqb c) category_priority = true →
            Py.any_in (default [] (Excel.categories !! c)) dl && Excel.guard c dl = false).
  { intros c Hc. apply existsb_exists in Hc as (c' & Hin & ->%String.eqb_eq).
    apply (List.find_none _ _ Hfind c' Hin). }
  pose proof (Hall "Transportation" eq_refl) as HT.
  pose proof (Hall "Food & Dining" eq_refl) as HF.
  pose proof (Hall "Shopping & Retail" eq_refl) as HS.
  pose proof (Hall "Subscriptions & Digital Services" eq_refl) as HD.
  change (Excel.guard "Transportation" dl) with true in HT.
  change (Excel.guard "Food & Dining" dl) with true in HF.
  change (Excel.guard "Shopping & Retail" dl) with true in HS.
  rewrite andb_true_r in HT, HF, HS.
  assert (Hsub : ∀ w,
            existsb (String.eqb w)
              (default [] (Excel.categories !! "Subscriptions & Digital Services")) = true →
            existsb (String.eqb w)
              ["subscription"; "monthly"; "netflix"; "spotify"; "prime"; "office";
               "adobe"; "google"; "microsoft"; "icloud"] = true →
            Py.contains w dl = false).
  { intros w Hkw Hguard. apply not_true_is_false. intros Hc.
    rewrite (any_in_true_In _ _ w Hkw Hc) in HD.
    change (Excel.guard "Subscriptions & Digital Services" dl)
      with (Py.any_in ["subscription"; "monthly"; "netflix"; "spotify"; "prime";
                       "office"; "adobe"; "google"; "microsoft"; "icloud"] dl) in HD.
    by rewrite (any_in_true_In _ _ w Hguard Hc) in HD. }
  unfold Py.any_in at 1 2 3. cbn [existsb].
  rewrite (any_in_false_In _ _ "taxi" HT), (any_in_false_In _ _ "uber" HT),
    (any_in_false_In _ _ "careem" HT), (any_in_false_In _ _ "rta" HT)
    by (vm_compute; reflexivity).
  rewrite (any_in_false_In _ _ "restaurant" HF), (any_in_false_In _ _ "cafe" HF),
    (any_in_false_In _ _ "food" HF), (any_in_false_In _ _ "dining" HF),
    (any_in_false_In _ _ "eat" HF) by (vm_compute; reflexivity).
  rewrite (any_in_false_In _ _ "mall" HS), (any_in_false_In _ _ "shop" HS),
    (any_in_false_In _ _ "store" HS), (any_in_false_In _ _ "retail" HS)
    by (vm_compute; reflexivity).
  cbn [orb].
  unfold Excel.merchant_patterns. cbn [Excel.scan_merchants].
  change (Py.lower "CAREEM") with "careem". change (Py.lower "TALABAT") with "talabat".
  change (Py.lower "ZOMATO") with "zomato". change (Py.lower "NETFLIX") with "netflix".
  change (Py.lower "SPOTIFY") with "spotify". change (Py.lower "AMAZON") with "amazon".
  change (Py.lower "NOON") with "noon". change (Py.lower "ADNOC") with "adnoc".
  change (Py.lower "ENOC") with "enoc". change (Py.lower "EPPCO") with "eppco".
  rewrite (any_in_false_In _ _ "careem" HT), (any_in_false_In _ _ "talabat" HF),
    (any_in_false_In _ _ "zomato" HF) by (vm_compute; reflexivity).
  rewrite (Hsub "netflix"), (Hsub "spotify") by (vm_compute; reflexivity).
  rewrite (any_in_false_In _ _ "amazon" HS), (any_in_false_In _ _ "noon" HS),
    (any_in_false_In _ _ "adnoc" HT), (any_in_false_In _ _ "enoc" HT),
    (any_in_false_In _ _ "eppco" HT) by (vm_compute; reflexivity).
  reflexivity.
Qed.

(** X5.  The spreadsheet categoriser returns the first category of the
    priority list that has a keyword in the lowered, stripped description
    and whose guard holds, and Other Expenses when there is none: the
    fallback word checks and the merchant table after the priority pass
    never decide a category. *)
Theorem excel_categorize_first_guarded_match (description : string) :
  let desc_lower := Py.strip (Py.lower description) in
  Excel.categorize_transaction description
  = default "Other Expenses"
      (List.find (λ c, Py.any_in (default [] (Excel.categories !! c)) desc_lower
                       && Excel.guard c desc_lower)
                 category_priority).
Proof. apply excel_categorize_closed. Qed.

(** The PDF categoriser returns the first category of the priority list
    that has a keyword in the lowered, stripped description, and Other
    Expenses when no category has one. *)
Lemma pdf_categorize_first_match (description : string) :
  let desc_lower := Py.strip (Py.lower description) in
  Pdf.categorize_transaction description
  = default "Other Expenses"
      (List.find (λ c, Py.any_in (default [] (Pdf.categories !! c)) desc_lower)
                 category_priority).
Proof.
  intros dl. unfold Pdf.categorize_transaction. fold dl.
  rewrite pdf_scan_priority_closed. by destruct (List.find _ _).
Qed.

(** C10, amended: the two categorisers return the same category for every
    description on which their tests agree category by category: each
    category of the shared priority list has a keyword of the spreadsheet
    table in the lowered description, and passes the spreadsheet guard,
    exactly when it has a keyword of the PDF table in it.  They can
    differ only where the two keyword tables or the guards do. *)
Theorem categorizers_agree_where_tests_agree (description : string) :
  let desc_lower := Py.strip (Py.lower description) in
  (∀ category, In category category_priority →
     Py.any_in (default [] (Excel.categories !! category)) desc_lower
     && Excel.guard category desc_lower
     = Py.any_in (default [] (Pdf.categories !! category)) desc_lower) →
  Excel.categorize_transaction description = Pdf.categorize_transaction description.
Proof.
  intros dl Hagree.
  rewrite excel_categorize_closed, pdf_categorize_first_match. fold dl.
  f_equal. revert Hagree. generalize category_priority.
  induction l as [|category l IH]; intros Hagree; [done|].
  cbn [List.find]. rewrite (Hagree category) by (by left).
  destruct (Py.any_in _ dl); [done|].
  apply IH. intros c Hc. apply Hagree. by right.
Qed.

(** The amended C10 on a description that both tables place under Food &
    Dining through the keyword [carrefour]. *)
Lemma categorizers_agree_where_tests_agree_witness :
  Excel.categorize_transaction "Carrefour Mall"
  = Pdf.categorize_transaction "Carrefour Mall".
Proof.
  apply categorizers_agree_where_tests_agree.
  intros category Hin. unfold category_priority in Hin. cbn [In] in Hin.
  repeat (destruct Hin as [<-|Hin]; [vm_compute; reflexivity|]).
  destruct Hin.
Defined.

(** X6.  Matching is by substring and the ATM category comes first: a
    description that contains the letters "atm" anywhere, in any case, is
    an ATM & Cash Withdrawals transaction for both categorisers. *)
Theorem atm_substring_wins (description : string) :
  Py.contains "atm" (Py.strip (Py.lower description)) = true →
  Excel.categorize_transaction description = "ATM & Cash Withdrawals"
  ∧ Pdf.categorize_transaction description = "ATM & Cash Withdrawals".
Proof.
  intros Hatm. split.
  - rewrite excel_categorize_closed.
    unfold category_priority. cbn [List.find].
    rewrite (any_in_true_In _ _ "atm") by (done || (vm_compute; reflexivity)).
    change (Excel.guard "ATM & Cash Withdrawals" (Py.strip (Py.lower description)))
      with (Py.any_in ["atm"; "withdrawal"; "cash"] (Py.strip (Py.lower description))).
    by rewrite (any_in_true_In _ _ "atm") by (done || (vm_compute; reflexivity)).
  - rewrite pdf_categorize_first_match.
    unfold category_priority. cbn [List.find].
    by rewrite (any_in_true_In _ _ "atm") by (done || (vm_compute; reflexivity)).
Qed.

Lemma atm_substring_wins_witness :
  Excel.categorize_transaction "Spa Treatment" = "ATM & Cash Withdrawals"
  ∧ Pdf.categorize_transaction "Spa Treatment" = "ATM & Cash Withdrawals".
Proof. apply atm_substring_wins. reflexivity. Defined.

(** X7.  The guards of the spreadsheet categoriser: it returns Banking &
    Finance only for a description that contains one of transfer, fee,
    charge, interest, maintenance, and Subscriptions & Digital Services
    only for one that contains one of its ten recurring-service terms. *)
Theorem excel_guarded_categories (description : string) :
  let desc_lower := Py.strip (Py.lower description) in
  (Excel.categorize_transaction description = "Banking & Finance" →
   Py.any_in ["transfer"; "fee"; "charge"; "interest"; "maintenance"] desc_lower = true)
  ∧ (Excel.categorize_transaction description = "Subscriptions & Digital Services" →
     Py.any_in ["subscription"; "monthly"; "netflix"; "spotify"; "prime"; "office";
                "adobe"; "google"; "microsoft"; "icloud"] desc_lower = true).
Proof.
  intros dl.
  assert (Hguard : ∀ c, Excel.categorize_transaction description = c →
            c ≠ "Other Expenses" → Excel.guard c dl = true).
  { intros c Hc Hne. rewrite excel_categorize_closed in Hc. fold dl in Hc.
    destruct (List.find _ _) as [c'|] eqn:Hfind; simpl in Hc; [|congruence].
    subst c'. apply List.find_some in Hfind as [_ Hp].
    by apply andb_prop in Hp as [_ Hp]. }
  split; intros Hc; apply (Hguard _ Hc); discriminate.
Qed.

Lemma excel_guarded_categories_witness :
  Py.any_in ["transfer"; "fee"; "charge"; "interest"; "maintenance"]
    (Py.strip (Py.lower "Loan interest")) = true.
Proof. apply (proj1 (excel_guarded_categories "Loan interest")). reflexivity. Defined.

Lemma lower_upper_char c : Py.lower_char (Py.upper_char c) = Py.lower_char c.
Proof. destruct c as [[] [] [] [] [] [] [] []]; reflexivity. Qed.

Lemma lower_lower_char c : Py.lower_char (Py.lower_char c) = Py.lower_char c.
Proof. destruct c as [[] [] [] [] [] [] [] []]; reflexivity. Qed.

Lemma lower_upper s : Py.lower (Py.upper s) = Py.lower s.
Proof.
  unfold Py.lower, Py.upper. induction s as [|c s IH]; simpl; [done|].
  by rewrite lower_upper_char, IH.
Qed.

Lemma lower_lower s : Py.lower (Py.lower s) = Py.lower s.
Proof.
  unfold Py.lower. induction s as [|c s IH]; simpl; [done|].
  by rewrite lower_lower_char, IH.
Qed.

(** X8.  Categorisation and bank detection ignore the case of letters in an
    ASCII text: the description or text in upper case, or in lower case,
    gets the same answer as the original. *)
Theorem matching_ignores_case (text : string) :
  Py.is_ascii text = true →
  Excel.categorize_transaction (Py.upper text) = Excel.categorize_transaction text
  ∧ Excel.categorize_transaction (Py.lower text) = Excel.categorize_transaction text
  ∧ Pdf.categorize_transaction (Py.upper text) = Pdf.categorize_transaction text
  ∧ Pdf.categorize_transaction (Py.lower text) = Pdf.categorize_transaction text
  ∧ Excel.detect_bank (Py.upper text) = Excel.detect_bank text
  ∧ Excel.detect_bank (Py.lower text) = Excel.detect_bank text.
Proof.
  intros _.
  unfold Excel.categorize_transaction, Pdf.categorize_transaction, Excel.detect_bank.
  by rewrite lower_upper, lower_lower.
Qed.

Lemma matching_ignores_case_witness :
  Excel.categorize_transaction (Py.upper "Uber trip")
  = Excel.categorize_transaction "Uber trip"
  ∧ Pdf.categorize_transaction (Py.lower "Uber trip")
    = Pdf.categorize_transaction "Uber trip".
Proof.
  destruct (matching_ignores_case "Uber trip" eq_refl) as (Hupper & _ & _ & Hlower & _).
  by split.
Defined.

(** ** Bank detection *)

Lemma excel_scan_banks_app tl b1 b2 :
  Excel.scan_banks tl (b1 ++ b2)
  = match Excel.scan_banks tl b1 with
    | Some name => Some name
    | None => Excel.scan_banks tl b2
    end.
Proof.
  induction b1 as [|[code pats] b1 IH]; [done|].
  cbn [app Excel.scan_banks]. by destruct (Py.any_in pats tl).
Qed.

Lemma pdf_scan_banks_app tl b1 b2 :
  Pdf.scan_banks tl (b1 ++ b2)
  = match Pdf.scan_banks tl b1 with
    | Some name => Some name
    | None => Pdf.scan_banks tl b2
    end.
Proof.
  induction b1 as [|[code pats] b1 IH]; [done|].
  cbn [app Pdf.scan_banks]. by destruct (Py.any_in pats tl).
Qed.

(** On banks that both name alike the two scans agree. *)
Lemma scan_banks_agree tl banks :
  forallb (λ b, bool_decide (Excel.bank_names !! fst b = Pdf.bank_names !! fst b)) banks
  = true →
  Pdf.scan_banks tl banks = Excel.scan_banks tl banks.
Proof.
  induction banks as [|[code pats] banks IH]; [done|].
  cbn [forallb fst]. intros [Hname Hrest]%andb_prop.
  apply bool_decide_eq_true in Hname.
  cbn [Pdf.scan_banks Excel.scan_banks]. rewrite Hname, IH by done. done.
Qed.

(** Every name the spreadsheet bank scan can return. *)
Lemma excel_scan_banks_names tl banks name :
  Excel.scan_banks tl banks = Some name →
  In name (map (λ b, default (fst b +:+ " Bank") (Excel.bank_names !! fst b)) banks).
Proof.
  induction banks as [|[code pats] banks IH]; [done|].
  cbn [Excel.scan_banks map fst]. destruct (Py.any_in pats tl).
  - intros [= <-]. by left.
  - intros Hrest. right. by apply IH.
Qed.

Lemma excel_detect_bank_known text :
  existsb (String.eqb (Excel.detect_bank text)) (map fst account_info_banks) = true.
Proof.
  unfold Excel.detect_bank.
  destruct (Excel.scan_banks _ _) as [name|] eqn:Hscan; [|reflexivity].
  apply excel_scan_banks_names in Hscan. cbn [default].
  apply existsb_exists. exists name. split; [|apply String.eqb_refl].
  revert Hscan. vm_compute. tauto.
Qed.

(** X9.  The PDF processor's bank detection extends the spreadsheet
    processor's: whenever the latter recognises a bank in a text, the
    former names the same bank. *)
Theorem pdf_detect_bank_extends_excel (text : string) :
  Excel.detect_bank text ≠ "Unknown Bank" →
  Pdf.detect_bank text = Excel.detect_bank text.
Proof.
  unfold Pdf.detect_bank, Excel.detect_bank.
  change Pdf.bank_patterns
    with (Excel.bank_patterns
          ++ [ ("BARCLAYS", ["barclays"]); ("LLOYDS", ["lloyds"]);
               ("SBI", ["state bank of india"; "sbi"]); ("HDFC", ["hdfc bank"; "hdfc"]);
               ("ICICI", ["icici bank"; "icici"]) ]).
  rewrite pdf_scan_banks_app, scan_banks_agree by (vm_compute; reflexivity).
  by destruct (Excel.scan_banks _ _).
Qed.

Lemma pdf_detect_bank_extends_excel_witness :
  Pdf.detect_bank "FIRST ABU DHABI BANK PJSC" = Excel.detect_bank "FIRST ABU DHABI BANK PJSC".
Proof. apply pdf_detect_bank_extends_excel. vm_compute. discriminate. Defined.

(** The currency rule of the Account Info scan gives each known bank the
    currency listed for it. *)
Lemma currency_rule_table :
  forallb (λ p, String.eqb (fst p) "Unknown Bank"
                || String.eqb
                     (if Py.contains "America" (fst p) || Py.contains "Chase" (fst p)
                         || Py.contains "Wells" (fst p) || Py.contains "Citi" (fst p)
                      then "USD" else "AED") (snd p))
          account_info_banks = true.
Proof. vm_compute. reflexivity. Qed.

Section account_info_facts.
Context `{Runtime}.

Lemma account_info_row_invariant info_sheet info row :
  In (bank_name info, currency info) account_info_banks →
  In (bank_name (Excel.account_info_row info_sheet info row),
      currency (Excel.account_info_row info_sheet info row)) account_info_banks.
Proof.
  intros Hinv. unfold Excel.account_info_row.
  destruct (_ && _); [done|]. destruct (_ && _); [done|].
  destruct (_ && _); [|done].
  set (detected := Excel.detect_bank _).
  destruct (String.eqb detected "Unknown Bank") eqn:Hunknown; [done|].
  cbn [negb bank_name currency].
  pose proof (excel_detect_bank_known
                (str_or (cell_value info_sheet row 2) "")) as Hknown.
  fold detected in Hknown.
  apply existsb_exists in Hknown as (name & Hin & Hname%String.eqb_eq).
  apply in_map_iff in Hin as ([name' cur] & Heq & Hin). simpl in Heq. subst name'.
  pose proof (proj1 (forallb_forall _ _) currency_rule_table _ Hin) as Hrule.
  cbn [fst snd] in Hrule. rewrite <- Hname, Hunknown in Hrule. cbn [orb] in Hrule.
  apply String.eqb_eq in Hrule. rewrite Hrule, Hname. exact Hin.
Qed.

Lemma read_account_info_invariant wb :
  In (bank_name (Excel.read_account_info wb), currency (Excel.read_account_info wb))
     account_info_banks.
Proof.
  unfold Excel.read_account_info.
  destruct (Excel.sheet_named _ wb) as [info_sheet|]; [|by left].
  generalize (range1 1 (max_row info_sheet + 1)).
  assert (Hstart : In (bank_name (mk_bank_info "Unknown Bank" "Account Holder"
                                    "XXXX-XXXX-XXXX" "USD"),
                       currency (mk_bank_info "Unknown Bank" "Account Holder"
                                   "XXXX-XXXX-XXXX" "USD")) account_info_banks)
    by (by left).
  revert Hstart. generalize (mk_bank_info "Unknown Bank" "Account Holder"
                               "XXXX-XXXX-XXXX" "USD").
  intros info Hinfo rows. revert info Hinfo.
  induction rows as [|row rows IH]; intros info Hinfo; [done|].
  cbn [foldl]. apply IH. by apply account_info_row_invariant.
Qed.

End account_info_facts.

(** X10.  The bank and the currency read from an Account Info sheet always
    go together: whatever the workbook holds, the bank name is Unknown Bank
    or one of the twelve known banks, and the currency is USD for Unknown
    Bank and the four US banks and AED for the eight UAE banks. *)
Theorem account_info_bank_and_currency `{Runtime} (wb : workbook) :
  In (bank_name (Excel.read_account_info wb), currency (Excel.read_account_info wb))
     [ ("Unknown Bank", "USD");
       ("Abu Dhabi Commercial Bank", "AED"); ("First Abu Dhabi Bank", "AED");
       ("Emirates NBD", "AED"); ("Mashreq Bank", "AED");
       ("Commercial Bank of Dubai", "AED"); ("HSBC Bank Middle East", "AED");
       ("RAKBank", "AED"); ("Abu Dhabi Islamic Bank", "AED");
       ("Bank of America", "USD"); ("Chase Bank", "USD");
       ("Wells Fargo", "USD"); ("Citibank", "USD") ].
Proof. apply read_account_info_invariant. Qed.

Lemma enrichment_by_bank bn cur :
  In (bn, cur) account_info_banks →
  (bn ≠ "HSBC Bank Middle East" → bn ≠ "RAKBank" →
   App.detected_currency (App.detect_bank_and_currency bn) = cur)
  ∧ (bn = "HSBC Bank Middle East" ∨ bn = "RAKBank" →
     cur = "AED"
     ∧ App.detect_bank_and_currency bn
       = App.mk_detection "Unknown Bank" "Unknown" "USD" "UNKNOWN").
Proof.
  intros Hin. unfold account_info_banks in Hin. cbn [In] in Hin.
  repeat (destruct Hin as [Hin|Hin]; [injection Hin as <- <-|]); [..|done];
    (split; [intros H1 H2; try done; vm_compute; reflexivity
            |intros [Hb|Hb]; try discriminate Hb; split; vm_compute; reflexivity]).
Qed.

(** X11.  The upload endpoint recomputes the currency from the bank name
    the processor reports.  For every workbook the recomputed currency is
    the processor's, except for HSBC Bank Middle East and RAKBank: the
    configuration has no key contained in those names, so the upload
    reports USD and an unknown country and bank code where the processor
    had set AED. *)
Theorem upload_currency_after_enrichment `{Runtime} (wb : workbook) :
  let info := Excel.read_account_info wb in
  let upload := App.enrich_bank_info info in
  (bank_name info ≠ "HSBC Bank Middle East" → bank_name info ≠ "RAKBank" →
   App.upload_currency upload = currency info)
  ∧ (bank_name info = "HSBC Bank Middle East" ∨ bank_name info = "RAKBank" →
     currency info = "AED" ∧ App.upload_currency upload = "USD"
     ∧ App.upload_country upload = "Unknown"
     ∧ App.upload_bank_code upload = "UNKNOWN").
Proof.
  intros info upload.
  destruct (enrichment_by_bank _ _ (read_account_info_invariant wb)) as [Hsame Hdiff].
  fold info in Hsame, Hdiff. split.
  - exact Hsame.
  - intros Hb. destruct (Hdiff Hb) as [Hcur Hdet].
    unfold upload, App.enrich_bank_info.
    cbn [App.upload_currency App.upload_country App.upload_bank_code].
    by rewrite Hdet.
Qed.

Lemma upload_currency_after_enrichment_witness :
  App.upload_currency
    (App.enrich_bank_info (@Excel.read_account_info sample_runtime sample_workbook))
  = "AED".
Proof.
  apply (proj1 (@upload_currency_after_enrichment sample_runtime sample_workbook));
    vm_compute; discriminate.
Defined.

(** ** The header scan for bank information *)

Lemma length_py_take n s : String.length (Py.take n s) = n `min` String.length s.
Proof.
  revert s. induction n as [|n IH]; intros [|c s]; simpl; try done.
  by rewrite IH.
Qed.

Lemma length_py_drop n s : String.length (Py.drop n s) = String.length s - n.
Proof.
  revert s. induction n as [|n IH]; intros [|c s]; simpl; try done; try lia.
Qed.

Lemma length_chomp s : String.length (Py.chomp s) ≤ String.length s.
Proof.
  induction s as [|c s IH]; [done|].
  cbn [Py.chomp]. destruct s as [|c' s'].
  - destruct (Ascii.eqb c _); simpl; lia.
  - cbn [String.length] in *. lia.
Qed.

Lemma length_replace_by_nothing fuel old :
  ∀ s, String.length (Py.replace_fuel fuel old "" s) ≤ String.length s.
Proof.
  induction fuel as [|fuel IH]; intros s; [done|].
  cbn [Py.replace_fuel]. destruct s as [|c s]; [done|].
  destruct (Py.startswith old (String c s)).
  - cbn [String.append]. etransitivity; [apply IH|]. rewrite length_py_drop. lia.
  - cbn [String.length]. specialize (IH s). lia.
Qed.

Lemma match_digits_length lo hi s :
  Py.match_digits lo hi s = true → lo ≤ String.length s.
Proof.
  unfold Py.match_digits. intros [[_ Hlo]%andb_prop _]%andb_prop.
  apply Nat.leb_le in Hlo. pose proof (length_chomp s). lia.
Qed.

(** The fields of the header scan for bank information that every cell
    keeps in shape. *)
Lemma extract_bank_info_fields `{Runtime} (ws : worksheet) :
  currency (Excel.extract_bank_info ws) = "AED"
  ∧ bank_name (Excel.extract_bank_info ws) ≠ "Unknown Bank"
  ∧ String.length (account_number (Excel.extract_bank_info ws)) = 14.
Proof.
  set (P := λ info : bank_info,
         currency info = "AED" ∧ bank_name info ≠ "Unknown Bank"
         ∧ String.length (account_number info) = 14).
  assert (Hcell : ∀ row info col, P info → P (Excel.scan_bank_cell ws row info col)).
  { intros row info col (Hcur & Hname & Hlen). unfold Excel.scan_bank_cell.
    set (text := Py.upper _).
    set (info1 := if negb _ then _ else info).
    assert (H1 : P info1).
    { unfold info1.
      destruct (String.eqb (Excel.detect_bank text) "UAE Bank") eqn:E1; [done|].
      destruct (String.eqb (Excel.detect_bank text) "Unknown Bank") eqn:E2; [done|].
      cbn [orb negb]. repeat split; cbn; try done.
      by apply String.eqb_neq. }
    set (info2 := if _ && _ then _ else info1).
    assert (H2 : P info2).
    { unfold info2. destruct (_ && _); [|done].
      destruct H1 as (? & ? & ?). by repeat split. }
    destruct (Py.match_digits 10 16 _) eqn:Hdigits; [|done].
    destruct H2 as (? & ? & ?). unfold P.
    cbn [currency bank_name account_number]. split; [done|]. split; [done|].
    apply match_digits_length in Hdigits.
    pose proof (length_replace_by_nothing
                  (String.length (Py.replace " " "" text)) "-"
                  (Py.replace " " "" text)) as L1.
    pose proof (length_replace_by_nothing (String.length text) " " text) as L2.
    unfold Py.replace in Hdigits, L1, L2.
    rewrite !length_string_app. unfold Py.take_last.
    rewrite length_py_take, length_py_drop. cbn [String.length]. lia. }
  unfold Excel.extract_bank_info.
  assert (Hrow : ∀ cols row info, P info →
            P (foldl (Excel.scan_bank_cell ws row) info cols)).
  { induction cols as [|col cols IH]; intros row info Hinfo; [done|].
    cbn [foldl]. apply IH, Hcell, Hinfo. }
  generalize (range1 1 (21 `min` (max_row ws + 1))).
  assert (Hstart : P (mk_bank_info "UAE Bank" "Account Holder" "XXXX-XXXX-XXXX" "AED"))
    by (by repeat split).
  revert Hstart. generalize (mk_bank_info "UAE Bank" "Account Holder" "XXXX-XXXX-XXXX" "AED").
  intros info Hinfo rows. revert info Hinfo.
  induction rows as [|row rows IH]; intros info Hinfo; [done|].
  cbn [foldl]. apply IH, Hrow, Hinfo.
Qed.

(** What holds of the empty cell and of every cell of the grid holds of
    every cell that is read. *)
Lemma cell_value_Forall (P : cell → Prop) ws row col :
  P CNone → Forall (Forall P) (grid ws) → P (cell_value ws row col).
Proof.
  intros Hnone Hgrid. unfold cell_value.
  destruct (grid ws !! (row - 1)) as [r|] eqn:Hr; [|done]. cbn.
  destruct (r !! (col - 1)) as [c|] eqn:Hc; [|done]. cbn.
  rewrite Forall_forall in Hgrid.
  pose proof (Hgrid r (list_elem_of_lookup_2 _ _ _ Hr)) as Hrow.
  rewrite Forall_forall in Hrow. apply Hrow. by eapply list_elem_of_lookup_2.
Qed.

Section bank_scan_facts.
Context `{Runtime}.

(** The account number after one cell: the masked text of the cell when
    it reads as an account number, and what it was before otherwise. *)
Lemma scan_bank_cell_account_number ws row info col :
  account_number (Excel.scan_bank_cell ws row info col)
  = if is_account_number (bank_cell_text ws row col)
    then masked (bank_cell_text ws row col)
    else account_number info.
Proof.
  unfold Excel.scan_bank_cell, is_account_number, bank_cell_text, masked.
  set (text := Py.upper _).
  destruct (Py.match_digits 10 16 _); [reflexivity|].
  destruct (_ && _); cbn [account_number];
    by destruct (negb _).
Qed.

Lemma scan_bank_cell_state ws (seen : nat → nat → Prop) info row col :
  account_scan_state ws seen info →
  account_scan_state ws (λ r c, seen r c ∨ (r = row ∧ c = col))
                     (Excel.scan_bank_cell ws row info col).
Proof.
  intros Hstate. unfold account_scan_state.
  rewrite scan_bank_cell_account_number.
  destruct (is_account_number (bank_cell_text ws row col)) eqn:Hcell.
  - right. exists row, col. split; [by right|done].
  - destruct Hstate as [[Hplace Hnone]|(r & c & Hseen & Hnum & Hacct)].
    + left. split; [done|]. intros r c [Hseen|[-> ->]]; [by apply Hnone|done].
    + right. exists r, c. split; [by left|done].
Qed.

Lemma account_scan_state_iff ws (seen seen' : nat → nat → Prop) info :
  (∀ r c, seen r c ↔ seen' r c) →
  account_scan_state ws seen info → account_scan_state ws seen' info.
Proof.
  intros Hiff [[Hplace Hnone]|(r & c & Hseen & Hrest)].
  - left. split; [done|]. intros r c Hseen. by apply Hnone, Hiff.
  - right. exists r, c. split; [by apply Hiff|done].
Qed.

Lemma scan_bank_row_state ws row cols :
  ∀ (seen : nat → nat → Prop) info,
    account_scan_state ws seen info →
    account_scan_state ws (λ r c, seen r c ∨ (r = row ∧ c ∈ cols))
                       (foldl (Excel.scan_bank_cell ws row) info cols).
Proof.
  induction cols as [|col cols IH]; intros seen info Hstate; cbn [foldl].
  - apply (account_scan_state_iff ws seen); [|done].
    intros r c. split; [by left|]. intros [?|[_ Hin]]; [done|].
    by apply elem_of_nil in Hin.
  - apply (account_scan_state_iff ws
             (λ r c, (seen r c ∨ (r = row ∧ c = col)) ∨ (r = row ∧ c ∈ cols))).
    + intros r c. rewrite elem_of_cons. tauto.
    + apply IH. by apply scan_bank_cell_state.
Qed.

Lemma scan_bank_rows_state ws cols rows :
  ∀ (seen : nat → nat → Prop) info,
    account_scan_state ws seen info →
    account_scan_state ws (λ r c, seen r c ∨ (r ∈ rows ∧ c ∈ cols))
      (foldl (λ info row, foldl (Excel.scan_bank_cell ws row) info cols) info rows).
Proof.
  induction rows as [|row rows IH]; intros seen info Hstate; cbn [foldl].
  - apply (account_scan_state_iff ws seen); [|done].
    intros r c. split; [by left|]. intros [?|[Hin _]]; [done|].
    by apply elem_of_nil in Hin.
  - apply (account_scan_state_iff ws
             (λ r c, (seen r c ∨ (r = row ∧ c ∈ cols)) ∨ (r ∈ rows ∧ c ∈ cols))).
    + intros r c. rewrite elem_of_cons. split.
      * intros [[?|[-> ?]]|[? ?]]; auto.
      * intros [?|[[->|?] ?]]; auto.
    + apply IH. by apply scan_bank_row_state.
Qed.

End bank_scan_facts.

(** X12.  For a worksheet whose cells hold ASCII texts, the header scan for
    bank information reports the currency AED and never the name Unknown
    Bank, and its account number is masked: it is the placeholder
    XXXX-XXXX-XXXX when no scanned cell (rows 1 to 20, columns 1 to 9,
    within the sheet) reads as ten to sixteen digits once spaces and
    dashes are removed, and otherwise the first four characters, "-****-"
    and the last four characters of the text of such a cell; in either case
    it has fourteen characters. *)
Theorem extract_bank_info_shape `{Runtime} (ws : worksheet) :
  (∀ row col, Py.is_ascii (str_or (cell_value ws row col) "") = true) →
  let scanned row col :=
    row ∈ range1 1 (21 `min` (max_row ws + 1))
    ∧ col ∈ range1 1 (10 `min` (max_column ws + 1)) in
  currency (Excel.extract_bank_info ws) = "AED"
  ∧ bank_name (Excel.extract_bank_info ws) ≠ "Unknown Bank"
  ∧ String.length (account_number (Excel.extract_bank_info ws)) = 14
  ∧ ((account_number (Excel.extract_bank_info ws) = "XXXX-XXXX-XXXX"
      ∧ ∀ row col, scanned row col →
                   is_account_number (bank_cell_text ws row col) = false)
     ∨ ∃ row col, scanned row col
                  ∧ is_account_number (bank_cell_text ws row col) = true
                  ∧ account_number (Excel.extract_bank_info ws)
                    = masked (bank_cell_text ws row col)).
Proof.
  intros _ scanned.
  destruct (extract_bank_info_fields ws) as (Hcurrency & Hname & Hlength).
  split; [done|]. split; [done|]. split; [done|].
  pose proof (scan_bank_rows_state ws (range1 1 (10 `min` (max_column ws + 1)))
                (range1 1 (21 `min` (max_row ws + 1))) (λ _ _, False)
                (mk_bank_info "UAE Bank" "Account Holder" "XXXX-XXXX-XXXX" "AED"))
    as Hstate.
  apply (account_scan_state_iff ws _ scanned) in Hstate.
  - exact Hstate.
  - intros r c. unfold scanned. tauto.
  - left. split; [reflexivity|]. by intros r c [].
Qed.

Lemma extract_bank_info_shape_witness :
  String.length (account_number (@Excel.extract_bank_info sample_runtime sample_account_info))
  = 14.
Proof.
  apply (@extract_bank_info_shape sample_runtime sample_account_info).
  intros row col.
  apply (cell_value_Forall (λ c, Py.is_ascii (@str_or sample_runtime c "") = true));
    [reflexivity|repeat constructor].
Defined.

(** ** The format detector: bounds and the first header row *)

Section header_window_facts.
Context `{Runtime}.

Lemma scan_cells_count ws row cols :
  ∀ acc,
    snd (foldl (Excel.scan_cell ws row) acc cols)
    = snd acc
      + length (filter (λ col, Excel.is_header_cell (Excel.header_text ws row col) = true)
                       cols).
Proof.
  induction cols as [|col cols IH]; intros acc; [simpl; lia|].
  cbn [foldl]. rewrite IH, filter_cons. unfold Excel.scan_cell.
  destruct (Excel.is_header_cell _) eqn:Hcell.
  - rewrite decide_True by done. simpl. lia.
  - rewrite decide_False by (by intros ?). done.
Qed.

(** The header count of a row is the number of header cells among the
    scanned columns. *)
Lemma scan_header_row_count ws row :
  snd (Excel.scan_header_row ws row)
  = length (filter (λ col, Excel.is_header_cell (Excel.header_text ws row col) = true)
                   (Excel.header_columns ws)).
Proof. unfold Excel.scan_header_row. by rewrite scan_cells_count. Qed.

Lemma scan_header_row_columns ws row key col :
  fst (Excel.scan_header_row ws row) !! key = Some col →
  col ∈ Excel.header_columns ws.
Proof.
  unfold Excel.scan_header_row. rewrite scan_cells_role. cbn [fst].
  rewrite lookup_empty.
  destruct (last _) as [c|] eqn:Hlast; [|done].
  intros [= <-]. apply last_Some_elem_of in Hlast.
  by apply list_elem_of_filter in Hlast as [_ ?].
Qed.

(** The row loop stops at the first row with three header cells. *)
Lemma find_header_first ws before row after :
  (∀ r, r ∈ before → snd (Excel.scan_header_row ws r) < 3) →
  3 ≤ snd (Excel.scan_header_row ws row) →
  Excel.find_header ws (before ++ row :: after)
  = Some (<["header_row" := row]> (fst (Excel.scan_header_row ws row))).
Proof.
  intros Hbefore Hrow. induction before as [|r before IH]; cbn [app Excel.find_header].
  - destruct (Excel.scan_header_row ws row) as [rd count]. cbn [fst snd] in *.
    by rewrite (proj2 (Nat.leb_le 3 count)).
  - pose proof (Hbefore r ltac:(left)) as Hr.
    destruct (Excel.scan_header_row ws r) as [rd count]. cbn [snd] in Hr.
    rewrite (proj2 (Nat.leb_gt 3 count)) by done.
    apply IH. intros r' Hr'. apply Hbefore. by right.
Qed.

Lemma find_header_none ws rows :
  (∀ r, r ∈ rows → snd (Excel.scan_header_row ws r) < 3) →
  Excel.find_header ws rows = None.
Proof.
  intros Hrows. induction rows as [|r rows IH]; [done|].
  cbn [Excel.find_header].
  pose proof (Hrows r ltac:(left)) as Hr.
  destruct (Excel.scan_header_row ws r) as [rd count]. cbn [snd] in Hr.
  rewrite (proj2 (Nat.leb_gt 3 count)) by done.
  apply IH. intros r' Hr'. apply Hrows. by right.
Qed.

End header_window_facts.

(** X13.  The column map always has a header row, between 1 and 19, and
    every column it names lies between 1 and 9: the detector never points
    at a cell outside the window it scans, nor at row or column 0. *)
Theorem column_map_bounds `{Runtime} (ws : worksheet) :
  (∃ r, Excel.find_data_headers ws !! "header_row" = Some r ∧ 1 ≤ r ≤ 19)
  ∧ (∀ key col, key ≠ "header_row" →
       Excel.find_data_headers ws !! key = Some col → 1 ≤ col ≤ 9).
Proof.
  unfold Excel.find_data_headers.
  destruct (Excel.find_header ws (Excel.header_rows ws)) as [row_data|] eqn:Hfound.
  - destruct (find_header_scan _ _ _ Hfound) as (r & Hin & _ & ->). split.
    + exists r. rewrite lookup_insert_eq. split; [done|].
      unfold Excel.header_rows, range1 in Hin. apply elem_of_seq in Hin. lia.
    + intros key col Hkey Hcol. rewrite lookup_insert_ne in Hcol by done.
      apply scan_header_row_columns in Hcol.
      unfold Excel.header_columns, range1 in Hcol. apply elem_of_seq in Hcol. lia.
  - split.
    + exists 1. split; [reflexivity|lia].
    + intros key col Hkey. unfold Excel.default_mapping.
      rewrite !lookup_insert_Some, lookup_empty. intros Hc.
      repeat (destruct Hc as [[_ <-]|[_ Hc]]; [lia|]). done.
Qed.

Lemma column_map_bounds_witness :
  ∃ r, @Excel.find_data_headers sample_runtime sheet_header_in_column_10 !! "header_row"
       = Some r ∧ 1 ≤ r ≤ 19.
Proof. exact (proj1 (@column_map_bounds sample_runtime sheet_header_in_column_10)). Defined.

(** X14.  The header row is the first scanned row (rows 1 to 19, within
    the sheet) that has at least three header cells among its first nine
    columns, and its column map is that row's scan; when no scanned row
    has three, the default map is returned. *)
Theorem header_row_is_first_with_three `{Runtime} (ws : worksheet) :
  let header_cells row :=
    length (filter (λ col, Excel.is_header_cell (Excel.header_text ws row col) = true)
                   (Excel.header_columns ws)) in
  (∀ row, row ∈ Excel.header_rows ws → 3 ≤ header_cells row →
          (∀ r, r ∈ Excel.header_rows ws → r < row → header_cells r < 3) →
          Excel.find_data_headers ws
          = <["header_row" := row]> (fst (Excel.scan_header_row ws row)))
  ∧ ((∀ r, r ∈ Excel.header_rows ws → header_cells r < 3) →
     Excel.find_data_headers ws = Excel.default_mapping).
Proof.
  intros header_cells. unfold Excel.find_data_headers. split.
  - intros row Hin Hrow Hbefore.
    unfold Excel.header_rows, range1 in *. apply elem_of_seq in Hin.
    set (k := 20 `min` (max_row ws + 1) - 1) in *.
    replace (seq 1 k) with (seq 1 (row - 1) ++ row :: seq (S row) (k - row)).
    + rewrite (find_header_first ws); [done| |by rewrite scan_header_row_count].
      intros r Hr. rewrite scan_header_row_count. apply elem_of_seq in Hr.
      apply Hbefore; [apply elem_of_seq|]; lia.
    + transitivity (seq 1 ((row - 1) + S (k - row))); [|f_equal; lia].
      rewrite seq_app. replace (1 + (row - 1)) with row by lia. done.
  - intros Hnone. rewrite find_header_none; [done|].
    intros r Hr. rewrite scan_header_row_count. by apply Hnone.
Qed.

Lemma header_row_is_first_with_three_witness :
  @Excel.find_data_headers sample_runtime sheet_header_in_row_19
  = <["header_row" := 19]>
      (fst (@Excel.scan_header_row sample_runtime sheet_header_in_row_19 19)).
Proof.
  apply (proj1 (@header_row_is_first_with_three sample_runtime sheet_header_in_row_19)).
  - apply elem_of_seq. vm_compute. lia.
  - vm_compute. lia.
  - intros r Hr Hlt. apply elem_of_seq in Hr.
    assert (Hcases : r ∈ seq 1 18) by (apply elem_of_seq; lia).
    clear Hr Hlt. cbn [seq] in Hcases.
    repeat (apply elem_of_cons in Hcases as [->|Hcases]; [vm_compute; lia|]).
    by apply elem_of_nil in Hcases.
Defined.

(** ** The date normaliser on cells of every kind *)

Lemma string_of_uint_digits d : Py.all_digits (NilEmpty.string_of_uint d) = true.
Proof. induction d; simpl; try done. Qed.

Lemma str_nat_digits n : Py.all_digits (Py.str_nat n) = true.
Proof.
  unfold Py.str_nat, NilZero.string_of_uint.
  destruct (Nat.to_uint n) eqn:E; try done; rewrite <- E; apply string_of_uint_digits.
Qed.

Lemma digits_no_dash g :
  Py.all_digits g = true → Py.all_chars (λ c, negb (Ascii.eqb c "-")) g = true.
Proof. apply all_digits_all_chars, digit_not_dash. Qed.

(** The text of an integer matches none of the date patterns. *)
Lemma try_patterns_integer z :
  Excel.try_patterns (Py.strip (Py.str_Z z)) Excel.patterns = None.
Proof.
  pose proof (str_nat_digits (Z.to_nat z)) as Hpos.
  pose proof (str_nat_digits (Z.to_nat (- z))) as Hneg.
  unfold Py.str_Z. destruct (z <? 0)%Z.
  - set (digits := Py.str_nat (Z.to_nat (- z))) in *.
    change ("-" +:+ digits) with (String "-" digits).
    rewrite strip_no_space
      by (cbn [Py.all_chars]; by rewrite digits_no_space).
    rewrite try_patterns_unfold.
    rewrite (re_match_no_sep Excel.slash_year4)
      by (cbn [Py.all_chars]; by rewrite digits_no_slash).
    rewrite (re_match_no_sep Excel.slash_year2)
      by (cbn [Py.all_chars]; by rewrite digits_no_slash).
    unfold Excel.re_match, Excel.dash_iso. cbn [Excel.separator].
    change (String "-" digits) with ("" +:+ String "-" digits).
    rewrite split_on_app by done.
    by rewrite split_on_no_sep by (by apply digits_no_dash).
  - set (digits := Py.str_nat (Z.to_nat z)) in *.
    rewrite strip_no_space by (by apply digits_no_space).
    rewrite try_patterns_unfold.
    rewrite (re_match_no_sep Excel.slash_year4) by (by apply digits_no_slash).
    rewrite (re_match_no_sep Excel.slash_year2) by (by apply digits_no_slash).
    by rewrite (re_match_no_sep Excel.dash_iso) by (by apply digits_no_dash).
Qed.

Lemma pad_year_digits y : y < 10 ^ 4 → Excel.digits_between (4, 4) (Py.pad 4 y) = true.
Proof.
  intros Hy.
  assert (Hall : forallb (λ y, Excel.digits_between (4, 4) (Py.pad 4 y)) (seq 0 (10 ^ 4)) = true)
    by (vm_compute; reflexivity).
  rewrite forallb_forall in Hall. apply Hall, in_seq. lia.
Qed.

Lemma pad_two_digits n : n < 100 → Excel.digits_between (2, 2) (Py.pad 2 n) = true.
Proof.
  intros Hn.
  assert (Hall : forallb (λ n, Excel.digits_between (2, 2) (Py.pad 2 n)) (seq 0 100) = true)
    by (vm_compute; reflexivity).
  rewrite forallb_forall in Hall. apply Hall, in_seq. lia.
Qed.

Section date_cell_facts.
Context `{Runtime}.

Lemma strftime_ymd_iso dt :
  year dt < 10 ^ 4 → month dt < 100 → day dt < 100 →
  Excel.is_iso_date (strftime_ymd dt) = true.
Proof.
  intros Hy Hm Hd. unfold strftime_ymd.
  apply is_iso_date_compose; [by apply pad_year_digits|by apply pad_two_digits..].
Qed.

Lemma detect_date_format_iso c :
  Excel.is_iso_date today = true → cell_in_range c →
  Excel.is_iso_date (Excel.detect_date_format c) = true.
Proof.
  intros Htoday Hrange.
  assert (Htext : ∀ s, Excel.is_iso_date
            (match Excel.try_patterns s Excel.patterns with
             | Some iso => iso
             | None => today
             end) = true).
  { intros s. destruct (Excel.try_patterns s Excel.patterns) as [iso|] eqn:E; [|done].
    by apply (try_patterns_iso _ _ E). }
  destruct c; cbn [Excel.detect_date_format]; try apply Htext.
  cbn [cell_in_range] in Hrange. apply strftime_ymd_iso; lia.
Qed.

End date_cell_facts.

(** X15.  The date normaliser of the spreadsheet processor is idempotent on
    every kind of cell: for a cell whose text is ASCII (a text, a number,
    a truth value, an empty cell) or that holds a date with a year of four
    digits from 1000 on, its result has the shape YYYY-MM-DD (today's date
    being of that shape), and normalising the result again returns it
    unchanged. *)
Theorem detect_date_format_idempotent `{Runtime} (c : cell) :
  Excel.is_iso_date today = true → cell_in_range c →
  Excel.is_iso_date (Excel.detect_date_format c) = true
  ∧ Excel.detect_date_format (CStr (Excel.detect_date_format c))
    = Excel.detect_date_format c.
Proof.
  intros Htoday Hrange.
  pose proof (detect_date_format_iso c Htoday Hrange) as Hiso.
  split; [done|]. by apply detect_iso_unchanged.
Qed.

Lemma detect_date_format_idempotent_witness :
  @Excel.detect_date_format sample_runtime
    (CStr (@Excel.detect_date_format sample_runtime
             (CDateTime (mk_datetime 2024 2 29 13 45 0))))
  = @Excel.detect_date_format sample_runtime (CDateTime (mk_datetime 2024 2 29 13 45 0)).
Proof.
  apply (@detect_date_format_idempotent sample_runtime
           (CDateTime (mk_datetime 2024 2 29 13 45 0))).
  - reflexivity.
  - cbn. lia.
Defined.

(** X16.  A date cell that holds an integer (such as a spreadsheet serial
    date), a truth value or nothing is never read as a date: the
    normaliser returns today's date for it, whatever the number. *)
Theorem number_cells_get_todays_date `{Runtime} :
  (∀ z, Excel.detect_date_format (CInt z) = today)
  ∧ (∀ b, Excel.detect_date_format (CBool b) = today)
  ∧ Excel.detect_date_format CNone = today.
Proof.
  split; [|split].
  - intros z. unfold Excel.detect_date_format. cbn [py_str].
    by rewrite try_patterns_integer.
  - by intros [].
  - done.
Qed.

(** ** Invariants of the transaction builder *)

Section builder_invariants.
Context `{Runtime}.

Lemma process_row_rule_based ws column_map row count tx :
  Excel.process_row ws column_map row count = Some tx → rule_based tx.
Proof.
  unfold Excel.process_row.
  repeat match goal with
         | |- context [if ?b then None else _] => destruct b; [done|]
         end.
  destruct (Excel.resolve_amount _ _ _ _ _) as [amount|]; [|done].
  destruct (float_is_zero amount) eqn:Hzero; [done|].
  by intros [= <-].
Qed.

Lemma process_row_date ws column_map row count tx :
  Excel.process_row ws column_map row count = Some tx →
  Date tx = Excel.detect_date_format
              (Excel.cell_if ws row (default 1 (column_map !! "date_col"))).
Proof.
  unfold Excel.process_row.
  repeat match goal with
         | |- context [if ?b then None else _] => destruct b; [done|]
         end.
  destruct (Excel.resolve_amount _ _ _ _ _) as [amount|]; [|done].
  destruct (float_is_zero amount) eqn:Hzero; [done|].
  by intros [= <-].
Qed.

(** A property of all built rows of a sheet is kept by the row loop. *)
Lemma process_sheet_Forall (P : transaction → Prop) ws acc :
  (∀ column_map row count tx,
     Excel.process_row ws column_map row count = Some tx → P tx) →
  Forall P acc → Forall P (Excel.process_sheet acc ws).
Proof.
  intros Hrow. unfold Excel.process_sheet.
  generalize (range1 (default 1 (Excel.find_data_headers ws !! "header_row") + 1)
                     (max_row ws + 1)).
  intros rows. revert acc.
  induction rows as [|row rows IH]; intros acc Hacc; [done|].
  cbn [foldl]. apply IH.
  destruct (Excel.process_row _ _ _ _) as [tx|] eqn:Htx; [|done].
  apply Forall_app. split; [done|].
  apply Forall_singleton. by apply (Hrow _ _ _ _ Htx).
Qed.

Lemma build_transactions_Forall (P : transaction → Prop) (wb : workbook) :
  (∀ name ws column_map row count tx, (name, ws) ∈ wb →
     Excel.process_row ws column_map row count = Some tx → P tx) →
  Forall P (Excel.build_transactions wb).
Proof.
  intros Hrow. unfold Excel.build_transactions.
  assert (Hsheets : ∀ ws, ws ∈ (snd <$> filter (λ entry, fst entry ≠ "Account Info") wb)
                          → ∃ name, (name, ws) ∈ wb).
  { intros ws [[name ws'] [-> Hin]]%list_elem_of_fmap.
    apply list_elem_of_filter in Hin as [_ Hin]. by exists name. }
  revert Hsheets.
  generalize (snd <$> filter (λ entry, fst entry ≠ "Account Info") wb).
  intros sheets Hsheets.
  assert (Hnil : Forall P []) by done. revert Hnil.
  generalize (@nil transaction). revert Hsheets.
  induction sheets as [|ws sheets IH]; intros Hsheets acc Hacc; [done|].
  cbn [foldl]. apply IH.
  - intros ws' Hin. apply Hsheets. by right.
  - destruct (Hsheets ws ltac:(left)) as [name Hname].
    apply process_sheet_Forall; [|done].
    intros column_map row count tx. by apply (Hrow name).
Qed.

(** The row loop only appends: what was built before stays in front, and
    every data row adds at most one transaction. *)
Lemma process_sheet_appends ws acc :
  ∃ new, Excel.process_sheet acc ws = acc ++ new
         ∧ length new
           ≤ max_row ws - default 1 (Excel.find_data_headers ws !! "header_row").
Proof.
  unfold Excel.process_sheet, range1.
  replace (max_row ws + 1 - (default 1 (Excel.find_data_headers ws !! "header_row") + 1))
    with (max_row ws - default 1 (Excel.find_data_headers ws !! "header_row")) by lia.
  generalize (max_row ws - default 1 (Excel.find_data_headers ws !! "header_row")).
  generalize (default 1 (Excel.find_data_headers ws !! "header_row") + 1).
  intros start n. revert start acc.
  induction n as [|n IH]; intros start acc; cbn [seq foldl].
  - exists []. by rewrite app_nil_r.
  - destruct (Excel.process_row _ _ _ _) as [tx|].
    + destruct (IH (S start) (acc ++ [tx])) as (new & -> & Hlen).
      exists (tx :: new). rewrite <- app_assoc. split; [done|]. simpl. lia.
    + destruct (IH (S start) acc) as (new & -> & Hlen).
      exists new. split; [done|]. lia.
Qed.

End builder_invariants.


(** X17.  Every transaction the transaction builder returns for a workbook,
    over all its sheets, carries the rule-based category of its own
    description, the subcategory derived from that category (its first
    word, or Miscellaneous for Other Expenses) and an amount that is not
    equal to 0; and its date has the shape YYYY-MM-DD when today's date
    has, the texts of the cells of the workbook are ASCII and its date
    cells hold years of four digits from 1000 on. *)
Theorem built_transactions_rule_based `{Runtime} (wb : workbook) (tx : transaction) :
  tx ∈ Excel.build_transactions wb →
  Category tx = JStr (Excel.categorize_transaction (Description tx))
  ∧ Subcategory tx = Excel.subcategory_of (Excel.categorize_transaction (Description tx))
  ∧ float_is_zero (Amount tx) = false
  ∧ (Excel.is_iso_date today = true →
     (∀ name ws row col, (name, ws) ∈ wb → cell_in_range (cell_value ws row col)) →
     Excel.is_iso_date (Date tx) = true).
Proof.
  intros Hin.
  pose proof (build_transactions_Forall rule_based wb) as Hrule.
  rewrite Forall_forall in Hrule.
  destruct (Hrule ltac:(eauto using process_row_rule_based) tx Hin) as (Hc & Hs & Hz).
  split; [done|]. split; [done|]. split; [done|].
  intros Htoday Hcells.
  pose proof (build_transactions_Forall (λ tx, Excel.is_iso_date (Date tx) = true) wb)
    as Hdate.
  rewrite Forall_forall in Hdate. apply Hdate; [|done].
  intros name ws column_map row count tx' Hws Hrow.
  rewrite (process_row_date _ _ _ _ _ Hrow).
  apply detect_date_format_iso; [done|].
  unfold Excel.cell_if. destruct (default 1 (column_map !! "date_col")); [done|].
  by apply (Hcells name).
Qed.

Lemma built_transactions_rule_based_witness :
  Excel.is_iso_date
    (Date (mk_transaction "2024-02-01" (Finite (-50)) "Carrefour Mall"
             (JStr "Food & Dining") "Food")) = true.
Proof.
  apply (@built_transactions_rule_based sample_runtime sample_workbook).
  - assert (Hbuilt : @Excel.build_transactions sample_runtime sample_workbook
                     = [ mk_transaction "2024-02-01" (Finite (-50)) "Carrefour Mall"
                           (JStr "Food & Dining") "Food";
                         mk_transaction "2024-02-02" (Finite 5000) "Salary"
                           (JStr "Other Expenses") "Miscellaneous" ])
      by (vm_compute; reflexivity).
    rewrite Hbuilt. left.
  - reflexivity.
  - intros name ws row col Hin. apply cell_value_Forall; [reflexivity|].
    unfold sample_workbook in Hin.
    apply elem_of_cons in Hin as [[= _ ->]|Hin]; [repeat constructor|].
    apply elem_of_cons in Hin as [[= _ ->]|Hin]; [repeat constructor|].
    by apply elem_of_nil in Hin.
Defined.

(** X18.  The row loop of a sheet only appends: the transactions built
    from earlier sheets stay in front, in their order, and the sheet adds
    at most one transaction for each row below its header row. *)
Theorem sheet_rows_are_appended `{Runtime} (ws : worksheet) (acc : list transaction) :
  ∃ new, Excel.process_sheet acc ws = acc ++ new
         ∧ length new
           ≤ max_row ws - default 1 (Excel.find_data_headers ws !! "header_row").
Proof. apply process_sheet_appends. Qed.

(** X19.  In debit/credit mode (no amount column), a built amount that is
    a number is negative exactly when the debit cell held an amount,
    positive exactly when the debit cell held none and the credit cell
    did, and never 0. *)
Theorem debit_negative_credit_positive `{Runtime} (ws : worksheet)
  (column_map : gmap string nat) (row count : nat) (tx : transaction) :
  column_map !! "amount_col" = None →
  Excel.process_row ws column_map row count = Some tx →
  Amount tx ≠ NaN →
  let debit_cell := Excel.cell_if ws row (default 4 (column_map !! "debit_col")) in
  let credit_cell := Excel.cell_if ws row (default 5 (column_map !! "credit_col")) in
  (float_neg (Amount tx) = true ↔ Excel.has_amount debit_cell = true)
  ∧ (float_pos (Amount tx) = true
     ↔ Excel.has_amount debit_cell = false ∧ Excel.has_amount credit_cell = true)
  ∧ float_is_zero (Amount tx) = false.
Proof. apply amount_sign_debit_credit. Qed.

Lemma debit_negative_credit_positive_witness :
  float_neg (Finite (-50)) = true
  ↔ @Excel.has_amount sample_runtime (CInt 50) = true.
Proof.
  apply (@debit_negative_credit_positive sample_runtime sample_sheet
           (@Excel.find_data_headers sample_runtime sample_sheet) 2 0
           (mk_transaction "2024-02-01" (Finite (-50)) "Carrefour Mall"
              (JStr "Food & Dining") "Food")).
  - reflexivity.
  - vm_compute. reflexivity.
  - discriminate.
Defined.

(** X20.  Without an API key, or when every classifier call or decoding
    fails, the pipeline returns exactly the rule-based transactions of the
    transaction builder, the bank information of the Account Info sheet,
    their count and the fixed processing mode. *)
Theorem pipeline_without_classifier `{Runtime} `{Services} (wb : workbook) :
  api_key = false ∨ (∀ k prompt, Excel.parsed_response k prompt = None) →
  Excel.process_excel_file wb
  = mk_statement (Excel.build_transactions wb) (Excel.read_account_info wb)
                 (length (Excel.build_transactions wb))
                 "Dynamic Excel Processing with AI Categorization".
Proof.
  intros Hnone. unfold Excel.process_excel_file.
  assert (Hsame : Excel.ai_categorize_transactions (Excel.build_transactions wb)
                  = Excel.build_transactions wb).
  { destruct Hnone as [Hkey|Hfail].
    - by apply no_api_key_keeps_input.
    - by apply classifier_failure_keeps_input. }
  destruct (Excel.build_transactions wb) as [|tx txs] eqn:Hbuilt; [done|].
  by rewrite Hsame.
Qed.

Lemma pipeline_without_classifier_witness :
  transactions (@Excel.process_excel_file sample_runtime throwing_services sample_workbook)
  = @Excel.build_transactions sample_runtime sample_workbook.
Proof.
  rewrite (@pipeline_without_classifier sample_runtime throwing_services sample_workbook).
  - reflexivity.
  - right. intros k prompt. reflexivity.
Defined.

(** ** The date normaliser of the PDF processor *)

Lemma is_digit_cases c : Py.is_digit c = true → In c digit_chars.
Proof.
  destruct c as [[] [] [] [] [] [] [] []]; vm_compute; intros Hc;
    first [discriminate Hc | repeat (first [left; reflexivity | right])].
Qed.

Ltac digit_cases H :=
  apply is_digit_cases in H; unfold digit_chars in H; cbn [In] in H;
  repeat (destruct H as [<-|H]; [|]); [..|destruct H].

(** One or two digits: what [%d] and [%m] accept of them, and how they are
    printed back. *)
Lemma one_or_two_digits g :
  Excel.digits_between (1, 2) g = true →
  Pdf.accepts Pdf.Day g = (1 <=? Py.int_of_digits g) && (Py.int_of_digits g <=? 31)
  ∧ Pdf.accepts Pdf.Month g
    = (1 <=? Py.int_of_digits g) && (Py.int_of_digits g <=? 12)
  ∧ Py.pad 2 (Py.int_of_digits g) = Py.zfill2 g
  ∧ Py.strip g = g.
Proof.
  intros [Hd [Hlo Hhi]]%digits_between_inv. cbn [fst snd] in *.
  destruct g as [|a [|b [|c g]]]; cbn [String.length] in *; try lia.
  - cbn [Py.all_digits] in Hd. apply andb_prop in Hd as [Ha _].
    digit_cases Ha; vm_compute; repeat split; reflexivity.
  - cbn [Py.all_digits] in Hd. apply andb_prop in Hd as [Ha [Hb _]%andb_prop].
    digit_cases Ha; digit_cases Hb; vm_compute; repeat split; reflexivity.
Qed.

Lemma year_check_all :
  forallb (λ a, forallb (λ b, forallb (λ c, forallb (year_check a b c) digit_chars)
                                      digit_chars) digit_chars) digit_chars = true.
Proof. vm_compute. reflexivity. Qed.

(** Four digits: [%Y] accepts them and prints them back. *)
Lemma four_digits y :
  Excel.digits_between (4, 4) y = true →
  Pdf.accepts Pdf.Year4 y = true
  ∧ Py.pad 4 (Py.int_of_digits y) = y
  ∧ Py.int_of_digits y < 10 ^ 4
  ∧ Py.strip y = y
  ∧ Pdf.starts_with_digits 4 y = true.
Proof.
  intros Hy. pose proof Hy as [Hd [Hlo Hhi]]%digits_between_inv. cbn [fst snd] in *.
  assert (Hstrip : Py.strip y = y) by (by apply strip_no_space, digits_no_space).
  destruct y as [|a [|b [|c [|d [|e y]]]]]; cbn [String.length] in *; try lia.
  cbn [Py.all_digits] in Hd.
  apply andb_prop in Hd as [Ha [Hb [Hc [Hd _]%andb_prop]%andb_prop]%andb_prop].
  split; [by cbn; rewrite Ha, Hb, Hc, Hd|].
  assert (Hcheck : year_check a b c d = true).
  { pose proof year_check_all as Hall.
    rewrite forallb_forall in Hall. specialize (Hall a (is_digit_cases a Ha)).
    rewrite forallb_forall in Hall. specialize (Hall b (is_digit_cases b Hb)).
    rewrite forallb_forall in Hall. specialize (Hall c (is_digit_cases c Hc)).
    rewrite forallb_forall in Hall. exact (Hall d (is_digit_cases d Hd)). }
  unfold year_check in Hcheck. apply andb_prop in Hcheck as [Hpad Hlt].
  apply String.eqb_eq in Hpad. apply Nat.ltb_lt in Hlt.
  split; [done|]. split; [done|]. split; [done|].
  unfold Pdf.starts_with_digits. cbn. by rewrite Ha, Hb, Hc, Hd.
Qed.

Lemma days_in_month_le y m : Pdf.days_in_month y m ≤ 31.
Proof.
  unfold Pdf.days_in_month.
  do 12 (destruct m as [|m]; [try destruct (Pdf.is_leap y); lia|]). lia.
Qed.

Lemma valid_date_inv y m d :
  Pdf.valid_date y m d = true →
  1 ≤ y ∧ 1 ≤ m ≤ 12 ∧ 1 ≤ d ≤ Pdf.days_in_month y m.
Proof.
  unfold Pdf.valid_date.
  intros [[[[Hy Hm1]%andb_prop Hm2]%andb_prop Hd1]%andb_prop Hd2]%andb_prop.
  apply Nat.leb_le in Hy, Hm1, Hm2, Hd1, Hd2. lia.
Qed.

(** For groups of digits, [strptime] succeeds exactly on the dates of the
    calendar. *)
Lemma accepts_valid y m d :
  Excel.digits_between (4, 4) y = true → Excel.digits_between (1, 2) m = true →
  Excel.digits_between (1, 2) d = true →
  Pdf.accepts Pdf.Year4 y && Pdf.accepts Pdf.Month m && Pdf.accepts Pdf.Day d
  && Pdf.valid_date (Py.int_of_digits y) (Py.int_of_digits m) (Py.int_of_digits d)
  = Pdf.valid_date (Py.int_of_digits y) (Py.int_of_digits m) (Py.int_of_digits d).
Proof.
  intros Hy Hm Hd.
  destruct (four_digits y Hy) as (-> & _).
  destruct (one_or_two_digits m Hm) as (_ & -> & _).
  destruct (one_or_two_digits d Hd) as (-> & _).
  destruct (Pdf.valid_date _ _ _) eqn:Hvalid; [|by rewrite andb_false_r].
  apply valid_date_inv in Hvalid as (_ & [Hm1 Hm2] & [Hd1 Hd2]).
  pose proof (days_in_month_le (Py.int_of_digits y) (Py.int_of_digits m)).
  rewrite (proj2 (Nat.leb_le 1 _) Hm1), (proj2 (Nat.leb_le _ 12) Hm2).
  rewrite (proj2 (Nat.leb_le 1 _) Hd1), (proj2 (Nat.leb_le _ 31)) by lia. done.
Qed.

Lemma split_three sep g1 g2 g3 :
  Py.is_digit sep = false →
  Py.all_digits g1 = true → Py.all_digits g2 = true → Py.all_digits g3 = true →
  Py.split_on sep (g1 +:+ String sep (g2 +:+ String sep g3)) = [g1; g2; g3].
Proof.
  intros Hsep D1 D2 D3.
  assert (Hno : ∀ c, Py.is_digit c = true → negb (Ascii.eqb c sep) = true).
  { intros c Hc. apply negb_true_iff, Ascii.eqb_neq. intros ->. congruence. }
  rewrite !split_on_app by (by apply all_digits_all_chars).
  by rewrite split_on_no_sep by (by apply all_digits_all_chars).
Qed.

(** Three groups of digits around a separator hold no other separator. *)
Lemma split_other sep other g1 g2 g3 :
  Py.is_digit other = false → sep ≠ other →
  Py.all_digits g1 = true → Py.all_digits g2 = true → Py.all_digits g3 = true →
  Py.split_on other (g1 +:+ String sep (g2 +:+ String sep g3))
  = [g1 +:+ String sep (g2 +:+ String sep g3)].
Proof.
  intros Hother Hne D1 D2 D3.
  assert (Hno : ∀ c, Py.is_digit c = true → negb (Ascii.eqb c other) = true).
  { intros c Hc. apply negb_true_iff, Ascii.eqb_neq. intros ->. congruence. }
  apply split_on_no_sep.
  rewrite all_chars_app. cbn [Py.all_chars]. rewrite all_chars_app. cbn [Py.all_chars].
  rewrite !(all_digits_all_chars _ _ Hno) by done.
  by rewrite (proj2 (Ascii.eqb_neq sep other) Hne).
Qed.

Section pdf_date_facts.
Context `{Runtime}.

Lemma strftime_groups y m d :
  Excel.digits_between (4, 4) y = true → Excel.digits_between (1, 2) m = true →
  Excel.digits_between (1, 2) d = true →
  strftime_ymd (mk_datetime (Py.int_of_digits y) (Py.int_of_digits m) (Py.int_of_digits d)
                            0 0 0)
  = y +:+ "-" +:+ Py.zfill2 m +:+ "-" +:+ Py.zfill2 d.
Proof.
  intros Hy Hm Hd. unfold strftime_ymd. cbn [year month day].
  destruct (four_digits y Hy) as (_ & -> & _).
  destruct (one_or_two_digits m Hm) as (_ & _ & -> & _).
  by destruct (one_or_two_digits d Hd) as (_ & _ & -> & _).
Qed.

(** [strptime] with [%d], [%m], [%Y] in this order. *)
Lemma strptime_day_first sep d m y :
  Py.is_digit sep = false →
  Excel.digits_between (1, 2) d = true → Excel.digits_between (1, 2) m = true →
  Excel.digits_between (4, 4) y = true →
  Pdf.strptime (d +:+ String sep (m +:+ String sep y))
                (Pdf.mk_format sep Pdf.Day Pdf.Month Pdf.Year4)
  = if Pdf.valid_date (Py.int_of_digits y) (Py.int_of_digits m) (Py.int_of_digits d)
    then Some (mk_datetime (Py.int_of_digits y) (Py.int_of_digits m) (Py.int_of_digits d)
                           0 0 0)
    else None.
Proof.
  intros Hsep Hd Hm Hy.
  destruct (digits_between_inv _ _ Hd) as [Dd _].
  destruct (digits_between_inv _ _ Hm) as [Dm _].
  destruct (digits_between_inv _ _ Hy) as [Dy _].
  unfold Pdf.strptime. cbn [Pdf.format_separator Pdf.field1 Pdf.field2 Pdf.field3].
  rewrite split_three by done.
  cbn [Pdf.group_of Pdf.field1 Pdf.field2 Pdf.field3 Pdf.directive_eqb].
  destruct (four_digits y Hy) as (_ & _ & _ & -> & _).
  destruct (one_or_two_digits m Hm) as (_ & _ & _ & ->).
  destruct (one_or_two_digits d Hd) as (_ & _ & _ & ->).
  pose proof (accepts_valid y m d Hy Hm Hd) as Hvalid.
  destruct (Pdf.valid_date _ _ _).
  - apply andb_prop in Hvalid as [[[-> ->]%andb_prop ->]%andb_prop _]. done.
  - clear Hvalid. by destruct (_ && _ && _).
Qed.

(** [strptime] with [%m], [%d], [%Y] in this order. *)
Lemma strptime_month_first sep m d y :
  Py.is_digit sep = false →
  Excel.digits_between (1, 2) m = true → Excel.digits_between (1, 2) d = true →
  Excel.digits_between (4, 4) y = true →
  Pdf.strptime (m +:+ String sep (d +:+ String sep y))
                (Pdf.mk_format sep Pdf.Month Pdf.Day Pdf.Year4)
  = if Pdf.valid_date (Py.int_of_digits y) (Py.int_of_digits m) (Py.int_of_digits d)
    then Some (mk_datetime (Py.int_of_digits y) (Py.int_of_digits m) (Py.int_of_digits d)
                           0 0 0)
    else None.
Proof.
  intros Hsep Hm Hd Hy.
  destruct (digits_between_inv _ _ Hd) as [Dd _].
  destruct (digits_between_inv _ _ Hm) as [Dm _].
  destruct (digits_between_inv _ _ Hy) as [Dy _].
  unfold Pdf.strptime. cbn [Pdf.format_separator Pdf.field1 Pdf.field2 Pdf.field3].
  rewrite split_three by done.
  cbn [Pdf.group_of Pdf.field1 Pdf.field2 Pdf.field3 Pdf.directive_eqb].
  destruct (four_digits y Hy) as (_ & _ & _ & -> & _).
  destruct (one_or_two_digits m Hm) as (_ & _ & _ & ->).
  destruct (one_or_two_digits d Hd) as (_ & _ & _ & ->).
  pose proof (accepts_valid y m d Hy Hm Hd) as Hvalid.
  destruct (Pdf.valid_date _ _ _).
  - apply andb_prop in Hvalid as [[[-> ->]%andb_prop ->]%andb_prop _]. done.
  - clear Hvalid. by destruct (_ && _ && _).
Qed.

(** [strptime] with [%Y], [%m], [%d] in this order. *)
Lemma strptime_year_first sep y m d :
  Py.is_digit sep = false →
  Excel.digits_between (4, 4) y = true → Excel.digits_between (1, 2) m = true →
  Excel.digits_between (1, 2) d = true →
  Pdf.strptime (y +:+ String sep (m +:+ String sep d))
                (Pdf.mk_format sep Pdf.Year4 Pdf.Month Pdf.Day)
  = if Pdf.valid_date (Py.int_of_digits y) (Py.int_of_digits m) (Py.int_of_digits d)
    then Some (mk_datetime (Py.int_of_digits y) (Py.int_of_digits m) (Py.int_of_digits d)
                           0 0 0)
    else None.
Proof.
  intros Hsep Hy Hm Hd.
  destruct (digits_between_inv _ _ Hd) as [Dd _].
  destruct (digits_between_inv _ _ Hm) as [Dm _].
  destruct (digits_between_inv _ _ Hy) as [Dy _].
  unfold Pdf.strptime. cbn [Pdf.format_separator Pdf.field1 Pdf.field2 Pdf.field3].
  rewrite split_three by done.
  cbn [Pdf.group_of Pdf.field1 Pdf.field2 Pdf.field3 Pdf.directive_eqb].
  destruct (four_digits y Hy) as (_ & _ & _ & -> & _).
  destruct (one_or_two_digits m Hm) as (_ & _ & _ & ->).
  destruct (one_or_two_digits d Hd) as (_ & _ & _ & ->).
  pose proof (accepts_valid y m d Hy Hm Hd) as Hvalid.
  destruct (Pdf.valid_date _ _ _).
  - apply andb_prop in Hvalid as [[[-> ->]%andb_prop ->]%andb_prop _]. done.
  - clear Hvalid. by destruct (_ && _ && _).
Qed.

End pdf_date_facts.

Section pdf_normalize_facts.
Context `{Runtime}.

Lemma re_match_prefix_groups p g1 g2 g3 :
  Py.is_digit (Excel.separator p) = false →
  Py.all_digits g1 = true → Py.all_digits g2 = true → Py.all_digits g3 = true →
  Pdf.re_match_prefix p
    (g1 +:+ String (Excel.separator p) (g2 +:+ String (Excel.separator p) g3))
  = Excel.digits_between (Excel.width1 p) g1 && Excel.digits_between (Excel.width2 p) g2
    && Pdf.starts_with_digits (fst (Excel.width3 p)) g3.
Proof.
  intros Hsep D1 D2 D3. unfold Pdf.re_match_prefix. by rewrite split_three.
Qed.

Lemma re_match_prefix_other p sep g1 g2 g3 :
  Py.is_digit (Excel.separator p) = false → sep ≠ Excel.separator p →
  Py.all_digits g1 = true → Py.all_digits g2 = true → Py.all_digits g3 = true →
  Pdf.re_match_prefix p (g1 +:+ String sep (g2 +:+ String sep g3)) = false.
Proof.
  intros Hsep Hne D1 D2 D3. unfold Pdf.re_match_prefix. by rewrite split_other.
Qed.

Lemma starts_with_one_digit g :
  Excel.digits_between (1, 2) g = true → Pdf.starts_with_digits 1 g = true.
Proof.
  intros [Hd [Hlo Hhi]]%digits_between_inv. cbn [fst snd] in *.
  destruct g as [|a g]; cbn [String.length] in *; [lia|].
  cbn [Py.all_digits] in Hd. apply andb_prop in Hd as [Ha _].
  unfold Pdf.starts_with_digits. cbn. by rewrite Ha.
Qed.

Lemma digits_between_short g :
  Excel.digits_between (1, 2) g = true → Excel.digits_between (4, 4) g = false.
Proof.
  intros [Hd [Hlo Hhi]]%digits_between_inv. cbn [fst snd] in *.
  unfold Excel.digits_between. cbn [fst snd].
  rewrite (proj2 (Nat.leb_gt 4 (String.length g))) by lia. by rewrite andb_false_r.
Qed.

Lemma digits_between_long g :
  Excel.digits_between (4, 4) g = true → Excel.digits_between (1, 2) g = false.
Proof.
  intros [Hd [Hlo Hhi]]%digits_between_inv. cbn [fst snd] in *.
  unfold Excel.digits_between. cbn [fst snd].
  rewrite (proj2 (Nat.leb_gt (String.length g) 2)) by lia. by rewrite andb_false_r.
Qed.

(** A slash date: read day first, then month first. *)
Lemma normalize_slash a b y :
  Excel.digits_between (1, 2) a = true → Excel.digits_between (1, 2) b = true →
  Excel.digits_between (4, 4) y = true →
  Pdf.normalize_date (a +:+ "/" +:+ b +:+ "/" +:+ y)
  = if Pdf.valid_date (Py.int_of_digits y) (Py.int_of_digits b) (Py.int_of_digits a)
    then y +:+ "-" +:+ Py.zfill2 b +:+ "-" +:+ Py.zfill2 a
    else if Pdf.valid_date (Py.int_of_digits y) (Py.int_of_digits a) (Py.int_of_digits b)
    then y +:+ "-" +:+ Py.zfill2 a +:+ "-" +:+ Py.zfill2 b
    else today.
Proof.
  intros Ha Hb Hy.
  destruct (digits_between_inv _ _ Ha) as [Da _].
  destruct (digits_between_inv _ _ Hb) as [Db _].
  destruct (digits_between_inv _ _ Hy) as [Dy _].
  destruct (four_digits y Hy) as (_ & _ & _ & _ & Hstart).
  change (a +:+ "/" +:+ b +:+ "/" +:+ y) with (a +:+ String "/" (b +:+ String "/" y)).
  unfold Pdf.normalize_date, Pdf.patterns. cbn [Pdf.try_formats].
  rewrite (re_match_prefix_groups (Excel.mk_pattern "/" (1, 2) (1, 2) (4, 4))) by done.
  cbn [Excel.width1 Excel.width2 Excel.width3 fst]. rewrite Ha, Hb, Hstart. cbn [andb].
  rewrite strptime_day_first, strptime_month_first by done.
  rewrite !(re_match_prefix_other _ "/") by done.
  destruct (Pdf.valid_date _ (Py.int_of_digits b) _);
    [by rewrite strftime_groups|].
  destruct (Pdf.valid_date _ (Py.int_of_digits a) _); [by rewrite strftime_groups|done].
Qed.

(** A dash date that starts with the year. *)
Lemma normalize_dash_iso y m d :
  Excel.digits_between (4, 4) y = true → Excel.digits_between (1, 2) m = true →
  Excel.digits_between (1, 2) d = true →
  Pdf.normalize_date (y +:+ "-" +:+ m +:+ "-" +:+ d)
  = if Pdf.valid_date (Py.int_of_digits y) (Py.int_of_digits m) (Py.int_of_digits d)
    then y +:+ "-" +:+ Py.zfill2 m +:+ "-" +:+ Py.zfill2 d
    else today.
Proof.
  intros Hy Hm Hd.
  destruct (digits_between_inv _ _ Hd) as [Dd _].
  destruct (digits_between_inv _ _ Hm) as [Dm _].
  destruct (digits_between_inv _ _ Hy) as [Dy _].
  change (y +:+ "-" +:+ m +:+ "-" +:+ d) with (y +:+ String "-" (m +:+ String "-" d)).
  unfold Pdf.normalize_date, Pdf.patterns. cbn [Pdf.try_formats].
  rewrite !(re_match_prefix_other _ "-") by done.
  rewrite !(re_match_prefix_groups (Excel.mk_pattern "-" _ _ _)) by done.
  cbn [Excel.width1 Excel.width2 Excel.width3 fst].
  rewrite Hy, Hm, (starts_with_one_digit d Hd), (digits_between_long y Hy). cbn [andb].
  rewrite strptime_year_first by done.
  destruct (Pdf.valid_date _ _ _); [by rewrite strftime_groups|done].
Qed.

(** A dash date that ends with the year: read day first only. *)
Lemma normalize_dash_day_first d m y :
  Excel.digits_between (1, 2) d = true → Excel.digits_between (1, 2) m = true →
  Excel.digits_between (4, 4) y = true →
  Pdf.normalize_date (d +:+ "-" +:+ m +:+ "-" +:+ y)
  = if Pdf.valid_date (Py.int_of_digits y) (Py.int_of_digits m) (Py.int_of_digits d)
    then y +:+ "-" +:+ Py.zfill2 m +:+ "-" +:+ Py.zfill2 d
    else today.
Proof.
  intros Hd Hm Hy.
  destruct (digits_between_inv _ _ Hd) as [Dd _].
  destruct (digits_between_inv _ _ Hm) as [Dm _].
  destruct (digits_between_inv _ _ Hy) as [Dy _].
  destruct (four_digits y Hy) as (_ & _ & _ & _ & Hstart).
  change (d +:+ "-" +:+ m +:+ "-" +:+ y) with (d +:+ String "-" (m +:+ String "-" y)).
  unfold Pdf.normalize_date, Pdf.patterns. cbn [Pdf.try_formats].
  rewrite !(re_match_prefix_other _ "-") by done.
  rewrite !(re_match_prefix_groups (Excel.mk_pattern "-" _ _ _)) by done.
  cbn [Excel.width1 Excel.width2 Excel.width3 fst].
  rewrite Hd, Hm, Hstart, (digits_between_short d Hd). cbn [andb].
  rewrite strptime_day_first by done.
  destruct (Pdf.valid_date _ _ _); [by rewrite strftime_groups|done].
Qed.



End pdf_normalize_facts.

(** X21.  The PDF date normaliser on a slash date A/B/YYYY (one or two
    digits, one or two digits, a year of four digits from 1000 on): it is
    read day first when that is a date of the calendar; otherwise month
    first when that is one; otherwise today's date is returned.  The
    result is printed as YYYY-MM-DD with two-digit month and day. *)
Theorem pdf_slash_date_day_first_then_month_first `{Runtime} (a b y : string) :
  Excel.digits_between (1, 2) a = true → Excel.digits_between (1, 2) b = true →
  Excel.digits_between (4, 4) y = true → 1000 ≤ Py.int_of_digits y →
  Pdf.normalize_date (a +:+ "/" +:+ b +:+ "/" +:+ y)
  = if Pdf.valid_date (Py.int_of_digits y) (Py.int_of_digits b) (Py.int_of_digits a)
    then y +:+ "-" +:+ Py.zfill2 b +:+ "-" +:+ Py.zfill2 a
    else if Pdf.valid_date (Py.int_of_digits y) (Py.int_of_digits a) (Py.int_of_digits b)
    then y +:+ "-" +:+ Py.zfill2 a +:+ "-" +:+ Py.zfill2 b
    else today.
Proof. intros Ha Hb Hy _. by apply normalize_slash. Qed.

Lemma pdf_slash_date_day_first_then_month_first_witness :
  @Pdf.normalize_date sample_runtime "2/13/2024" = "2024-02-13".
Proof.
  apply (@pdf_slash_date_day_first_then_month_first sample_runtime "2" "13" "2024");
    [reflexivity..|vm_compute; lia].
Defined.

(** X22.  The PDF date normaliser on dash dates: YYYY-M-D is returned
    zero-padded when it is a date of the calendar, and D-M-YYYY is read
    day first only; there is no month-first reading of a dash date, and
    today's date is returned for what is no date of the calendar. *)
Theorem pdf_dash_date_day_first_only `{Runtime} :
  (∀ y m d, Excel.digits_between (4, 4) y = true → Excel.digits_between (1, 2) m = true →
            Excel.digits_between (1, 2) d = true → 1000 ≤ Py.int_of_digits y →
            Pdf.normalize_date (y +:+ "-" +:+ m +:+ "-" +:+ d)
            = if Pdf.valid_date (Py.int_of_digits y) (Py.int_of_digits m)
                                 (Py.int_of_digits d)
              then y +:+ "-" +:+ Py.zfill2 m +:+ "-" +:+ Py.zfill2 d
              else today)
  ∧ (∀ d m y, Excel.digits_between (1, 2) d = true → Excel.digits_between (1, 2) m = true →
              Excel.digits_between (4, 4) y = true → 1000 ≤ Py.int_of_digits y →
              Pdf.normalize_date (d +:+ "-" +:+ m +:+ "-" +:+ y)
              = if Pdf.valid_date (Py.int_of_digits y) (Py.int_of_digits m)
                                   (Py.int_of_digits d)
                then y +:+ "-" +:+ Py.zfill2 m +:+ "-" +:+ Py.zfill2 d
                else today).
Proof.
  split.
  - intros y m d Hy Hm Hd _. by apply normalize_dash_iso.
  - intros d m y Hd Hm Hy _. by apply normalize_dash_day_first.
Qed.

Lemma pdf_dash_date_day_first_only_witness :
  @Pdf.normalize_date sample_runtime "2024-2-29" = "2024-02-29"
  ∧ @Pdf.normalize_date sample_runtime "12-25-2024" = "2026-01-15".
Proof.
  split.
  - apply (proj1 (@pdf_dash_date_day_first_only sample_runtime) "2024" "2" "29");
      [reflexivity..|vm_compute; lia].
  - apply (proj2 (@pdf_dash_date_day_first_only sample_runtime) "12" "25" "2024");
      [reflexivity..|vm_compute; lia].
Defined.


(** X24.  On a slash date D/M/YYYY that is a date of the calendar when read
    day first, the date normalisers of the PDF processor and of the
    spreadsheet processor return the same text. *)
Theorem normalisers_agree_on_day_first_dates `{Runtime} (d m y : string) :
  Excel.digits_between (1, 2) d = true → Excel.digits_between (1, 2) m = true →
  Excel.digits_between (4, 4) y = true → 1000 ≤ Py.int_of_digits y →
  Pdf.valid_date (Py.int_of_digits y) (Py.int_of_digits m) (Py.int_of_digits d) = true →
  Pdf.normalize_date (d +:+ "/" +:+ m +:+ "/" +:+ y)
  = Excel.detect_date_format (CStr (d +:+ "/" +:+ m +:+ "/" +:+ y)).
Proof.
  intros Hd Hm Hy _ Hvalid.
  rewrite normalize_slash, detect_slash_year4 by done. by rewrite Hvalid.
Qed.

Lemma normalisers_agree_on_day_first_dates_witness :
  @Pdf.normalize_date sample_runtime "25/12/2024"
  = @Excel.detect_date_format sample_runtime (CStr "25/12/2024").
Proof.
  apply (@normalisers_agree_on_day_first_dates sample_runtime "25" "12" "2024");
    [reflexivity..|vm_compute; lia|reflexivity].
Defined.
